(** * tree-notes: the node-link graph store of [frontend-codex/script.js]

    A shallow embedding of the box/line bookkeeping of the editor: the
    [boxes] Map, the [totalBoxes] counter, the box and line elements of
    the page, and the operations [createNewBlock], [addBlock], [newLine],
    [deleteLine], [getLinesAttached], [deleteBox], [download] and
    [upload], followed by the properties the specification states about
    them.  The connect menu, the colour conversion [colorToHex] and
    [rgbToHex], and [getLink] are modelled as well, with properties of
    their own. *)

From Stdlib Require Import List String Ascii Bool ZArith NArith Lia.
From Stdlib Require Import Decimal DecimalString DecimalN Permutation Sorted.
Import ListNotations.
Open Scope string_scope.
Open Scope Z_scope.

Set Warnings "-register-all".

(* ================================================================== *)
(** ** JavaScript values used by the script *)
(* ================================================================== *)

Module JS.

(** A JavaScript number as the script uses it for ids and for the
    allocator: an integer or [NaN].  The operations below are those of
    the script on integers of magnitude below 2^53, where the numbers
    of JavaScript are exact; beyond that bound, and for numerals with
    a fraction, an exponent, a radix prefix or [Infinity], they are
    not the script's.  The statements that depend on the numbers keep
    the ids and the counter below the bound (see [safe_id],
    [below_limit], [numbered_doc] and [numbered]).  Strings are sequences
    of ASCII characters: where the script trims, matches [\s] or
    changes case, the statements are about ASCII text
    ([ascii_text]). *)
Inductive num : Type :=
| NaN : num
| Fin : Z -> num.

(** White space, for the ASCII characters: space, tab, line feed,
    vertical tab, form feed and carriage return. *)
Definition is_ws (c : ascii) : bool :=
  let n := nat_of_ascii c in
  orb (Nat.eqb n 32) (Nat.leb 9 n && Nat.leb n 13)%bool.

Definition is_digit (c : ascii) : bool :=
  let n := nat_of_ascii c in (Nat.leb 48 n && Nat.leb n 57)%bool.

Fixpoint skip_ws (s : string) : string :=
  match s with
  | String c r => if is_ws c then skip_ws r else s
  | EmptyString => EmptyString
  end.

(** [drop_ws_end s] removes the trailing white space of [s]. *)
Fixpoint drop_ws_end (s : string) : string :=
  match s with
  | EmptyString => EmptyString
  | String c r =>
      match drop_ws_end r with
      | EmptyString => if is_ws c then EmptyString else String c EmptyString
      | r' => String c r'
      end
  end.

(** [String.prototype.trim]. *)
Definition trim (s : string) : string := drop_ws_end (skip_ws s).

(** Value of a string of decimal digits, [None] when another character
    occurs. *)
Definition digits_value (s : string) : option Z :=
  match NilEmpty.uint_of_string s with
  | Some d => Some (Z.of_N (N.of_uint d))
  | None => None
  end.

Definition signed (s : string) (f : string -> option Z) : option Z :=
  match s with
  | String "-" r => option_map Z.opp (f r)
  | String "+" r => f r
  | _ => f s
  end.

Definition nonempty_digits (s : string) : option Z :=
  match s with
  | EmptyString => None
  | _ => digits_value s
  end.

(** [Number(s)] for an ASCII string [s] that is empty or blank (then
    [0]), an optionally signed run of decimal digits (then its value),
    or no numeral at all (then [NaN]).  A numeral of another form,
    such as [1.5], [1e3], [0x10] or [Infinity], reads as a number in
    the script and as [NaN] here; no statement below depends on the
    value of such a text. *)
Definition Number (s : string) : num :=
  match trim s with
  | EmptyString => Fin 0
  | t => match signed t nonempty_digits with
         | Some z => Fin z
         | None => NaN
         end
  end.

(** Longest prefix of digits. *)
Fixpoint take_digits (s : string) : string :=
  match s with
  | String c r => if is_digit c then String c (take_digits r) else EmptyString
  | EmptyString => EmptyString
  end.

(** [parseInt(s, 10)]. *)
Definition parseInt (s : string) : num :=
  match signed (skip_ws s) (fun r => nonempty_digits (take_digits r)) with
  | Some z => Fin z
  | None => NaN
  end.

(** Decimal numeral of a natural number, [String(n)]. *)
Definition nat_str (n : N) : string := NilZero.string_of_uint (N.to_uint n).

Definition int_str (z : Z) : string :=
  match z with
  | Zneg p => String "-" (nat_str (Npos p))
  | _ => nat_str (Z.to_N z)
  end.

(** [String(x)] for a number. *)
Definition num_str (x : num) : string :=
  match x with
  | NaN => "NaN"
  | Fin z => int_str z
  end.

(** [++x] and [Math.max(x, y)]. *)
Definition incr (x : num) : num :=
  match x with NaN => NaN | Fin z => Fin (z + 1) end.

Definition max (x y : num) : num :=
  match x, y with
  | Fin a, Fin b => Fin (Z.max a b)
  | _, _ => NaN
  end.

(** [x - y > 0], the test a comparator result is put to by [sort];
    a [NaN] difference counts as [+0]. *)
Definition sub_pos (x y : num) : bool :=
  match x, y with
  | Fin a, Fin b => Z.ltb 0 (a - b)
  | _, _ => false
  end.

(** [x || 0] on a number: [NaN] and [0] are falsy. *)
Definition or_zero (x : num) : Z :=
  match x with NaN => 0 | Fin z => z end.

(** [s.split("_")] read through the pattern [[a, b]]: the first two
    components, [None] standing for [undefined]. *)
Fixpoint until_us (s : string) : string * option string :=
  match s with
  | EmptyString => (EmptyString, None)
  | String c r =>
      if Ascii.eqb c "_" then (EmptyString, Some r)
      else let '(h, t) := until_us r in (String c h, t)
  end.

Definition split2 (s : string) : string * option string :=
  match until_us s with
  | (a, None) => (a, None)
  | (a, Some r) => (a, Some (fst (until_us r)))
  end.

End JS.

(* ================================================================== *)
(** ** Parsed JSON documents *)
(* ================================================================== *)

(** The value [JSON.parse] returns.  An object is its list of
    properties (keys already unique, as in the parsed object); numbers
    are integers, see [JS.num]. *)
Inductive json : Type :=
| JNull : json
| JBool : bool -> json
| JNum : Z -> json
| JStr : string -> json
| JArr : list json -> json
| JObj : list (string * json) -> json.

Module Json.

Fixpoint assoc (k : string) (l : list (string * json)) : option json :=
  match l with
  | [] => None
  | (k', v) :: r => if String.eqb k k' then Some v else assoc k r
  end.

(** [v.k] on a value that is not [null]; [None] is [undefined]. *)
Definition prop (v : json) (k : string) : option json :=
  match v with
  | JObj fields => assoc k fields
  | _ => None
  end.

(** [v?.k]: [undefined] when [v] is [undefined] or [null]. *)
Definition opt_prop (v : option json) (k : string) : option json :=
  match v with
  | None | Some JNull => None
  | Some w => prop w k
  end.

(** Truthiness, for [x || y] and [if (x)]. *)
Definition truthy (v : option json) : bool :=
  match v with
  | None | Some JNull => false
  | Some (JBool b) => b
  | Some (JNum z) => negb (Z.eqb z 0)
  | Some (JStr s) => negb (String.eqb s "")
  | Some (JArr _) | Some (JObj _) => true
  end.

Fixpoint join (sep : string) (l : list string) : string :=
  match l with
  | [] => ""
  | [x] => x
  | x :: r => x ++ sep ++ join sep r
  end.

(** [String(v)]. *)
Fixpoint str (v : json) : string :=
  match v with
  | JNull => "null"
  | JBool true => "true"
  | JBool false => "false"
  | JNum z => JS.int_str z
  | JStr s => s
  | JArr l => join "," (map (fun e => match e with JNull => "" | _ => str e end) l)
  | JObj _ => "[object Object]"
  end.

Definition String (v : option json) : string :=
  match v with
  | None => "undefined"
  | Some w => str w
  end.

(** Whether the conversion of [v] to a string returns; it throws a
    [TypeError] for an object with an own property [toString], which
    cannot be called, and for an array with such an element.  [str]
    is the result when it returns. *)
Fixpoint convertible (v : json) : bool :=
  match v with
  | JObj fields => negb (existsb (fun p => String.eqb (fst p) "toString") fields)
  | JArr l => forallb convertible l
  | _ => true
  end.

Definition converts (v : option json) : bool :=
  match v with
  | None => true
  | Some w => convertible w
  end.

End Json.

(* ================================================================== *)
(** ** Text helpers *)
(* ================================================================== *)

(** What is left of [s] after the literal [p], when [s] starts with it. *)
Fixpoint strip_prefix (p s : string) : option string :=
  match p with
  | EmptyString => Some s
  | String a p' =>
      match s with
      | String c s' => if Ascii.eqb a c then strip_prefix p' s' else None
      | EmptyString => None
      end
  end.

(** [s.startsWith(p)]. *)
Definition startsWith (s p : string) : bool :=
  match strip_prefix p s with Some _ => true | None => false end.

Fixpoint drop_digits (s : string) : string :=
  match s with
  | String c r => if JS.is_digit c then drop_digits r else s
  | EmptyString => EmptyString
  end.

(** Texts of ASCII characters. *)
Fixpoint ascii_text (s : string) : bool :=
  match s with
  | EmptyString => true
  | String c r => Nat.ltb (nat_of_ascii c) 128 && ascii_text r
  end.

(** A colour channel in the form the page reports it: a decimal
    numeral from 0 to 255 without leading zeros; the text after it. *)
Definition channel (s : string) : option string :=
  match JS.nonempty_digits (JS.take_digits s) with
  | Some z =>
      if (z <=? 255) && String.eqb (JS.take_digits s) (JS.int_str z)
      then Some (drop_digits s) else None
  | None => None
  end.

(** The form in which the page reports an opaque colour, whatever
    notation it was assigned in: [rgb(r, g, b)]. *)
Definition css_rgb (v : string) : bool :=
  match strip_prefix "rgb(" v with
  | Some s1 =>
      match channel s1 with
      | Some s2 =>
          match strip_prefix ", " s2 with
          | Some s3 =>
              match channel s3 with
              | Some s4 =>
                  match strip_prefix ", " s4 with
                  | Some s5 =>
                      match channel s5 with
                      | Some s6 => String.eqb s6 ")"
                      | None => false
                      end
                  | None => false
                  end
              | None => false
              end
          | None => false
          end
      | None => false
      end
  | None => false
  end.

(* ================================================================== *)
(** ** The page and the store *)
(* ================================================================== *)

(** A box element: its [id], the text contents of its child nodes in
    document order, and the three inline style properties the script
    reads and writes, as the element reports them when they are read:
    a position as it was assigned, a colour in the form [rgb(r, g, b)]
    whatever notation it was assigned in. *)
Record BoxElem : Type := mkBox {
  id : string;
  children : list string;
  left : string;
  top : string;
  backgroundColor : string
}.

(** [box.childNodes[0]?.textContent], with the empty string for a box
    without child nodes. *)
Definition firstChild (b : BoxElem) : string :=
  match children b with
  | c :: _ => c
  | [] => ""
  end.

(** A value of the [boxes] Map: [{ box, lines }]. *)
Record Entry : Type := mkEntry {
  box : BoxElem;
  lines : list string
}.

(** The mutable state of the script: the [boxes] Map in insertion
    order, the [totalBoxes] counter, the children of [#boxes] and the
    ids of the line elements under [#lines], both in document order. *)
Record State : Type := mkState {
  boxes : list (string * Entry);
  totalBoxes : JS.num;
  dom_boxes : list BoxElem;
  dom_lines : list string
}.

(** Ids of the fixed elements of the page that the script addresses
    with [document.getElementById]. *)
Definition page_ids : list string :=
  [ "zoom"; "tree"; "toolbar"; "boxColor"; "boxes"; "lines"; "text";
    "textToolbar"; "t_dropdown"; "t_boxColor"; "t_remove"; "heading";
    "notesText"; "addBox"; "deleteBox"; "link"; "treeQuickMenu";
    "menuIcon"; "menuPopup" ].

(** [l.includes(x)]. *)
Definition mem (x : string) (l : list string) : bool :=
  existsb (String.eqb x) l.

(** *** The Map *)

(** [boxes.get(k)]. *)
Fixpoint map_get (k : string) (m : list (string * Entry)) : option Entry :=
  match m with
  | [] => None
  | (k', e) :: r => if String.eqb k k' then Some e else map_get k r
  end.

(** [boxes.set(k, e)]: an existing key keeps its place. *)
Fixpoint map_set (k : string) (e : Entry) (m : list (string * Entry))
  : list (string * Entry) :=
  match m with
  | [] => [(k, e)]
  | (k', e') :: r =>
      if String.eqb k k' then (k, e) :: r else (k', e') :: map_set k e r
  end.

(** [boxes.delete(k)]. *)
Definition map_delete (k : string) (m : list (string * Entry))
  : list (string * Entry) :=
  filter (fun p => negb (String.eqb k (fst p))) m.

(** [boxes.keys()], in insertion order. *)
Definition map_keys (m : list (string * Entry)) : list string := map fst m.

(** Assignment to [entry.lines] of the entry stored under [k]. *)
Fixpoint set_lines (k : string) (f : list string -> list string)
  (m : list (string * Entry)) : list (string * Entry) :=
  match m with
  | [] => []
  | (k', e) :: r =>
      if String.eqb k k' then (k', mkEntry (box e) (f (lines e))) :: r
      else (k', e) :: set_lines k f r
  end.

(** Neighbour list stored under [k]; empty when [k] is not a key. *)
Definition get_lines (m : list (string * Entry)) (k : string) : list string :=
  match map_get k m with
  | Some e => lines e
  | None => []
  end.

(** Neighbour list of the box [k] in the state [s]. *)
Definition lines_of (s : State) (k : string) : list string :=
  get_lines (boxes s) k.

(** The Map without its neighbour lists: keys and box elements. *)
Definition shape (m : list (string * Entry)) : list (string * BoxElem) :=
  map (fun p => (fst p, box (snd p))) m.

(** *** The document *)

(** Whether [document.getElementById(x)] finds an element; it finds
    none for the empty string. *)
Definition hasElement (s : State) (x : string) : bool :=
  negb (String.eqb x "") &&
  (mem x (map id (dom_boxes s)) || mem x (dom_lines s) || mem x page_ids).

(** [line.remove()] for the first line element with id [x]. *)
Fixpoint remove_first (x : string) (l : list string) : list string :=
  match l with
  | [] => []
  | y :: r => if String.eqb x y then r else y :: remove_first x r
  end.

(** [box.remove()] for the first box element with id [x]. *)
Fixpoint remove_box (x : string) (l : list BoxElem) : list BoxElem :=
  match l with
  | [] => []
  | b :: r => if String.eqb x (id b) then r else b :: remove_box x r
  end.

(* ================================================================== *)
(** ** Operations of [script.js] *)
(* ================================================================== *)

(** A coordinate handed to [createNewBlock], counted in half pixels:
    [getBoxCoords] adds half of an integer width to an integer offset. *)
Definition whole (z : Z) : Z := 2 * z.

(** The template literal [`${x}`] for the coordinate [h / 2]. *)
Definition coord_str (h : Z) : string :=
  (if Z.ltb h 0 then "-" else "") ++
  JS.nat_str (Z.to_N (Z.abs h / 2)) ++
  (if Z.odd h then ".5" else "").

(** [getBoxCoords(box)], from the layout box of the element:
    [offsetLeft + offsetWidth / 2] and [offsetTop + offsetHeight / 2]. *)
Record Rect : Type := mkRect {
  offsetLeft : Z; offsetTop : Z; offsetWidth : Z; offsetHeight : Z
}.

Definition getBoxCoords (r : Rect) : Z * Z :=
  (whole (offsetLeft r) + offsetWidth r, whole (offsetTop r) + offsetHeight r).

(** [requestedId !== null], with the default [null] of the pattern
    [{ id: requestedId = null }]. *)
Definition requested (v : option json) : option json :=
  match v with
  | None | Some JNull => None
  | Some w => Some w
  end.

(** The text [newBox.textContent = content] gives a box for the value
    [content] of a document; [None] is a missing value, for which
    [createNewBlock] has the default ["New Box"]. *)
Definition content_text (content : option json) : option string :=
  match content with
  | None => None
  | Some JNull => Some ""
  | Some w => Some (Json.str w)
  end.

(** What the element reports after
    [newBox.style.backgroundColor = "#f1f1f1"]. *)
Definition default_colour : string := "rgb(241, 241, 241)".

(** [createNewBlock(x, y, content, { id })], with [x] and [y] in half
    pixels, a text for [content] and a string for the requested id
    ([None] for the defaults).  An empty text leaves the box without a
    text node: its only child is the footer [#id]. *)
Definition createNewBlock (x y : Z) (content : option string)
  (reqId : option string) (s : State) : State * BoxElem :=
  let '(resolvedId, t1) :=
    match reqId with
    | Some k => (k, totalBoxes s)
    | None => (JS.num_str (JS.incr (totalBoxes s)), JS.incr (totalBoxes s))
    end in
  let t2 := JS.max t1 (JS.Number resolvedId) in
  let txt := match content with Some t => t | None => "New Box" end in
  let newBox :=
    mkBox resolvedId
          ((if String.eqb txt "" then [] else [txt]) ++ [("#" ++ resolvedId)%string])%list
          (coord_str x ++ "px") (coord_str y ++ "px") default_colour in
  (mkState (map_set resolvedId (mkEntry newBox []) (boxes s))
           t2
           (dom_boxes s ++ [newBox])%list
           (dom_lines s),
   newBox).

(** [[a, b].sort((a, b) => Number(a) - Number(b)).join("_")]. *)
Definition lineIdOf (a b : string) : string :=
  if JS.sub_pos (JS.Number a) (JS.Number b)
  then b ++ "_" ++ a
  else a ++ "_" ++ b.

(** The guarded [entry.lines.push(x)] of [newLine], on the entry
    stored under [k]; nothing happens when [k] is not a key. *)
Definition push_line (k x : string) (m : list (string * Entry))
  : list (string * Entry) :=
  set_lines k (fun l => if mem x l then l else (l ++ [x])%list) m.

(** [newLine(box1, box2)].  The arguments are ids; a call with an
    element is the call with its id, the element being in the page. *)
Definition newLine (box1 box2 : string) (s : State) : State :=
  if negb (hasElement s box1) || negb (hasElement s box2) then s
  else
    let lineId := lineIdOf box1 box2 in
    if hasElement s lineId then s
    else
      mkState (push_line box2 box1 (push_line box1 box2 (boxes s)))
              (totalBoxes s)
              (dom_boxes s)
              (dom_lines s ++ [lineId])%list.

(** [addBlock(box)], given the layout box of [box]. *)
Definition addBlock (boxId : string) (r : Rect) (s : State) : State :=
  let '(x1, y1) := getBoxCoords r in
  let '(s1, newBox) := createNewBlock x1 y1 None None s in
  newLine boxId (id newBox) s1.

(** The filter [id => id !== b]; [b] absent is [undefined], which no
    stored id equals. *)
Definition drop_id (b : option string) (l : list string) : list string :=
  match b with
  | Some x => filter (fun i => negb (String.eqb i x)) l
  | None => l
  end.

(** [deleteLine(line)] for the line element with id [lineId]. *)
Definition deleteLine (lineId : string) (s : State) : State :=
  let '(a, b) := JS.split2 lineId in
  let m1 := set_lines a (drop_id b) (boxes s) in
  let m2 := match b with
            | Some b' => set_lines b' (drop_id (Some a)) m1
            | None => m1
            end in
  mkState m2 (totalBoxes s) (dom_boxes s) (remove_first lineId (dom_lines s)).

(** [deleteLine(line)] as the earlier version of the script has it:
    [boxes.values().forEach(item => item.lines = item.lines.filter(id
    => id !== a && id !== b))], on every entry of the Map. *)
Module Legacy.

Definition prune (a : string) (b : option string) (l : list string) : list string :=
  filter (fun i => negb (String.eqb i a) &&
                   match b with Some b' => negb (String.eqb i b') | None => true end) l.

Definition deleteLine (lineId : string) (s : State) : State :=
  let '(a, b) := JS.split2 lineId in
  mkState (map (fun p => (fst p, mkEntry (box (snd p)) (prune a b (lines (snd p)))))
               (boxes s))
          (totalBoxes s) (dom_boxes s) (remove_first lineId (dom_lines s)).

End Legacy.

(** The filter of [getLinesAttached]: [a === box.id || b === box.id]
    for [[a, b] = line.id.split("_")]. *)
Definition attached (boxId : string) (l : string) : bool :=
  let '(a, b) := JS.split2 l in
  String.eqb a boxId ||
  match b with Some b' => String.eqb b' boxId | None => false end.

(** [getLinesAttached(box)]. *)
Definition getLinesAttached (boxId : string) (s : State) : list string :=
  filter (attached boxId) (dom_lines s).

(** [deleteBox(box)] for the box element with id [boxId]. *)
Definition deleteBox (boxId : string) (s : State) : State :=
  let s1 := fold_left (fun acc l => deleteLine l acc) (getLinesAttached boxId s) s in
  mkState (map_delete boxId (boxes s1))
          (totalBoxes s1)
          (remove_box boxId (dom_boxes s1))
          (dom_lines s1).

(** The membership test of the connect menu,
    [connectedIds.has(String(id))] for the menu of [boxId]. *)
Definition isConnected (s : State) (boxId i : string) : bool :=
  mem i (lines_of s boxId).

(** The branch of the connect-menu click handler for an item marked
    connected: [if (existingLine) deleteLine(existingLine)] for the
    element with id [`${a}_${b}`]. *)
Definition disconnect (a b : string) (s : State) : State :=
  if hasElement s (a ++ "_" ++ b) then deleteLine (a ++ "_" ++ b) s else s.

(** [Math.min(x, y)]. *)
Definition num_min (x y : JS.num) : JS.num :=
  match x, y with
  | JS.Fin a, JS.Fin b => JS.Fin (Z.min a b)
  | _, _ => JS.NaN
  end.

(** The click handler of a connect-menu item of the box [boxId] for
    the entry [i]: disconnect when the item was marked connected,
    connect otherwise. *)
Definition menuClick (boxId i : string) (s : State) : State :=
  let lesser := JS.num_str (num_min (JS.Number boxId) (JS.Number i)) in
  let greater := JS.num_str (JS.max (JS.Number boxId) (JS.Number i)) in
  if isConnected s boxId i then disconnect lesser greater s
  else newLine lesser greater s.

(** *** Export *)

(** One element of the [boxes] array written by [download]. *)
Definition export_box (p : string * Entry) : json :=
  let '(k, e) := p in
  JObj [ ("id", JStr k);
         ("content", JStr (JS.trim (firstChild (box e))));
         ("style", JObj [ ("left", JStr (left (box e)));
                          ("top", JStr (top (box e)));
                          ("backgroundColor", JStr (backgroundColor (box e))) ]);
         ("lines", JArr (map JStr (lines e))) ].

(** The [boxes] property of the object [download] serialises (the
    [heading], [cueText] and [summary] properties hold page text that
    is not part of the store).  [JSON.parse] of the serialised text
    gives this value back. *)
Definition download_boxes (s : State) : list json := map export_box (boxes s).

Definition download (s : State) : json :=
  JObj [ ("boxes", JArr (download_boxes s)) ].

(** *** Import *)

(** What [reader.onload] is given: the text of the file, seen through
    [JSON.parse], which throws on a text that is not JSON. *)
Inductive FileText : Type :=
| NotJson : FileText
| Parsed : json -> FileText.

(** How a handler ends: normally, or by an uncaught exception, with
    the state it leaves behind in both cases. *)
Inductive Outcome : Type :=
| Done : State -> Outcome
| Thrown : State -> Outcome.

Definition final (o : Outcome) : State :=
  match o with Done s | Thrown s => s end.

(** [[...new Set(l)]]: first occurrences, in order. *)
Fixpoint dedupe (l : list string) : list string :=
  match l with
  | [] => []
  | x :: r => x :: filter (fun y => negb (String.eqb y x)) (dedupe r)
  end.

(** [(v || []).forEach(f)]: the elements [f] is applied to, or [None]
    when [v] is truthy and has no [forEach] method. *)
Definition forEach_target (v : option json) : option (list json) :=
  if Json.truthy v then
    match v with
    | Some (JArr l) => Some l
    | _ => None
    end
  else Some [].

(** Replaces the last child of [#boxes]. *)
Definition set_last (b : BoxElem) (l : list BoxElem) : list BoxElem :=
  (removelast l ++ [b])%list.

(** [newBox.style.backgroundColor = v]: a colour in the form the page
    reports is kept as it is, and a text that is no colour is ignored.
    A colour in another notation would be reported in the form
    [rgb(r, g, b)]; it is taken for no colour here, and the statements
    about imports keep to documents whose colours have the reported
    form, which is the form [download] writes. *)
Definition set_backgroundColor (v : string) (b : BoxElem) : BoxElem :=
  if css_rgb v
  then mkBox (id b) (children b) (left b) (top b) v
  else b.

(** Body of the first [forEach] of [upload], for one element of
    [data.boxes].  It throws when the element is [null] (the pattern
    of the parameter), and when a value that is converted to a string
    has no such conversion: the positions and the id before anything
    is changed, the content inside [createNewBlock] after the counter
    is assigned and before the box is appended, the colour after the
    box is stored, a neighbour id before the list is assigned. *)
Definition restore_fields (e : json) (s : State) : Outcome :=
  let style := Json.prop e "style" in
  let vl := Json.opt_prop style "left" in
  let vt := Json.opt_prop style "top" in
  let rid := requested (Json.prop e "id") in
  let content := Json.prop e "content" in
  let bg := Json.opt_prop style "backgroundColor" in
  if negb (Json.converts vl && Json.converts vt && Json.converts rid)
  then Thrown s
  else
    let l := JS.or_zero (JS.parseInt (Json.String vl)) in
    let t := JS.or_zero (JS.parseInt (Json.String vt)) in
    let '(s1, newBox) :=
      createNewBlock (whole l) (whole t) (content_text content)
                     (option_map Json.str rid) s in
    if negb (Json.converts content)
    then Thrown (mkState (boxes s) (totalBoxes s1) (dom_boxes s) (dom_lines s))
    else if Json.truthy bg && negb (Json.converts bg)
    then Thrown s1
    else
      let newBox' :=
        if Json.truthy bg
        then set_backgroundColor (Json.String bg) newBox
        else newBox in
      let stored ls :=
        mkState (map_set (id newBox) (mkEntry newBox' ls) (boxes s1))
                (totalBoxes s1)
                (set_last newBox' (dom_boxes s1))
                (dom_lines s1) in
      match Json.prop e "lines" with
      | Some (JArr a) =>
          if forallb Json.convertible a
          then Done (stored (dedupe (map Json.str a)))
          else Thrown (stored [])
      | _ => Done (stored [])
      end.

Definition restore_box (e : json) (s : State) : Outcome :=
  match e with
  | JNull => Thrown s
  | _ => restore_fields e s
  end.

Fixpoint restore_boxes (l : list json) (s : State) : Outcome :=
  match l with
  | [] => Done s
  | e :: r =>
      match restore_box e s with
      | Done s' => restore_boxes r s'
      | Thrown s' => Thrown s'
      end
  end.

(** [ls.forEach(linkId => newLine(String(id), String(linkId)))] for
    the id [k] of a box of the document; a conversion that throws ends
    it with the lines made so far. *)
Fixpoint link_each (k : option json) (ls : list json) (s : State) : Outcome :=
  match ls with
  | [] => Done s
  | x :: r =>
      if Json.converts k && Json.convertible x
      then link_each k r (newLine (Json.String k) (Json.str x) s)
      else Thrown s
  end.

(** Body of the second [forEach], for one element of [data.boxes]. *)
Definition reconnect_box (e : json) (s : State) : Outcome :=
  match e with
  | JNull => Thrown s
  | _ =>
      match forEach_target (Json.prop e "lines") with
      | Some ls => link_each (Json.prop e "id") ls s
      | None => Thrown s
      end
  end.

Fixpoint reconnect_boxes (l : list json) (s : State) : Outcome :=
  match l with
  | [] => Done s
  | e :: r =>
      match reconnect_box e s with
      | Done s' => reconnect_boxes r s'
      | Thrown s' => Thrown s'
      end
  end.

(** Whether [element.innerText = v || ""] returns. *)
Definition page_text_ok (v : option json) : bool :=
  negb (Json.truthy v) || Json.converts v.

(** The state after [innerHTML = ''] on [#boxes] and [#lines],
    [boxes.clear()] and [totalBoxes = 0]. *)
Definition cleared : State := mkState [] (JS.Fin 0) [] [].

(** [reader.onload] of [upload].  [JSON.parse] throws on a text that is
    not JSON, [data.heading] throws on [null], and each of the three
    assignments of page text throws when its value has no conversion
    to a string, all before the store is changed (the page texts are
    not part of the store); then the page and the store are cleared
    and the two [forEach] passes run. *)
Definition upload (f : FileText) (s : State) : Outcome :=
  match f with
  | NotJson => Thrown s
  | Parsed JNull => Thrown s
  | Parsed data =>
      if negb (page_text_ok (Json.prop data "heading") &&
               page_text_ok (Json.prop data "cueText") &&
               page_text_ok (Json.prop data "summary"))
      then Thrown s
      else
        match forEach_target (Json.prop data "boxes") with
        | None => Thrown cleared
        | Some bs =>
            match restore_boxes bs cleared with
            | Thrown s1 => Thrown s1
            | Done s1 => reconnect_boxes bs s1
            end
        end
  end.

(** *** The page as loaded *)

(** The state after the script has run on the page: the seed box of
    the markup is the only box, and the counter is 1. *)
Definition init (seed : BoxElem) : State :=
  mkState [(id seed, mkEntry seed [])] (JS.Fin 1) [seed] [].

(** Modelled from the spec: the page markup is not among the sources;
    its seed box is node [1] ("start with seed node 1").  Its text and
    inline style are left open. *)
Definition seed_box (kids : list string) (l t bg : string) : BoxElem :=
  mkBox "1" kids l t bg.

(* ================================================================== *)
(** ** Well-formed stores *)
(* ================================================================== *)

(** Strings of decimal digits, and strings with an underscore. *)
Fixpoint all_digits (s : string) : bool :=
  match s with
  | EmptyString => true
  | String c r => JS.is_digit c && all_digits r
  end.

Fixpoint has_us (s : string) : bool :=
  match s with
  | EmptyString => false
  | String c r => Ascii.eqb c "_" || has_us r
  end.

(** Node ids are the decimal numerals the allocator produces. *)
Definition numeral (s : string) : Prop := exists n : N, s = JS.nat_str n.

(** The bound 2^53 below which the numbers of the script are exact,
    the ids below it, and the stores in which the allocator can hand
    out one more id below it. *)
Definition id_limit : N := 9007199254740992.

Definition safe_id (s : string) : Prop :=
  exists n : N, (n < id_limit)%N /\ s = JS.nat_str n.

Definition below_limit (s : State) : Prop :=
  exists t, totalBoxes s = JS.Fin t /\ t + 1 < Z.of_N id_limit.

(** The coordinates, in half pixels, that an element reports as they
    were assigned: a style length is reported with six significant
    digits, which covers the half pixels below 100000 pixels. *)
Definition pos_limit : Z := 200000.

Definition within (h : Z) : Prop := Z.abs h < pos_limit.

Definition keys (s : State) : list string := map_keys (boxes s).

(** The consistency the two representations of the graph are kept in:
    the Map and the children of [#boxes] list the same boxes, line
    elements and neighbour lists describe the same edges, and the
    counter bounds every id.  During the second pass of an import the
    pairs still to be connected are [pend]; they are the only mutual
    references allowed to lack their line. *)
Record InvP (pend : list (string * string)) (s : State) : Prop := mkInv {
  inv_keys_nodup : NoDup (keys s);
  inv_keys_num : forall k, In k (keys s) -> numeral k;
  inv_entry_id : forall k b, In (k, b) (shape (boxes s)) -> id b = k;
  inv_dom : dom_boxes s = map snd (shape (boxes s));
  inv_lines_nodup : NoDup (dom_lines s);
  inv_lines_sound : forall l, In l (dom_lines s) ->
    exists a b, In a (keys s) /\ In b (keys s) /\ l = lineIdOf a b /\
                In b (lines_of s a) /\ In a (lines_of s b);
  inv_lines_pending : forall a b, In a (keys s) -> In b (keys s) ->
    In b (lines_of s a) -> In a (lines_of s b) ->
    In (a, b) pend \/ In (lineIdOf a b) (dom_lines s);
  inv_refs_nodup : forall a, NoDup (lines_of s a);
  inv_refs_num : forall a x, In x (lines_of s a) -> numeral x;
  inv_total : exists t, totalBoxes s = JS.Fin t /\ 0 <= t /\
    forall n, In (JS.nat_str n) (keys s) -> Z.of_N n <= t
}.

Arguments inv_keys_nodup {pend} s _.
Arguments inv_keys_num {pend} s _ k _.
Arguments inv_entry_id {pend} s _ k b _.
Arguments inv_dom {pend} s _.
Arguments inv_lines_nodup {pend} s _.
Arguments inv_lines_sound {pend} s _ l _.
Arguments inv_lines_pending {pend} s _ a b _ _ _ _.
Arguments inv_refs_nodup {pend} s _ a.
Arguments inv_refs_num {pend} s _ a x _.
Arguments inv_total {pend} s _.

(** The well-formed stores: no connection is pending. *)
Definition Inv (s : State) : Prop := InvP [] s.

(** The id [String(id)] the import uses for an element of [boxes]. *)
Definition box_id (e : json) : string := Json.String (Json.prop e "id").

(** The [newLine] calls of the second pass of an import, in order. *)
Definition link_calls (bs : list json) : list (string * string) :=
  flat_map (fun e =>
              match Json.prop e "lines" with
              | Some (JArr a) => map (fun x => (box_id e, Json.str x)) a
              | _ => []
              end) bs.

(** Every neighbour reference between two boxes is held by both. *)
Definition mutual (s : State) : Prop :=
  forall a b, In a (keys s) -> In b (keys s) ->
    In b (lines_of s a) -> In a (lines_of s b).

(** The element and the neighbour list the first pass of an import
    gives the box of the document element [e] with id [k]. *)
Definition restored (e : json) (k : string) : BoxElem :=
  let style := Json.prop e "style" in
  let txt := match content_text (Json.prop e "content") with
             | Some t => t
             | None => "New Box"
             end in
  let b :=
    mkBox k
      ((if String.eqb txt "" then [] else [txt]) ++ [("#" ++ k)%string])%list
      (coord_str (whole (JS.or_zero (JS.parseInt (Json.String (Json.opt_prop style "left"))))) ++ "px")
      (coord_str (whole (JS.or_zero (JS.parseInt (Json.String (Json.opt_prop style "top"))))) ++ "px")
      default_colour in
  if Json.truthy (Json.opt_prop style "backgroundColor")
  then set_backgroundColor (Json.String (Json.opt_prop style "backgroundColor")) b
  else b.

Definition restored_lines (e : json) : list string :=
  match Json.prop e "lines" with
  | Some (JArr a) => dedupe (map Json.str a)
  | _ => []
  end.

(** A store without lines, every reference of which is pending. *)
Definition unlinked (pend : list (string * string)) (s : State) : Prop :=
  dom_lines s = [] /\ forall a b, In b (lines_of s a) -> In (a, b) pend.

(** The Map entry the first pass of an import makes of [e]. *)
Definition restored_entry (e : json) : string * Entry :=
  (box_id e, mkEntry (restored e (box_id e)) (restored_lines e)).

(** A sequence of [newLine] calls. *)
Definition connect_all (calls : list (string * string)) (s : State) : State :=
  fold_left (fun acc p => newLine (fst p) (snd p) acc) calls s.

(** An element of [boxes] whose values all have a conversion to a
    string, with an id that reads as a numeral and an array of such
    ids; and a document of such elements with pairwise distinct ids.
    On these the import runs to its end. *)
Definition wf_box (e : json) : Prop :=
  (exists w, requested (Json.prop e "id") = Some w /\
             Json.convertible w = true /\ numeral (Json.str w)) /\
  (exists a, Json.prop e "lines" = Some (JArr a) /\
             forall x, In x a -> Json.convertible x = true /\ numeral (Json.str x)) /\
  Json.converts (Json.prop e "content") = true /\
  Json.converts (Json.opt_prop (Json.prop e "style") "left") = true /\
  Json.converts (Json.opt_prop (Json.prop e "style") "top") = true /\
  Json.converts (Json.opt_prop (Json.prop e "style") "backgroundColor") = true.

Definition wf_doc (data : json) : Prop :=
  exists bs, Json.prop data "boxes" = Some (JArr bs) /\
             (forall e, In e bs -> wf_box e) /\
             NoDup (map box_id bs) /\
             page_text_ok (Json.prop data "heading") = true /\
             page_text_ok (Json.prop data "cueText") = true /\
             page_text_ok (Json.prop data "summary") = true.

(** A document on which the import completes and whose ids are in
    the range in which the integers of this model are the numbers of
    the script: the box ids and the neighbour ids read as decimal
    numerals below 2^53, the box ids are pairwise distinct, and every
    value that is converted to a string has a conversion. *)
Definition numbered_box (e : json) : Prop :=
  (exists w, requested (Json.prop e "id") = Some w /\
             Json.convertible w = true /\ safe_id (Json.str w)) /\
  (exists a, Json.prop e "lines" = Some (JArr a) /\
             forall x, In x a -> Json.convertible x = true /\ safe_id (Json.str x)) /\
  Json.converts (Json.prop e "content") = true /\
  Json.converts (Json.opt_prop (Json.prop e "style") "left") = true /\
  Json.converts (Json.opt_prop (Json.prop e "style") "top") = true /\
  Json.converts (Json.opt_prop (Json.prop e "style") "backgroundColor") = true.

Definition numbered_doc (data : json) : Prop :=
  exists bs, Json.prop data "boxes" = Some (JArr bs) /\
             (forall e, In e bs -> numbered_box e) /\
             NoDup (map box_id bs) /\
             page_text_ok (Json.prop data "heading") = true /\
             page_text_ok (Json.prop data "cueText") = true /\
             page_text_ok (Json.prop data "summary") = true.

(** *** The serialised format *)

(** The values [download] writes, within the range in which the model
    is exact: an id is a string or a number that reads as a numeral
    below 2^53; a text is a string; a position is an ASCII string that
    [parseInt] reads as nothing or as a number within [pos_limit]; a
    colour is empty or has the form the page reports. *)
Definition id_value (v : json) : Prop :=
  ((exists t, v = JStr t) \/ (exists z, v = JNum z)) /\ safe_id (Json.str v).

Definition text_value (v : option json) : Prop :=
  v = None \/ exists t, v = Some (JStr t).

Definition pos_value (v : option json) : Prop :=
  v = None \/
  exists t, v = Some (JStr t) /\ ascii_text t = true /\
            within (whole (JS.or_zero (JS.parseInt t))).

Definition colour_value (v : option json) : Prop :=
  v = None \/ exists c, v = Some (JStr c) /\ (c = "" \/ css_rgb c = true).

Definition style_value (v : option json) : Prop :=
  v = None \/
  exists fields, v = Some (JObj fields) /\
    pos_value (Json.assoc "left" fields) /\
    pos_value (Json.assoc "top" fields) /\
    colour_value (Json.assoc "backgroundColor" fields).

(** An element of [boxes] in the serialised format, and a document in
    the serialised format, its box ids pairwise distinct. *)
Definition snapshot_box (e : json) : Prop :=
  (exists w, Json.prop e "id" = Some w /\ id_value w) /\
  (exists a, Json.prop e "lines" = Some (JArr a) /\
             forall x, In x a -> id_value x) /\
  text_value (Json.prop e "content") /\
  style_value (Json.prop e "style").

Definition snapshot (data : json) : Prop :=
  exists bs, Json.prop data "boxes" = Some (JArr bs) /\
             (forall e, In e bs -> snapshot_box e) /\
             NoDup (map box_id bs) /\
             text_value (Json.prop data "heading") /\
             text_value (Json.prop data "cueText") /\
             text_value (Json.prop data "summary").

(** States the editor reaches from the loaded page: creation of boxes
    with allocated ids, connection and disconnection, deletion, and
    import of documents on which the import completes. *)
Inductive reachable (seed : BoxElem) : State -> Prop :=
| r_init : reachable seed (init seed)
| r_create : forall s x y content,
    reachable seed s ->
    reachable seed (fst (createNewBlock x y content None s))
| r_addBlock : forall s k r,
    reachable seed s -> In k (keys s) ->
    reachable seed (addBlock k r s)
| r_newLine : forall s a b,
    reachable seed s -> numeral a -> numeral b ->
    reachable seed (newLine a b s)
| r_deleteLine : forall s l,
    reachable seed s -> In l (dom_lines s) ->
    reachable seed (deleteLine l s)
| r_deleteBox : forall s k,
    reachable seed s -> In k (keys s) ->
    reachable seed (deleteBox k s)
| r_upload : forall s data s',
    reachable seed s -> wf_doc data ->
    upload (Parsed data) s = Done s' ->
    reachable seed s'.

(** The states among them that the editor reaches while its ids stay
    in the range in which the integers of this model are the numbers
    of the script: boxes created while the counter leaves room for
    one more id below 2^53, connections between boxes of the store,
    and imports of documents with pairwise distinct decimal ids below
    2^53 on which the import completes. *)
Inductive numbered (seed : BoxElem) : State -> Prop :=
| n_init : numbered seed (init seed)
| n_create : forall s x y content,
    numbered seed s -> below_limit s ->
    numbered seed (fst (createNewBlock x y content None s))
| n_addBlock : forall s k r,
    numbered seed s -> In k (keys s) -> below_limit s ->
    numbered seed (addBlock k r s)
| n_newLine : forall s a b,
    numbered seed s -> In a (keys s) -> In b (keys s) ->
    numbered seed (newLine a b s)
| n_deleteLine : forall s l,
    numbered seed s -> In l (dom_lines s) ->
    numbered seed (deleteLine l s)
| n_deleteBox : forall s k,
    numbered seed s -> In k (keys s) ->
    numbered seed (deleteBox k s)
| n_upload : forall s data s',
    numbered seed s -> numbered_doc data ->
    upload (Parsed data) s = Done s' ->
    numbered seed s'.

(** The states among these in which also the box elements are as the
    page has them: positions within [pos_limit], and imports of
    documents in the serialised format. *)
Inductive bounded (seed : BoxElem) : State -> Prop :=
| b_init : bounded seed (init seed)
| b_create : forall s x y content,
    bounded seed s -> below_limit s -> within x -> within y ->
    bounded seed (fst (createNewBlock x y content None s))
| b_addBlock : forall s k r,
    bounded seed s -> In k (keys s) -> below_limit s ->
    within (fst (getBoxCoords r)) -> within (snd (getBoxCoords r)) ->
    bounded seed (addBlock k r s)
| b_newLine : forall s a b,
    bounded seed s -> In a (keys s) -> In b (keys s) ->
    bounded seed (newLine a b s)
| b_deleteLine : forall s l,
    bounded seed s -> In l (dom_lines s) ->
    bounded seed (deleteLine l s)
| b_deleteBox : forall s k,
    bounded seed s -> In k (keys s) ->
    bounded seed (deleteBox k s)
| b_upload : forall s data s',
    bounded seed s -> snapshot data ->
    upload (Parsed data) s = Done s' ->
    bounded seed s'.

(** *** Sample stores *)

(** The page as loaded, with a seed box at the origin. *)
Definition seed0 : BoxElem :=
  seed_box ["Seed"; "#1"] "0px" "0px" default_colour.

Definition page0 : State := init seed0.

(** Three boxes, none connected. *)
Definition three : State :=
  fst (createNewBlock (whole 100) (whole 20) None None
         (fst (createNewBlock (whole 50) (whole 20) None None page0))).

(** The path 1-2-3. *)
Definition path123 : State := newLine "2" "3" (newLine "1" "2" three).

(** Whether the numeric values of a list of ids ascend. *)
Fixpoint ascending (l : list string) : bool :=
  match l with
  | x :: ((y :: _) as r) =>
      negb (JS.sub_pos (JS.Number x) (JS.Number y)) && ascending r
  | _ => true
  end.

(** A box as the script creates it, at a whole-pixel position within
    the bound, with a background colour in the form the page reports
    and with a text node whose ASCII text [trim] leaves as it is,
    followed by the footer. *)
Definition plain_box (b : BoxElem) : Prop :=
  (exists z, within (whole z) /\ left b = coord_str (whole z) ++ "px") /\
  (exists z, within (whole z) /\ top b = coord_str (whole z) ++ "px") /\
  css_rgb (backgroundColor b) = true /\
  (exists t, children b = [t; "#" ++ id b] /\ ascii_text t = true /\
             JS.trim t = t /\ t <> "").

(** A box whose export is read back exactly: a position within
    [pos_limit], a background colour that is empty or in the form the
    page reports, and an ASCII text in its first child node. *)
Definition exportable (b : BoxElem) : Prop :=
  (exists h, within h /\ left b = coord_str h ++ "px") /\
  (exists h, within h /\ top b = coord_str h ++ "px") /\
  (backgroundColor b = "" \/ css_rgb (backgroundColor b) = true) /\
  ascii_text (firstChild b) = true.

(** *** Documents outside the serialised format *)

(** The call of [createNewBlock] in the first pass of an import, for
    the element [e] of [boxes]. *)
Definition created (e : json) (s : State) : State * BoxElem :=
  createNewBlock
    (whole (JS.or_zero (JS.parseInt (Json.String (Json.opt_prop (Json.prop e "style") "left")))))
    (whole (JS.or_zero (JS.parseInt (Json.String (Json.opt_prop (Json.prop e "style") "top")))))
    (content_text (Json.prop e "content"))
    (option_map Json.str (requested (Json.prop e "id"))) s.

(** An id or a neighbour id whose text this model has as the script
    has it: an ASCII string, or an integer below 2^53 in absolute
    value. *)
Definition id_text (w : json) : Prop :=
  (exists t, w = JStr t /\ ascii_text t = true) \/
  (exists z, w = JNum z /\ Z.abs z < Z.of_N id_limit).

(** An element of [boxes] for which the body of the first [forEach]
    returns: it is not [null], the values that are converted to
    strings have a conversion, and its id and its neighbour ids, if
    any, are such texts. *)
Definition loadable (e : json) : Prop :=
  e <> JNull /\
  Json.converts (Json.opt_prop (Json.prop e "style") "left") = true /\
  Json.converts (Json.opt_prop (Json.prop e "style") "top") = true /\
  Json.converts (Json.opt_prop (Json.prop e "style") "backgroundColor") = true /\
  Json.converts (Json.prop e "content") = true /\
  (forall w, requested (Json.prop e "id") = Some w -> id_text w) /\
  (forall a, Json.prop e "lines" = Some (JArr a) -> forall x, In x a -> id_text x).

(** Texts that start with a lower-case letter; none of them reads as
    a number. *)
Definition lower_first (t : string) : bool :=
  match t with
  | String c _ => (Nat.leb 97 (nat_of_ascii c) && Nat.leb (nat_of_ascii c) 122)%bool
  | EmptyString => false
  end.

(** Sample documents: a reference to the id of the page heading, and
    references to a box that is not in the document. *)
Definition doc_heading : json :=
  JObj [ ("boxes", JArr [ JObj [ ("id", JStr "1");
                                 ("lines", JArr [ JStr "heading" ]) ] ]) ].

Definition doc_dangling : json :=
  JObj [ ("boxes", JArr [ JObj [ ("id", JStr "1");
                                 ("lines", JArr [ JStr "2"; JStr "9" ]) ];
                          JObj [ ("id", JStr "2");
                                 ("lines", JArr [ JStr "9" ]) ] ]) ].

(** A document outside the serialised format: two boxes whose ids,
    [1] and [01], read as the same number; and the store its import
    leaves. *)
Definition doc_leading_zero : json :=
  JObj [ ("boxes", JArr [ JObj [ ("id", JStr "1") ];
                          JObj [ ("id", JStr "01") ] ]) ].

Definition leading_zero : State := final (upload (Parsed doc_leading_zero) page0).

(** A document outside the serialised format: a box whose id has an
    underscore; and the store its import leaves. *)
Definition doc_underscore : json :=
  JObj [ ("boxes", JArr [ JObj [ ("id", JStr "1") ];
                          JObj [ ("id", JStr "1_2");
                                 ("lines", JArr [ JStr "3" ]) ];
                          JObj [ ("id", JStr "3") ] ]) ].

Definition underscore : State := final (upload (Parsed doc_underscore) page0).

(** A document outside the serialised format: a box whose id is the
    text [NaN]. *)
Definition doc_nan : json :=
  JObj [ ("boxes", JArr [ JObj [ ("id", JStr "NaN") ] ]) ].

(** Box 1 connected to box 3, then to box 2. *)
Definition star : State := newLine "1" "2" (newLine "1" "3" three).

(** Sample documents that do not have the expected shape: [boxes] is
    a number; the second element of [boxes] is [null]. *)
Definition doc_boxes_number : json := JObj [ ("boxes", JNum 5) ].

Definition doc_null_box : json :=
  JObj [ ("boxes", JArr [ JObj [ ("id", JStr "7") ]; JNull ]) ].

(** A box added next to the seed box when the seed is 101 pixels
    wide: its centre lies on a half pixel. *)
Definition offcentre : State := addBlock "1" (mkRect 0 0 101 7) page0.

(* ================================================================== *)
(** ** Further definitions *)
(* ================================================================== *)

(** Every neighbour reference names a box of the store. *)
Definition closed (s : State) : Prop :=
  forall a x, In x (lines_of s a) -> In x (keys s).

(** A store without dangling and without one-sided references. *)
Definition tidy (s : State) : Prop := closed s /\ mutual s.

(* ================================================================== *)
(** ** The connect menu *)
(* ================================================================== *)

(** [l.sort((a, b) => Number(a) - Number(b))], as the insertion sort
    that keeps the order of the ids it compares equal (the sort of an
    array is stable; a [NaN] difference counts as [+0]).  The order is
    the one every sort gives when the ids are decimal numerals. *)
Fixpoint insert_id (x : string) (l : list string) : list string :=
  match l with
  | [] => [x]
  | y :: r =>
      if JS.sub_pos (JS.Number x) (JS.Number y)
      then y :: insert_id x r
      else x :: y :: r
  end.

Definition sort_ids (l : list string) : list string :=
  fold_right insert_id [] l.

(** An item of the connect menu: the id it is listed for, and its
    [dataset]. *)
Record MenuItem : Type := mkItem {
  item_id : string;
  data_a : string;
  data_b : string;
  data_c : string
}.

(** The item the menu of [boxId] shows for the box [i]. *)
Definition menu_item (s : State) (boxId i : string) : MenuItem :=
  mkItem i
         (JS.num_str (num_min (JS.Number boxId) (JS.Number i)))
         (JS.num_str (JS.max (JS.Number boxId) (JS.Number i)))
         (if isConnected s boxId i then "1" else "0").

(** The [mouseover] handler of the connect button, for the toolbar of
    the box [boxId] (the empty string when the toolbar has no box):
    the items put in the menu, [None] when the handler returns before
    it touches the menu. *)
Definition menu (boxId : string) (s : State) : option (list MenuItem) :=
  if String.eqb boxId "" || negb (mem boxId (map_keys (boxes s))) then None
  else
    Some (map (menu_item s boxId)
              (sort_ids (filter (fun i => negb (String.eqb i boxId))
                                (map_keys (boxes s))))).

(** The [click] handler of a menu item. *)
Definition item_click (it : MenuItem) (s : State) : State :=
  if String.eqb (data_c it) "1"
  then disconnect (data_a it) (data_b it) s
  else newLine (data_a it) (data_b it) s.

(* ================================================================== *)
(** ** Colours *)
(* ================================================================== *)

(** [ToInt32]: the 32-bit two's complement integer the bit operators
    read an integer as. *)
Definition to_int32 (z : Z) : Z := (z + 2 ^ 31) mod 2 ^ 32 - 2 ^ 31.

(** [x << k] and [x | y]. *)
Definition shl (x k : Z) : Z := to_int32 (Z.shiftl (to_int32 x) (k mod 32)).

Definition bor (x y : Z) : Z := Z.lor (to_int32 x) (to_int32 y).

Definition hex_digit (d : Z) : ascii :=
  nth (Z.to_nat d) (list_ascii_of_string "0123456789abcdef") "0"%char.

(** The hexadecimal digits of [n >= 0] in front of [acc]; [fuel]
    bounds their number. *)
Fixpoint hex_of (fuel : nat) (n : Z) (acc : string) : string :=
  match fuel with
  | O => acc
  | S f =>
      let acc' := String (hex_digit (n mod 16)) acc in
      if n <? 16 then acc' else hex_of f (n / 16) acc'
  end.

(** [n.toString(16)] for an integer [n]. *)
Definition toString16 (n : Z) : string :=
  if n <? 0
  then String "-" (hex_of (S (Z.to_nat (Z.log2 (- n)))) (- n) "")
  else hex_of (S (Z.to_nat (Z.log2 n))) n "".

(** [s.slice(1)]. *)
Definition slice1 (s : string) : string :=
  match s with
  | String _ r => r
  | EmptyString => EmptyString
  end.

(** [toUpperCase], for the ASCII letters. *)
Definition upper (c : ascii) : ascii :=
  let n := nat_of_ascii c in
  if (Nat.leb 97 n && Nat.leb n 122)%bool then ascii_of_nat (n - 32) else c.

Fixpoint toUpperCase (s : string) : string :=
  match s with
  | String c r => String (upper c) (toUpperCase r)
  | EmptyString => EmptyString
  end.

(** [rgbToHex(r, g, b)], for integers. *)
Definition rgbToHex (r g b : Z) : string :=
  String "#" (toUpperCase (slice1 (toString16
    (bor (bor (bor (shl 1 24) (shl r 16)) (shl g 8)) b)))).

(** The pattern [\s*(\d+)] followed by the literal [sep], at the head
    of [s]: the group and the rest.  A digit is neither white space
    nor the head of a separator, so the greedy match is the only one. *)
Definition number_then (sep s : string) : option (string * string) :=
  match JS.take_digits (JS.skip_ws s) with
  | EmptyString => None
  | d =>
      match strip_prefix sep (drop_digits (JS.skip_ws s)) with
      | Some r => Some (d, r)
      | None => None
      end
  end.

(** A match, at the head of [s], of the pattern
    [name\(\s*(\d+),\s*(\d+)sep2\s*(\d+)sep3\s*\)]: its three groups.
    The pattern of [rgb] has the separators [,] and none, the one of
    [hsl] has [%,] and [%]. *)
Definition triple_here (name sep2 sep3 s : string)
  : option (string * string * string) :=
  match strip_prefix name s with
  | None => None
  | Some s1 =>
      match number_then "," s1 with
      | None => None
      | Some (x, s2) =>
          match number_then sep2 s2 with
          | None => None
          | Some (y, s3) =>
              match number_then sep3 s3 with
              | None => None
              | Some (z, s4) =>
                  match strip_prefix ")" (JS.skip_ws s4) with
                  | Some _ => Some (x, y, z)
                  | None => None
                  end
              end
          end
      end
  end.

(** [s.match(re)] for a pattern that is matched by [here] at the head
    of a string: the leftmost match. *)
Fixpoint search {A : Type} (here : string -> option A) (s : string) : option A :=
  match here s with
  | Some m => Some m
  | None =>
      match s with
      | String _ r => search here r
      | EmptyString => None
      end
  end.

(** [parseInt(d, 10)] of a matched group, as an integer. *)
Definition group_value (d : string) : Z := JS.or_zero (JS.parseInt d).

Section Colour.

(** [hslToHex] computes with floating-point numbers and is left open. *)
Variable hslToHex : Z -> Z -> Z -> string.

(** [colorToHex(color)] for a string [color]. *)
Definition colorToHex (color : string) : string :=
  let normalized := JS.trim color in
  if String.eqb normalized "" then "#f1f1f1"
  else if startsWith normalized "#" then
    if (Nat.eqb (String.length normalized) 4 || Nat.eqb (String.length normalized) 7)%bool
    then toUpperCase normalized
    else "#f1f1f1"
  else
    match (if startsWith normalized "rgb"
           then search (triple_here "rgb(" "," "") normalized else None) with
    | Some (r, g, b) => rgbToHex (group_value r) (group_value g) (group_value b)
    | None =>
        match (if startsWith normalized "hsl"
               then search (triple_here "hsl(" "%," "%") normalized else None) with
        | Some (h, s, l) => hslToHex (group_value h) (group_value s) (group_value l)
        | None => "#f1f1f1"
        end
    end.

End Colour.

(** Two upper-case hexadecimal digits of a colour channel. *)
Definition hex2 (z : Z) : string :=
  String (upper (hex_digit (z / 16))) (String (upper (hex_digit (z mod 16))) "").

(** Strings of white space. *)
Fixpoint all_ws (s : string) : bool :=
  match s with
  | EmptyString => true
  | String c r => JS.is_ws c && all_ws r
  end.

(* ================================================================== *)
(** ** Links from the text to a box *)
(* ================================================================== *)

(** The two quotation marks, and the ASCII characters the pattern [.]
    does not match. *)
Definition is_quote (c : ascii) : bool :=
  (Ascii.eqb c "'" || Ascii.eqb c "034")%bool.

Definition is_line_end (c : ascii) : bool :=
  (Ascii.eqb c "010" || Ascii.eqb c "013")%bool.

(** The pattern [(.*?)] followed by a quotation mark, at the head of
    [s]: the group, which is the shortest one. *)
Fixpoint until_quote (s : string) : option string :=
  match s with
  | EmptyString => None
  | String c r =>
      if is_quote c then Some EmptyString
      else if is_line_end c then None
      else option_map (String c) (until_quote r)
  end.

(** A match of [/window\.location\.href\s*=\s*['"]#(.*?)['"]/] at the
    head of [s]: its group. *)
Definition link_here (s : string) : option string :=
  match strip_prefix "window.location.href" s with
  | None => None
  | Some s1 =>
      match strip_prefix "=" (JS.skip_ws s1) with
      | None => None
      | Some s2 =>
          match JS.skip_ws s2 with
          | String q r =>
              if is_quote q then
                match strip_prefix "#" r with
                | Some s3 => until_quote s3
                | None => None
                end
              else None
          | EmptyString => None
          end
      end
  end.

(** [getLink(e)]; [None] stands for [false]. *)
Definition getLink (e : string) : option string := search link_here e.

(** The [onclick] attribute the link dropdown of the text toolbar
    gives a span for the option with the value [v]. *)
Definition onclick_of (v : string) : string :=
  "window.location.href='#" ++ v ++ "'".

(** Texts without quotation marks and line ends. *)
Fixpoint plain_text (s : string) : bool :=
  match s with
  | EmptyString => true
  | String c r => negb (is_quote c) && negb (is_line_end c) && plain_text r
  end.

(* ================================================================== *)
(** ** Sample documents outside the serialised format *)
(* ================================================================== *)

(** A sample document in which two boxes share the id 5, once as a
    string and once as a number. *)
Definition doc_twice : json :=
  JObj [ ("boxes", JArr [ JObj [ ("id", JStr "5"); ("content", JStr "first") ];
                          JObj [ ("id", JNum 5); ("content", JStr "second") ] ]) ].

(** A sample document whose boxes have no ids. *)
Definition doc_anonymous : json :=
  JObj [ ("boxes", JArr [ JObj [ ("content", JStr "a");
                                 ("lines", JArr [ JStr "2" ]) ];
                          JObj [ ("id", JNull); ("content", JStr "b") ] ]) ].

(** A sample document with a box whose id is not a number. *)
Definition doc_named : json :=
  JObj [ ("boxes", JArr [ JObj [ ("id", JStr "1") ];
                          JObj [ ("id", JStr "root"); ("lines", JArr [ JStr "1" ]) ] ]) ].


(* ================================================================== *)
(** * Proofs *)
(* ================================================================== *)

(** ** The JavaScript helpers on sample values *)

Example Number_7 : JS.Number "7" = JS.Fin 7.
Proof. reflexivity. Qed.
Example Number_heading : JS.Number "heading" = JS.NaN.
Proof. reflexivity. Qed.
Example parseInt_px : JS.parseInt "100.5px" = JS.Fin 100.
Proof. reflexivity. Qed.
Example parseInt_empty : JS.parseInt "" = JS.NaN.
Proof. reflexivity. Qed.
Example trim_ex : JS.trim "  a b " = "a b".
Proof. reflexivity. Qed.
Example split2_ex : JS.split2 "12_7" = ("12", Some "7").
Proof. reflexivity. Qed.
Example num_str_ex : JS.num_str (JS.Fin 120) = "120" /\ JS.num_str (JS.Fin (-5)) = "-5".
Proof. split; reflexivity. Qed.

(* ================================================================== *)
(** ** Numerals *)
(* ================================================================== *)

Lemma uint_str_digits (d : uint) : all_digits (NilEmpty.string_of_uint d) = true.
Proof. induction d; simpl; auto. Qed.

Lemma to_uint_not_nil (n : N) : N.to_uint n <> Nil.
Proof.
  rewrite <- (Unsigned.of_to n) at 1. rewrite Unsigned.to_of.
  unfold unorm. destruct (nzhead (N.to_uint n)); discriminate.
Qed.

Lemma nat_str_unfold (n : N) : JS.nat_str n = NilEmpty.string_of_uint (N.to_uint n).
Proof.
  unfold JS.nat_str, NilZero.string_of_uint.
  destruct (N.to_uint n) eqn:E; try reflexivity.
  exfalso. now apply (to_uint_not_nil n).
Qed.

Lemma nat_str_digits (n : N) : all_digits (JS.nat_str n) = true.
Proof. rewrite nat_str_unfold. apply uint_str_digits. Qed.

Lemma nat_str_nonempty (n : N) : JS.nat_str n <> "".
Proof.
  rewrite nat_str_unfold. pose proof (to_uint_not_nil n) as H.
  destruct (N.to_uint n); simpl; congruence.
Qed.

Lemma digit_not_ws c : JS.is_digit c = true -> JS.is_ws c = false.
Proof.
  unfold JS.is_digit, JS.is_ws. intros H.
  apply andb_true_iff in H. destruct H as [H1 H2].
  apply Nat.leb_le in H1. apply Nat.leb_le in H2.
  rewrite orb_false_iff. split.
  - apply Nat.eqb_neq. lia.
  - apply andb_false_iff. right. apply Nat.leb_gt. lia.
Qed.

Lemma digit_not_us c : JS.is_digit c = true -> Ascii.eqb c "_" = false.
Proof.
  intros H. destruct (Ascii.eqb_spec c "_") as [->|]; [discriminate H | reflexivity].
Qed.

Lemma digit_not_sign c :
  JS.is_digit c = true -> c <> "-"%char /\ c <> "+"%char.
Proof. intros H; split; intros ->; discriminate H. Qed.

Lemma digits_drop_ws_end s : all_digits s = true -> JS.drop_ws_end s = s.
Proof.
  induction s as [|c r IH]; simpl; [reflexivity|].
  intros H. apply andb_true_iff in H. destruct H as [Hc Hr].
  rewrite (IH Hr). destruct r; [|reflexivity].
  now rewrite (digit_not_ws _ Hc).
Qed.

Lemma digits_trim s : all_digits s = true -> JS.trim s = s.
Proof.
  intros H. unfold JS.trim.
  destruct s as [|c r]; [reflexivity|].
  simpl in H. apply andb_true_iff in H. destruct H as [Hc Hr].
  simpl JS.skip_ws. rewrite (digit_not_ws _ Hc).
  apply digits_drop_ws_end. simpl. now rewrite Hc, Hr.
Qed.

Lemma signed_digit c r f :
  JS.is_digit c = true -> JS.signed (String c r) f = f (String c r).
Proof.
  intros H. destruct (digit_not_sign _ H) as [H1 H2].
  unfold JS.signed.
  destruct c as [[|] [|] [|] [|] [|] [|] [|] [|]]; try reflexivity;
    congruence.
Qed.

Lemma Number_nat_str (n : N) : JS.Number (JS.nat_str n) = JS.Fin (Z.of_N n).
Proof.
  unfold JS.Number. rewrite (digits_trim _ (nat_str_digits n)).
  pose proof (nat_str_nonempty n) as Hne.
  pose proof (nat_str_digits n) as Hd.
  destruct (JS.nat_str n) as [|c r] eqn:E; [congruence|].
  simpl in Hd. apply andb_true_iff in Hd. destruct Hd as [Hc _].
  rewrite (signed_digit _ _ _ Hc). unfold JS.nonempty_digits, JS.digits_value.
  rewrite <- E, nat_str_unfold, NilEmpty.usu, Unsigned.of_to. reflexivity.
Qed.

Lemma nat_str_inj n m : JS.nat_str n = JS.nat_str m -> n = m.
Proof.
  intros H. apply (f_equal JS.Number) in H.
  rewrite !Number_nat_str in H. injection H. lia.
Qed.

Lemma int_str_of_N n : JS.int_str (Z.of_N n) = JS.nat_str n.
Proof. destruct n; reflexivity. Qed.

Lemma digits_until_us s r :
  all_digits s = true ->
  JS.until_us (s ++ String "_" r) = (s, Some r).
Proof.
  induction s as [|c t IH]; simpl; [reflexivity|].
  intros H. apply andb_true_iff in H. destruct H as [Hc Ht].
  rewrite (digit_not_us _ Hc), (IH Ht). reflexivity.
Qed.

Lemma digits_until_us_end s :
  all_digits s = true -> JS.until_us s = (s, None).
Proof.
  induction s as [|c t IH]; simpl; [reflexivity|].
  intros H. apply andb_true_iff in H. destruct H as [Hc Ht].
  rewrite (digit_not_us _ Hc), (IH Ht). reflexivity.
Qed.

Lemma split2_numerals a b :
  numeral a -> numeral b -> JS.split2 (a ++ "_" ++ b) = (a, Some b).
Proof.
  intros [n ->] [m ->]. unfold JS.split2. simpl append.
  rewrite (digits_until_us _ _ (nat_str_digits n)).
  now rewrite (digits_until_us_end _ (nat_str_digits m)).
Qed.

Lemma has_us_app a b : has_us (a ++ String "_" b) = true.
Proof. induction a; simpl; [reflexivity|]. rewrite IHa. apply orb_true_r. Qed.

Lemma digits_no_us s : all_digits s = true -> has_us s = false.
Proof.
  induction s as [|c t IH]; simpl; [reflexivity|].
  intros H. apply andb_true_iff in H. destruct H as [Hc Ht].
  now rewrite (digit_not_us _ Hc), (IH Ht).
Qed.

Lemma numeral_digits s : numeral s -> all_digits s = true.
Proof. intros [n ->]. apply nat_str_digits. Qed.

Lemma numeral_not_joined s a b : numeral s -> s <> a ++ "_" ++ b.
Proof.
  intros H E. apply numeral_digits, digits_no_us in H.
  rewrite E in H. simpl append in H. now rewrite has_us_app in H.
Qed.

Lemma numeral_not_page s : numeral s -> mem s page_ids = false.
Proof.
  intros H. apply numeral_digits in H.
  destruct (mem s page_ids) eqn:E; [|reflexivity].
  unfold mem in E. apply existsb_exists in E. destruct E as [x [Hx Hs]].
  apply String.eqb_eq in Hs. subst x.
  simpl in Hx. repeat (destruct Hx as [<-|Hx]; [discriminate H|]). destruct Hx.
Qed.


(* ================================================================== *)
(** ** The Map *)
(* ================================================================== *)

Lemma mem_In x l : mem x l = true <-> In x l.
Proof.
  unfold mem. rewrite existsb_exists. split.
  - intros [y [Hy E]]. apply String.eqb_eq in E. now subst.
  - intros H. exists x. split; [assumption | apply String.eqb_refl].
Qed.

Lemma mem_false x l : mem x l = false <-> ~ In x l.
Proof.
  rewrite <- mem_In. destruct (mem x l); split; congruence.
Qed.

Lemma keys_shape m : map fst (shape m) = map_keys m.
Proof. unfold shape, map_keys. rewrite map_map. reflexivity. Qed.

Lemma map_get_key m k : In k (map_keys m) <-> exists e, map_get k m = Some e.
Proof.
  induction m as [|[k' e'] r IH]; simpl.
  - split; [tauto | intros [e H]; discriminate].
  - destruct (String.eqb_spec k k') as [->|Hne].
    + split; [eauto | auto].
    + rewrite <- IH. split; [intros [H|H]; [congruence | assumption] | auto].
Qed.

Lemma map_get_absent m k : ~ In k (map_keys m) -> map_get k m = None.
Proof.
  intros H. destruct (map_get k m) eqn:E; [|reflexivity].
  exfalso. apply H. apply map_get_key. eauto.
Qed.

Lemma get_lines_absent m k : ~ In k (map_keys m) -> get_lines m k = [].
Proof. intros H. unfold get_lines. now rewrite map_get_absent. Qed.

Lemma get_lines_key m k x : In x (get_lines m k) -> In k (map_keys m).
Proof.
  unfold get_lines. destruct (map_get k m) eqn:E; [|intros []].
  intros _. apply map_get_key. eauto.
Qed.

Lemma shape_set_lines k f m : shape (set_lines k f m) = shape m.
Proof.
  induction m as [|[k' e'] r IH]; simpl; [reflexivity|].
  destruct (String.eqb k k'); simpl; [reflexivity | now rewrite IH].
Qed.

Lemma keys_set_lines k f m : map_keys (set_lines k f m) = map_keys m.
Proof. rewrite <- !keys_shape. now rewrite shape_set_lines. Qed.

Lemma set_lines_absent k f m : ~ In k (map_keys m) -> set_lines k f m = m.
Proof.
  induction m as [|[k' e'] r IH]; simpl; [reflexivity|].
  intros H. destruct (String.eqb_spec k k') as [->|Hne]; [tauto|].
  rewrite IH; [reflexivity | tauto].
Qed.

Lemma get_lines_set_same k f m :
  In k (map_keys m) -> get_lines (set_lines k f m) k = f (get_lines m k).
Proof.
  unfold get_lines. induction m as [|[k' e'] r IH]; simpl; [tauto|].
  intros H. destruct (String.eqb_spec k k') as [->|Hne]; simpl.
  - now rewrite String.eqb_refl.
  - destruct (String.eqb_spec k k'); [congruence|].
    apply IH. destruct H; congruence.
Qed.

Lemma get_lines_set_other k k' f m :
  k <> k' -> get_lines (set_lines k f m) k' = get_lines m k'.
Proof.
  unfold get_lines. intros Hne.
  induction m as [|[k0 e0] r IH]; simpl; [reflexivity|].
  destruct (String.eqb_spec k k0) as [->|Hk]; simpl.
  - destruct (String.eqb_spec k' k0); [congruence | reflexivity].
  - destruct (String.eqb_spec k' k0); [reflexivity | apply IH].
Qed.

(** Membership in a neighbour list after an update that preserves the
    empty list. *)
Lemma get_lines_set k f m k' :
  f [] = [] ->
  get_lines (set_lines k f m) k' =
  if String.eqb k k' then f (get_lines m k') else get_lines m k'.
Proof.
  intros Hf. destruct (String.eqb_spec k k') as [<-|Hne].
  - destruct (in_dec string_dec k (map_keys m)) as [Hin|Hout].
    + now apply get_lines_set_same.
    + rewrite (set_lines_absent _ _ _ Hout), (get_lines_absent _ _ Hout). now rewrite Hf.
  - now apply get_lines_set_other.
Qed.

Lemma keys_map_delete k m :
  map_keys (map_delete k m) = filter (fun x => negb (String.eqb k x)) (map_keys m).
Proof.
  unfold map_delete, map_keys. induction m as [|[k' e'] r IH]; simpl; [reflexivity|].
  destruct (String.eqb k k'); simpl; now rewrite IH.
Qed.

Lemma shape_map_delete k m :
  shape (map_delete k m) = filter (fun p => negb (String.eqb k (fst p))) (shape m).
Proof.
  unfold map_delete, shape. induction m as [|[k' e'] r IH]; simpl; [reflexivity|].
  destruct (String.eqb k k'); simpl; now rewrite IH.
Qed.

Lemma get_lines_map_delete k k' m :
  k <> k' -> get_lines (map_delete k m) k' = get_lines m k'.
Proof.
  unfold get_lines, map_delete. intros Hne.
  induction m as [|[k0 e0] r IH]; simpl; [reflexivity|].
  destruct (String.eqb_spec k k0) as [->|Hk]; simpl.
  - destruct (String.eqb_spec k' k0); [congruence | apply IH].
  - destruct (String.eqb_spec k' k0); [reflexivity | apply IH].
Qed.

Lemma map_set_fresh k e m : ~ In k (map_keys m) -> map_set k e m = (m ++ [(k, e)])%list.
Proof.
  induction m as [|[k' e'] r IH]; simpl; [reflexivity|].
  intros H. destruct (String.eqb_spec k k') as [->|Hne]; [tauto|].
  rewrite IH; [reflexivity | tauto].
Qed.

Lemma get_lines_app_other m k e k' :
  k <> k' -> get_lines (m ++ [(k, e)]) k' = get_lines m k'.
Proof.
  unfold get_lines. intros Hne.
  induction m as [|[k0 e0] r IH]; simpl.
  - destruct (String.eqb_spec k' k); [congruence | reflexivity].
  - destruct (String.eqb k' k0); [reflexivity | apply IH].
Qed.

Lemma get_lines_app_new m k e :
  ~ In k (map_keys m) -> get_lines (m ++ [(k, e)]) k = lines e.
Proof.
  unfold get_lines. induction m as [|[k0 e0] r IH]; simpl.
  - now rewrite String.eqb_refl.
  - intros H. destruct (String.eqb_spec k k0) as [->|Hk]; [tauto|].
    apply IH. tauto.
Qed.

(* ================================================================== *)
(** ** Line ids of numerals *)
(* ================================================================== *)

Lemma lineIdOf_nat n m :
  lineIdOf (JS.nat_str n) (JS.nat_str m) =
  if (m <? n)%N then JS.nat_str m ++ "_" ++ JS.nat_str n
  else JS.nat_str n ++ "_" ++ JS.nat_str m.
Proof.
  unfold lineIdOf. rewrite !Number_nat_str. simpl JS.sub_pos.
  destruct (N.ltb_spec m n); destruct (Z.ltb_spec 0 (Z.of_N n - Z.of_N m));
    try reflexivity; lia.
Qed.

Lemma lineIdOf_sym a b : numeral a -> numeral b -> lineIdOf a b = lineIdOf b a.
Proof.
  intros [n ->] [m ->]. rewrite !lineIdOf_nat.
  destruct (N.ltb_spec m n); destruct (N.ltb_spec n m); try reflexivity; try lia.
  assert (n = m) by lia. now subst.
Qed.

Lemma lineIdOf_split a b :
  numeral a -> numeral b ->
  JS.split2 (lineIdOf a b) = (a, Some b) \/ JS.split2 (lineIdOf a b) = (b, Some a).
Proof.
  intros Ha Hb. unfold lineIdOf.
  destruct (JS.sub_pos _ _); [right | left]; now apply split2_numerals.
Qed.

Lemma lineIdOf_inj a b c d :
  numeral a -> numeral b -> numeral c -> numeral d ->
  lineIdOf a b = lineIdOf c d -> (a = c /\ b = d) \/ (a = d /\ b = c).
Proof.
  intros Ha Hb Hc Hd E.
  destruct (lineIdOf_split a b Ha Hb) as [H1|H1];
    destruct (lineIdOf_split c d Hc Hd) as [H2|H2];
    rewrite E in H1; rewrite H1 in H2; injection H2; intros; subst; auto.
Qed.

Lemma lineIdOf_not_numeral a b : ~ numeral (lineIdOf a b).
Proof.
  intros H. unfold lineIdOf in H.
  destruct (JS.sub_pos _ _); eapply numeral_not_joined; eauto.
Qed.

Lemma digit_start_not_page c r :
  JS.is_digit c = true -> mem (String c r) page_ids = false.
Proof.
  intros Hc. apply mem_false. intros Hin. simpl in Hin.
  repeat (destruct Hin as [E|Hin];
          [injection E; intros _ <-; discriminate Hc|]).
  destruct Hin.
Qed.

Lemma lineIdOf_not_page a b :
  numeral a -> numeral b -> mem (lineIdOf a b) page_ids = false.
Proof.
  intros Ha Hb.
  assert (forall x y, numeral x -> exists c r, JS.is_digit c = true /\
            x ++ "_" ++ y = String c r) as Hstart.
  { intros x y [n ->]. pose proof (nat_str_digits n) as Hd.
    pose proof (nat_str_nonempty n) as Hne.
    destruct (JS.nat_str n) as [|c r]; [congruence|].
    simpl in Hd. apply andb_true_iff in Hd. destruct Hd as [Hc _].
    exists c, (r ++ "_" ++ y). split; [assumption | reflexivity]. }
  unfold lineIdOf. destruct (JS.sub_pos _ _).
  - destruct (Hstart b a Hb) as [c [r [Hc ->]]]. now apply digit_start_not_page.
  - destruct (Hstart a b Ha) as [c [r [Hc ->]]]. now apply digit_start_not_page.
Qed.

(** *** Lookup by id in a well-formed store *)

Lemma Inv_dom_ids {pend} s : InvP pend s -> map id (dom_boxes s) = keys s.
Proof.
  intros I. rewrite (inv_dom s I). unfold keys. rewrite <- keys_shape.
  pose proof (inv_entry_id s I) as H.
  induction (shape (boxes s)) as [|[k b] r IH]; simpl; [reflexivity|].
  f_equal.
  - apply H. now left.
  - apply IH. intros k' b' Hin. apply H. now right.
Qed.

Lemma Inv_line_not_numeral {pend} s l : InvP pend s -> In l (dom_lines s) -> ~ numeral l.
Proof.
  intros I Hl. destruct (inv_lines_sound s I l Hl) as [a [b [_ [_ [-> _]]]]].
  apply lineIdOf_not_numeral.
Qed.

Lemma numeral_nonempty x : numeral x -> String.eqb x "" = false.
Proof.
  intros [n ->]. apply String.eqb_neq. apply nat_str_nonempty.
Qed.

Lemma lineIdOf_nonempty a b : String.eqb (lineIdOf a b) "" = false.
Proof.
  apply String.eqb_neq. unfold lineIdOf.
  destruct (JS.sub_pos _ _); [destruct b | destruct a]; discriminate.
Qed.

Lemma hasElement_numeral {pend} s x :
  InvP pend s -> numeral x -> hasElement s x = mem x (keys s).
Proof.
  intros I Hx. unfold hasElement. rewrite (numeral_nonempty x Hx).
  cbn [negb andb]. rewrite (Inv_dom_ids s I).
  rewrite (numeral_not_page x Hx), orb_false_r.
  destruct (mem x (dom_lines s)) eqn:E; [|apply orb_false_r].
  apply mem_In in E. exfalso. now apply (Inv_line_not_numeral s x I E).
Qed.

Lemma hasElement_line {pend} s a b :
  InvP pend s -> numeral a -> numeral b ->
  hasElement s (lineIdOf a b) = mem (lineIdOf a b) (dom_lines s).
Proof.
  intros I Ha Hb. unfold hasElement. rewrite lineIdOf_nonempty.
  cbn [negb andb]. rewrite (Inv_dom_ids s I).
  rewrite (lineIdOf_not_page a b Ha Hb), orb_false_r.
  destruct (mem (lineIdOf a b) (keys s)) eqn:E; [|reflexivity].
  apply mem_In in E. exfalso.
  apply (lineIdOf_not_numeral a b). now apply (inv_keys_num s I).
Qed.

Lemma Inv_complete s a b :
  Inv s -> In a (keys s) -> In b (keys s) ->
  In b (lines_of s a) -> In a (lines_of s b) ->
  In (lineIdOf a b) (dom_lines s).
Proof.
  intros I Ha Hb H1 H2.
  destruct (inv_lines_pending s I a b Ha Hb H1 H2) as [[]|H]; assumption.
Qed.

Lemma InvP_weaken pend pend' s :
  InvP pend s -> incl pend pend' -> InvP pend' s.
Proof.
  intros I Hincl. constructor; try apply I.
  intros a b Ha Hb H1 H2.
  destruct (inv_lines_pending s I a b Ha Hb H1 H2) as [H|H]; auto.
Qed.

(* ================================================================== *)
(** ** The operations keep the store well formed *)
(* ================================================================== *)

Lemma Inv_init seed : id seed = "1" -> Inv (init seed).
Proof.
  intros Hid. constructor; unfold keys, lines_of; simpl.
  - constructor; [intros [] | constructor].
  - intros k [<-|[]]. rewrite Hid. now exists 1%N.
  - intros k b [E|[]]. now injection E; intros <- <-.
  - reflexivity.
  - constructor.
  - intros l [].
  - intros a b [<-|[]] [<-|[]]. unfold get_lines. simpl.
    rewrite String.eqb_refl. intros [].
  - intros a. unfold get_lines. simpl.
    destruct (String.eqb a (id seed)); constructor.
  - intros a x. unfold get_lines. simpl.
    destruct (String.eqb a (id seed)); intros [].
  - exists 1. repeat split; [lia|].
    intros n [E|[]]. rewrite Hid in E.
    change "1" with (JS.nat_str 1) in E. apply nat_str_inj in E. subst. lia.
Qed.

(** A box created with an allocated id. *)
Lemma createNewBlock_fresh s x y c t :
  totalBoxes s = JS.Fin t -> 0 <= t ->
  (forall n, In (JS.nat_str n) (keys s) -> Z.of_N n <= t) ->
  let k := JS.nat_str (Z.to_N (t + 1)) in
  ~ In k (keys s) /\
  exists nb, id nb = k /\
    createNewBlock x y c None s =
    (mkState (boxes s ++ [(k, mkEntry nb [])]) (JS.Fin (t + 1))
             (dom_boxes s ++ [nb]) (dom_lines s), nb).
Proof.
  intros Ht H0 Hb k.
  assert (Hfresh : ~ In k (keys s)).
  { intros Hin. apply Hb in Hin. rewrite Z2N.id in Hin; lia. }
  split; [assumption|].
  assert (Hk : JS.num_str (JS.Fin (t + 1)) = k).
  { unfold k. simpl. rewrite <- int_str_of_N. now rewrite Z2N.id by lia. }
  unfold createNewBlock, requested. rewrite Ht. cbv beta iota. simpl JS.incr.
  rewrite Hk.
  assert (Hn : JS.Number k = JS.Fin (t + 1)).
  { unfold k. rewrite Number_nat_str, Z2N.id by lia. reflexivity. }
  rewrite Hn. simpl JS.max. rewrite Z.max_id.
  eexists. split; [|rewrite (map_set_fresh _ _ _ Hfresh); reflexivity].
  reflexivity.
Qed.

Lemma Inv_create s x y c : Inv s -> Inv (fst (createNewBlock x y c None s)).
Proof.
  intros I. destruct (inv_total s I) as [t [Ht [H0 Hb]]].
  destruct (createNewBlock_fresh s x y c t Ht H0 Hb) as [Hfresh [nb [Hid E]]].
  rewrite E. simpl fst. set (k := JS.nat_str (Z.to_N (t + 1))) in *.
  assert (Hkeys : forall e, map_keys (boxes s ++ [(k, e)]) = (keys s ++ [k])%list).
  { intros e. unfold map_keys, keys. now rewrite map_app. }
  assert (Hl : forall a, a <> k ->
            get_lines (boxes s ++ [(k, mkEntry nb [])]) a = lines_of s a).
  { intros a Ha. apply get_lines_app_other. congruence. }
  assert (Hlk : get_lines (boxes s ++ [(k, mkEntry nb [])]) k = []).
  { now rewrite get_lines_app_new. }
  assert (Hnotk : forall a x0, In x0 (lines_of s a) -> a <> k).
  { intros a x0 Hin ->. apply Hfresh. eapply get_lines_key; eauto. }
  constructor; unfold keys, lines_of; simpl; try rewrite Hkeys.
  - apply Permutation_NoDup with (l := k :: keys s).
    + apply Permutation_cons_append.
    + constructor; [assumption | apply (inv_keys_nodup s I)].
  - intros k' Hin. apply in_app_or in Hin. destruct Hin as [Hin|[<-|[]]].
    + now apply (inv_keys_num s I).
    + now exists (Z.to_N (t + 1)).
  - intros k' b. unfold shape. rewrite map_app. intros Hin.
    apply in_app_or in Hin. destruct Hin as [Hin|[E'|[]]].
    + now apply (inv_entry_id s I).
    + simpl in E'. injection E'; intros <- <-. assumption.
  - unfold shape. rewrite !map_app. simpl. f_equal.
    rewrite (inv_dom s I). unfold shape. reflexivity.
  - apply (inv_lines_nodup s I).
  - intros l Hl'. destruct (inv_lines_sound s I l Hl') as [a [b [Ha [Hb' [-> [H1 H2]]]]]].
    exists a, b. repeat split; try (apply in_or_app; now left).
    + rewrite Hl; [assumption | eapply Hnotk; eauto].
    + rewrite Hl; [assumption | eapply Hnotk; eauto].
  - intros a b Ha Hb' H1 H2.
    destruct (string_dec a k) as [->|Hak]; [rewrite Hlk in H1; destruct H1|].
    destruct (string_dec b k) as [->|Hbk]; [rewrite Hlk in H2; destruct H2|].
    rewrite Hl in H1, H2 by assumption.
    apply in_app_or in Ha. destruct Ha as [Ha|[Ha|[]]]; [|congruence].
    apply in_app_or in Hb'. destruct Hb' as [Hb'|[Hb'|[]]]; [|congruence].
    right. now apply (Inv_complete s).
  - intros a. destruct (string_dec a k) as [->|Hak].
    + rewrite Hlk. constructor.
    + rewrite Hl by assumption. apply (inv_refs_nodup s I).
  - intros a x0. destruct (string_dec a k) as [->|Hak].
    + rewrite Hlk. intros [].
    + rewrite Hl by assumption. apply (inv_refs_num s I).
  - exists (t + 1). repeat split; [lia|].
    intros n Hin. apply in_app_or in Hin. destruct Hin as [Hin|[E'|[]]].
    + apply Hb in Hin. lia.
    + unfold k in E'. apply nat_str_inj in E'. subst n. rewrite Z2N.id; lia.
Qed.

(** *** [newLine] *)

Lemma push_line_in k0 x0 m k x :
  In k0 (map_keys m) ->
  In x (get_lines (push_line k0 x0 m) k) <->
  In x (get_lines m k) \/ (k = k0 /\ x = x0).
Proof.
  intros Hk0. unfold push_line.
  destruct (string_dec k0 k) as [<-|Hne].
  - rewrite get_lines_set_same by assumption.
    destruct (mem x0 (get_lines m k0)) eqn:E.
    + apply mem_In in E. split; [auto | intros [H|[_ ->]]; assumption].
    + rewrite in_app_iff. simpl. split.
      * intros [H|[<-|[]]]; auto.
      * intros [H|[_ ->]]; auto.
  - rewrite get_lines_set_other by assumption.
    split; [auto | intros [H|[-> _]]; [assumption | congruence]].
Qed.

Lemma push_line_nodup k0 x0 m k :
  NoDup (get_lines m k) -> NoDup (get_lines (push_line k0 x0 m) k).
Proof.
  intros H. unfold push_line.
  destruct (string_dec k0 k) as [<-|Hne].
  - destruct (in_dec string_dec k0 (map_keys m)) as [Hin|Hout].
    + rewrite get_lines_set_same by assumption.
      destruct (mem x0 (get_lines m k0)) eqn:E; [assumption|].
      apply mem_false in E.
      apply Permutation_NoDup with (l := x0 :: get_lines m k0).
      * apply Permutation_cons_append.
      * now constructor.
    + now rewrite set_lines_absent.
  - now rewrite get_lines_set_other.
Qed.

Lemma keys_push_line k0 x0 m : map_keys (push_line k0 x0 m) = map_keys m.
Proof. apply keys_set_lines. Qed.

(** The two outcomes of a connect request between numerals. *)
Lemma newLine_cases {pend} s a b :
  InvP pend s -> numeral a -> numeral b ->
  (newLine a b s = s /\
   (~ In a (keys s) \/ ~ In b (keys s) \/ In (lineIdOf a b) (dom_lines s)))
  \/
  (In a (keys s) /\ In b (keys s) /\ ~ In (lineIdOf a b) (dom_lines s) /\
   newLine a b s =
   mkState (push_line b a (push_line a b (boxes s))) (totalBoxes s)
           (dom_boxes s) (dom_lines s ++ [lineIdOf a b])).
Proof.
  intros I Ha Hb. unfold newLine.
  rewrite (hasElement_numeral s a I Ha), (hasElement_numeral s b I Hb).
  rewrite (hasElement_line s a b I Ha Hb).
  destruct (mem a (keys s)) eqn:Ea; simpl.
  2:{ left. apply mem_false in Ea. auto. }
  destruct (mem b (keys s)) eqn:Eb; simpl.
  2:{ left. apply mem_false in Eb. auto. }
  destruct (mem (lineIdOf a b) (dom_lines s)) eqn:El.
  - left. apply mem_In in El. auto.
  - right. apply mem_In in Ea. apply mem_In in Eb. apply mem_false in El.
    auto.
Qed.

Lemma connected_lines_in m a b k x :
  In a (map_keys m) -> In b (map_keys m) ->
  In x (get_lines (push_line b a (push_line a b m)) k) <->
  In x (get_lines m k) \/ (k = a /\ x = b) \/ (k = b /\ x = a).
Proof.
  intros Ha Hb. rewrite push_line_in by (now rewrite keys_push_line).
  rewrite push_line_in by assumption. tauto.
Qed.

Lemma InvP_newLine pend s a b :
  InvP ((a, b) :: pend) s -> numeral a -> numeral b ->
  InvP pend (newLine a b s).
Proof.
  intros I Ha Hb.
  destruct (newLine_cases s a b I Ha Hb) as [[-> Hc]|[Ka [Kb [Hl ->]]]].
  { constructor; try apply I. intros a' b' Ha' Hb' H1 H2.
    destruct (inv_lines_pending s I a' b' Ha' Hb' H1 H2) as [[E|H]|H]; auto.
    injection E; intros <- <-. destruct Hc as [Hc|[Hc|Hc]]; tauto. }
  assert (Hin := connected_lines_in (boxes s) a b).
  constructor; unfold keys, lines_of; simpl;
    rewrite ?keys_push_line, ?shape_set_lines.
  - apply (inv_keys_nodup s I).
  - apply (inv_keys_num s I).
  - unfold push_line. rewrite !shape_set_lines. apply (inv_entry_id s I).
  - unfold push_line. rewrite !shape_set_lines. apply (inv_dom s I).
  - apply Permutation_NoDup with (l := lineIdOf a b :: dom_lines s).
    + apply Permutation_cons_append.
    + constructor; [assumption | apply (inv_lines_nodup s I)].
  - intros l Hl'. apply in_app_or in Hl'. destruct Hl' as [Hl'|[<-|[]]].
    + destruct (inv_lines_sound s I l Hl') as [a' [b' [Ha' [Hb' [-> [H1 H2]]]]]].
      exists a', b'. repeat split; try assumption; apply Hin; auto.
    + exists a, b. repeat split; try assumption; apply Hin; auto.
  - intros a' b' Ha' Hb' H1 H2. rewrite in_app_iff. simpl.
    apply Hin in H1; try assumption. apply Hin in H2; try assumption.
    destruct H1 as [H1|[[-> ->]|[-> ->]]].
    + destruct H2 as [H2|[[-> ->]|[-> ->]]].
      * destruct (inv_lines_pending s I a' b' Ha' Hb' H1 H2) as [[E|H]|H]; auto.
        injection E; intros <- <-. auto.
      * right. right. left. now apply lineIdOf_sym.
      * right. right. now left.
    + right. right. now left.
    + right. right. left. now apply lineIdOf_sym.
  - intros k. do 2 apply push_line_nodup. apply (inv_refs_nodup s I).
  - intros k x Hx. apply Hin in Hx; try assumption.
    destruct Hx as [Hx|[[_ ->]|[_ ->]]]; try assumption.
    now apply (inv_refs_num s I k).
  - apply (inv_total s I).
Qed.

Lemma Inv_newLine s a b :
  Inv s -> numeral a -> numeral b -> Inv (newLine a b s).
Proof.
  intros I Ha Hb. apply InvP_newLine; try assumption.
  apply (InvP_weaken [] _ s I). intros x [].
Qed.

(** *** [deleteLine] *)

Lemma drop_in k0 x0 m k x :
  In x (get_lines (set_lines k0 (drop_id (Some x0)) m) k) <->
  In x (get_lines m k) /\ ~ (k = k0 /\ x = x0).
Proof.
  rewrite get_lines_set by reflexivity.
  destruct (String.eqb_spec k0 k) as [<-|Hne].
  - simpl. rewrite filter_In. split.
    + intros [H1 H2]. split; [assumption|]. intros [_ ->].
      now rewrite String.eqb_refl in H2.
    + intros [H1 H2]. split; [assumption|].
      destruct (String.eqb_spec x x0) as [->|]; [exfalso; auto | reflexivity].
  - split; [intros H; split; [assumption | intros [-> _]; congruence] | tauto].
Qed.

Lemma drop_nodup k0 x0 m k :
  NoDup (get_lines m k) ->
  NoDup (get_lines (set_lines k0 (drop_id (Some x0)) m) k).
Proof.
  intros H. rewrite get_lines_set by reflexivity.
  destruct (String.eqb k0 k); [|assumption].
  simpl. now apply NoDup_filter.
Qed.

Lemma remove_first_in x l y :
  NoDup l -> (In y (remove_first x l) <-> In y l /\ y <> x).
Proof.
  induction l as [|z r IH]; simpl; [tauto|].
  intros H. inversion H as [|? ? Hz Hr]; subst.
  destruct (String.eqb_spec x z) as [->|Hne].
  - split.
    + intros Hy. split; [now right | intros ->; contradiction].
    + intros [[->|Hy] Hn]; [congruence | assumption].
  - simpl. rewrite (IH Hr). split.
    + intros [->|[Hy Hn]]; [split; [now left | congruence] | split; [now right | assumption]].
    + intros [[->|Hy] Hn]; [now left | right; now split].
Qed.

Lemma remove_first_nodup x l : NoDup l -> NoDup (remove_first x l).
Proof.
  induction l as [|z r IH]; simpl; [auto|].
  intros H. inversion H as [|? ? Hz Hr]; subst.
  destruct (String.eqb x z); [assumption|].
  constructor; [|auto].
  intros Hin. apply (remove_first_in x r z Hr) in Hin. tauto.
Qed.

(** A line of a well-formed store joins two boxes, the first of which
    is the first component of its id. *)
Lemma Inv_line_split {pend} s l :
  InvP pend s -> In l (dom_lines s) ->
  exists p q, In p (keys s) /\ In q (keys s) /\ numeral p /\ numeral q /\
    l = lineIdOf p q /\ JS.split2 l = (p, Some q) /\
    In q (lines_of s p) /\ In p (lines_of s q).
Proof.
  intros I Hl. destruct (inv_lines_sound s I l Hl) as [a [b [Ha [Hb [-> [H1 H2]]]]]].
  pose proof (inv_keys_num s I a Ha) as Na.
  pose proof (inv_keys_num s I b Hb) as Nb.
  destruct (lineIdOf_split a b Na Nb) as [E|E].
  - exists a, b. auto 10.
  - exists b, a. rewrite (lineIdOf_sym a b Na Nb) in *. auto 10.
Qed.

Lemma deleteLine_split l p q s :
  JS.split2 l = (p, Some q) ->
  deleteLine l s =
  mkState (set_lines q (drop_id (Some p)) (set_lines p (drop_id (Some q)) (boxes s)))
          (totalBoxes s) (dom_boxes s) (remove_first l (dom_lines s)).
Proof. intros E. unfold deleteLine. now rewrite E. Qed.

Lemma disconnected_lines_in m p q k x :
  In x (get_lines (set_lines q (drop_id (Some p))
                     (set_lines p (drop_id (Some q)) m)) k) <->
  In x (get_lines m k) /\ ~ (k = p /\ x = q) /\ ~ (k = q /\ x = p).
Proof. rewrite !drop_in. tauto. Qed.

Lemma Inv_deleteLine s l :
  Inv s -> In l (dom_lines s) -> Inv (deleteLine l s).
Proof.
  intros I Hl.
  destruct (Inv_line_split s l I Hl) as [p [q [Kp [Kq [Np [Nq [El [Es [H1 H2]]]]]]]]].
  rewrite (deleteLine_split l p q s Es).
  assert (Hin := disconnected_lines_in (boxes s) p q).
  assert (Hrm := remove_first_in l (dom_lines s)).
  constructor; unfold keys, lines_of; simpl;
    rewrite ?keys_set_lines, ?shape_set_lines.
  - apply (inv_keys_nodup s I).
  - apply (inv_keys_num s I).
  - apply (inv_entry_id s I).
  - apply (inv_dom s I).
  - apply remove_first_nodup, (inv_lines_nodup s I).
  - intros l' Hl'. apply Hrm in Hl'; [|apply (inv_lines_nodup s I)].
    destruct Hl' as [Hl' Hne].
    destruct (inv_lines_sound s I l' Hl') as [a [b [Ha [Hb [-> [Ha1 Ha2]]]]]].
    exists a, b. repeat split; try assumption; apply Hin;
      (split; [assumption|]); split; intros [-> ->]; apply Hne;
      rewrite El; auto using lineIdOf_sym.
  - intros a b Ha Hb Ha1 Ha2. apply Hin in Ha1. apply Hin in Ha2.
    destruct Ha1 as [Ha1 [Hn1 Hn2]]. destruct Ha2 as [Ha2 _].
    right. apply Hrm; [apply (inv_lines_nodup s I)|].
    split; [now apply (Inv_complete s)|].
    rewrite El. intros E.
    apply lineIdOf_inj in E; try assumption; try (now apply (inv_keys_num s I)).
    tauto.
  - intros k. do 2 apply drop_nodup. apply (inv_refs_nodup s I).
  - intros k x Hx. apply Hin in Hx. destruct Hx as [Hx _].
    now apply (inv_refs_num s I k).
  - apply (inv_total s I).
Qed.

(** *** [deleteBox] *)

Lemma remove_first_filter x l :
  NoDup l -> remove_first x l = filter (fun y => negb (String.eqb x y)) l.
Proof.
  induction l as [|z r IH]; simpl; [reflexivity|].
  intros H. inversion H as [|? ? Hz Hr]; subst.
  destruct (String.eqb_spec x z) as [->|Hne]; simpl.
  - symmetry. apply forallb_filter_id. apply forallb_forall.
    intros y Hy. destruct (String.eqb_spec z y); [congruence | reflexivity].
  - now rewrite IH.
Qed.

(** Deleting a set of lines of the store, one after the other. *)
Lemma fold_deleteLine ls : forall s,
  Inv s -> NoDup ls -> incl ls (dom_lines s) ->
  let s1 := fold_left (fun acc l => deleteLine l acc) ls s in
  Inv s1 /\ shape (boxes s1) = shape (boxes s) /\
  totalBoxes s1 = totalBoxes s /\ dom_boxes s1 = dom_boxes s /\
  dom_lines s1 = filter (fun l => negb (mem l ls)) (dom_lines s) /\
  (forall k x, In x (lines_of s1 k) <->
               In x (lines_of s k) /\ ~ In (lineIdOf k x) ls).
Proof.
  induction ls as [|l r IH]; intros s I Hnd Hincl; simpl; cbv zeta.
  - split; [assumption|]. do 3 (split; [reflexivity|]). split.
    + symmetry. apply forallb_filter_id. now apply forallb_forall.
    + intros k x. simpl. tauto.
  - inversion Hnd as [|? ? Hl Hr]; subst.
    assert (Hin : In l (dom_lines s)) by (apply Hincl; now left).
    pose proof (Inv_deleteLine s l I Hin) as I'.
    destruct (Inv_line_split s l I Hin) as [p [q [Kp [Kq [Np [Nq [El [Es [H1 H2]]]]]]]]].
    assert (Hdl : dom_lines (deleteLine l s) = remove_first l (dom_lines s)).
    { now rewrite (deleteLine_split l p q s Es). }
    assert (Hincl' : incl r (dom_lines (deleteLine l s))).
    { intros y Hy. rewrite Hdl. apply remove_first_in; [apply (inv_lines_nodup s I)|].
      split; [apply Hincl; now right | intros ->; contradiction]. }
    destruct (IH (deleteLine l s) I' Hr Hincl') as [J [Hs [Ht [Hd [Hls Hli]]]]].
    cbv zeta in *.
    pose proof (deleteLine_split l p q s Es) as Ed.
    split; [assumption|].
    split; [rewrite Hs, Ed; simpl; now rewrite !shape_set_lines|].
    split; [now rewrite Ht, Ed|].
    split; [now rewrite Hd, Ed|].
    split.
    + rewrite Hls, Hdl, (remove_first_filter l _ (inv_lines_nodup s I)).
      clear. induction (dom_lines s) as [|z t IHt]; simpl; [reflexivity|].
      rewrite (String.eqb_sym z l).
      destruct (String.eqb l z); simpl; [assumption|].
      destruct (mem z r); simpl; [assumption | now rewrite IHt].
    + intros k x. rewrite Hli. rewrite Ed. unfold lines_of. simpl boxes.
      rewrite disconnected_lines_in. split.
      * intros [[Hx [Hn1 Hn2]] Hnr]. split; [assumption|].
        intros [E|Hr']; [|contradiction].
        pose proof (get_lines_key _ _ _ Hx) as Kk.
        rewrite El in E. apply lineIdOf_inj in E; try assumption.
        -- destruct E as [[-> ->]|[-> ->]]; tauto.
        -- now apply (inv_keys_num s I).
        -- now apply (inv_refs_num s I k).
      * intros [Hx Hn]. split; [|tauto].
        split; [assumption|].
        split; intros [-> ->]; apply Hn; left; rewrite El;
          auto using lineIdOf_sym.
Qed.

Lemma remove_box_shape k sh :
  (forall k' b, In (k', b) sh -> id b = k') -> NoDup (map fst sh) ->
  remove_box k (map snd sh) =
  map snd (filter (fun p => negb (String.eqb k (fst p))) sh).
Proof.
  induction sh as [|[k' b] r IH]; simpl; [reflexivity|].
  intros Hid Hnd. inversion Hnd as [|? ? Hk Hr]; subst.
  rewrite (Hid k' b (or_introl eq_refl)).
  destruct (String.eqb_spec k k') as [->|Hne]; simpl.
  - f_equal. symmetry. apply forallb_filter_id. apply forallb_forall.
    intros [k0 b0] Hin. simpl.
    destruct (String.eqb_spec k' k0) as [->|]; [|reflexivity].
    exfalso. apply Hk. apply in_map_iff. exists (k0, b0). auto.
  - f_equal. apply IH; [|assumption]. intros k0 b0 Hin. apply Hid. now right.
Qed.

Lemma attached_line k p q l :
  JS.split2 l = (p, Some q) ->
  attached k l = String.eqb p k || String.eqb q k.
Proof. intros E. unfold attached. now rewrite E. Qed.

(** What [deleteBox] leaves: the store without the box, without the
    lines attached to it and without the references to it those lines
    stood for. *)
Lemma deleteBox_spec s k :
  Inv s ->
  let s' := deleteBox k s in
  Inv s' /\
  shape (boxes s') = filter (fun p => negb (String.eqb k (fst p))) (shape (boxes s)) /\
  totalBoxes s' = totalBoxes s /\
  dom_boxes s' = remove_box k (dom_boxes s) /\
  dom_lines s' = filter (fun l => negb (attached k l)) (dom_lines s) /\
  (forall c x, c <> k ->
     (In x (lines_of s' c) <->
      In x (lines_of s c) /\ ~ In (lineIdOf c x) (getLinesAttached k s))).
Proof.
  intros I. cbv zeta. unfold deleteBox.
  assert (Hnd : NoDup (getLinesAttached k s)).
  { apply NoDup_filter, (inv_lines_nodup s I). }
  assert (Hincl : incl (getLinesAttached k s) (dom_lines s)).
  { intros l Hl. apply filter_In in Hl. tauto. }
  destruct (fold_deleteLine (getLinesAttached k s) s I Hnd Hincl)
    as [J [Hs [Ht [Hd [Hls Hli]]]]]. cbv zeta in *.
  set (s1 := fold_left (fun acc l => deleteLine l acc) (getLinesAttached k s) s) in *.
  assert (Hlines : dom_lines s1 = filter (fun l => negb (attached k l)) (dom_lines s)).
  { rewrite Hls. apply filter_ext_in. intros l Hl. f_equal.
    destruct (attached k l) eqn:E.
    - apply mem_In. apply filter_In. auto.
    - apply mem_false. intros Hin. apply filter_In in Hin. destruct Hin; congruence. }
  assert (Hlo : forall c, c <> k ->
            get_lines (map_delete k (boxes s1)) c = lines_of s1 c).
  { intros c Hc. apply get_lines_map_delete. congruence. }
  assert (Hends : forall l, In l (dom_lines s1) ->
            exists p q, In p (keys s1) /\ In q (keys s1) /\ p <> k /\ q <> k /\
              l = lineIdOf p q /\ In q (lines_of s1 p) /\ In p (lines_of s1 q)).
  { intros l Hl.
    destruct (Inv_line_split s1 l J Hl) as [p [q [Kp [Kq [Np [Nq [El [Es [H1 H2]]]]]]]]].
    rewrite Hlines in Hl. apply filter_In in Hl. destruct Hl as [_ Hl].
    rewrite (attached_line k p q l Es) in Hl.
    apply negb_true_iff, orb_false_iff in Hl. destruct Hl as [Hp Hq].
    apply String.eqb_neq in Hp. apply String.eqb_neq in Hq.
    exists p, q. auto 10. }
  assert (Hkeys : forall c, In c (map_keys (map_delete k (boxes s1))) <->
                            In c (keys s1) /\ c <> k).
  { intros c. rewrite keys_map_delete, filter_In. unfold keys.
    destruct (String.eqb_spec k c) as [->|]; simpl; split; intros [? ?];
      split; congruence. }
  split; [|split; [|split; [|split; [|split]]]]; simpl.
  - constructor; unfold keys, lines_of; simpl.
    + rewrite keys_map_delete. apply NoDup_filter, (inv_keys_nodup s1 J).
    + intros c Hc. apply Hkeys in Hc. now apply (inv_keys_num s1 J).
    + intros c b. rewrite shape_map_delete, filter_In. intros [Hin _].
      now apply (inv_entry_id s1 J).
    + rewrite shape_map_delete, (inv_dom s1 J).
      apply remove_box_shape; [apply (inv_entry_id s1 J)|].
      rewrite keys_shape. apply (inv_keys_nodup s1 J).
    + apply (inv_lines_nodup s1 J).
    + intros l Hl. destruct (Hends l Hl) as [p [q [Kp [Kq [Hp [Hq [El [H1 H2]]]]]]]].
      exists p, q. rewrite !Hlo by assumption.
      repeat split; try assumption; apply Hkeys; auto.
    + intros a b Ha Hb. apply Hkeys in Ha. apply Hkeys in Hb.
      destruct Ha as [Ha Hak]. destruct Hb as [Hb Hbk].
      rewrite !Hlo by assumption. right. now apply (Inv_complete s1).
    + intros a. destruct (string_dec a k) as [->|Hak].
      * rewrite get_lines_absent; [constructor|].
        intros Hin. apply Hkeys in Hin. tauto.
      * rewrite Hlo by assumption. apply (inv_refs_nodup s1 J).
    + intros a x. destruct (string_dec a k) as [->|Hak].
      * rewrite get_lines_absent; [intros []|].
        intros Hin. apply Hkeys in Hin. tauto.
      * rewrite Hlo by assumption. apply (inv_refs_num s1 J).
    + destruct (inv_total s1 J) as [t [Ht' [H0 Hb]]].
      exists t. repeat split; try assumption.
      intros n Hn. apply Hkeys in Hn. apply Hb. tauto.
  - now rewrite shape_map_delete, Hs.
  - assumption.
  - now rewrite Hd.
  - assumption.
  - intros c x Hc. unfold lines_of at 1. simpl. rewrite Hlo by assumption.
    apply Hli.
Qed.

Lemma Inv_deleteBox s k : Inv s -> Inv (deleteBox k s).
Proof. intros I. apply (deleteBox_spec s k I). Qed.

(** *** [addBlock] *)

Lemma Inv_addBlock s k r : Inv s -> In k (keys s) -> Inv (addBlock k r s).
Proof.
  intros I Hk. unfold addBlock. destruct (getBoxCoords r) as [x1 y1].
  pose proof (Inv_create s x1 y1 None I) as I1.
  destruct (inv_total s I) as [t [Ht [H0 Hb]]].
  destruct (createNewBlock_fresh s x1 y1 None t Ht H0 Hb) as [_ [nb [Hid E]]].
  rewrite E in *. simpl fst in I1.
  apply Inv_newLine; [assumption | now apply (inv_keys_num s I) |].
  rewrite Hid. now eexists.
Qed.

(** *** Import, first pass *)

Lemma map_set_twice_fresh k e1 e2 m :
  ~ In k (map_keys m) -> map_set k e2 (map_set k e1 m) = (m ++ [(k, e2)])%list.
Proof.
  induction m as [|[k' e'] r IH]; simpl.
  - now rewrite String.eqb_refl.
  - intros H. destruct (String.eqb_spec k k') as [->|Hne]; [tauto|].
    simpl. destruct (String.eqb_spec k k'); [congruence|].
    rewrite IH; [reflexivity | tauto].
Qed.

Lemma set_last_app b b' l : set_last b' (l ++ [b]) = (l ++ [b'])%list.
Proof. unfold set_last. now rewrite removelast_last. Qed.

Lemma wf_box_id e :
  wf_box e ->
  exists w n, requested (Json.prop e "id") = Some w /\
              Json.prop e "id" = Some w /\
              box_id e = JS.nat_str n /\ Json.str w = JS.nat_str n.
Proof.
  intros [[w [Hw [_ [n Hn]]]] _]. exists w, n. unfold box_id.
  unfold requested in Hw.
  destruct (Json.prop e "id") as [[]|]; try discriminate;
    injection Hw; intros <-; simpl; auto.
Qed.

(** The conversions of the first pass return for such an element. *)
Lemma wf_box_converts e :
  wf_box e ->
  Json.converts (requested (Json.prop e "id")) = true /\
  Json.converts (Json.prop e "id") = true /\
  Json.converts (Json.prop e "content") = true /\
  Json.converts (Json.opt_prop (Json.prop e "style") "left") = true /\
  Json.converts (Json.opt_prop (Json.prop e "style") "top") = true /\
  Json.converts (Json.opt_prop (Json.prop e "style") "backgroundColor") = true /\
  (forall a, Json.prop e "lines" = Some (JArr a) -> forallb Json.convertible a = true).
Proof.
  intros [[w [Hw [Hc _]]] [[a [Ha Hl]] [H1 [H2 [H3 H4]]]]].
  assert (Hp : Json.prop e "id" = Some w).
  { unfold requested in Hw.
    destruct (Json.prop e "id") as [[]|]; try discriminate; assumption. }
  rewrite Hw, Hp. split; [exact Hc|]. split; [exact Hc|].
  repeat (split; [assumption|]). intros a' Ha'.
  assert (a' = a) by congruence. subst a'.
  apply forallb_forall. intros x Hx. now apply Hl.
Qed.

Lemma restored_id e k : id (restored e k) = k.
Proof.
  unfold restored. destruct (Json.truthy _); [|reflexivity].
  unfold set_backgroundColor. destruct (css_rgb _); reflexivity.
Qed.

Lemma restore_box_spec e s t n :
  wf_box e -> box_id e = JS.nat_str n ->
  totalBoxes s = JS.Fin t -> ~ In (box_id e) (keys s) ->
  restore_box e s =
  Done (mkState (boxes s ++ [(box_id e, mkEntry (restored e (box_id e)) (restored_lines e))])
                (JS.Fin (Z.max t (Z.of_N n)))
                (dom_boxes s ++ [restored e (box_id e)])
                (dom_lines s)).
Proof.
  intros Hwf Hn Ht Hfresh.
  destruct (wf_box_id e Hwf) as [w [n' [Hreq [Hprop [Hid Hstr]]]]].
  destruct (wf_box_converts e Hwf) as [C1 [_ [C2 [C3 [C4 [C5 C6]]]]]].
  assert (n' = n) by (apply nat_str_inj; congruence). subst n'.
  assert (Hk : Json.str w = box_id e) by congruence.
  unfold restore_box.
  destruct e; try (simpl in Hprop; discriminate).
  unfold restore_fields. rewrite C3, C4, C1, C2. cbv beta iota zeta. simpl negb. cbv iota.
  unfold createNewBlock. rewrite Hreq. simpl option_map. cbv beta iota zeta.
  rewrite Hk, Hn, Number_nat_str, Ht. simpl JS.max.
  rewrite <- Hn.
  set (b0 := mkBox (box_id (JObj l)) _ _ _ default_colour).
  assert (Eb : (if Json.truthy (Json.opt_prop (Json.prop (JObj l) "style") "backgroundColor")
                then set_backgroundColor
                       (Json.String (Json.opt_prop (Json.prop (JObj l) "style") "backgroundColor")) b0
                else b0) = restored (JObj l) (box_id (JObj l))) by reflexivity.
  assert (Ei : id (restored (JObj l) (box_id (JObj l))) = box_id (JObj l)).
  { rewrite <- Eb. destruct (Json.truthy _); [|reflexivity].
    unfold set_backgroundColor. destruct (css_rgb _); reflexivity. }
  simpl id. simpl boxes. simpl dom_boxes. simpl dom_lines. simpl totalBoxes.
  fold b0. rewrite Eb.
  rewrite (map_set_twice_fresh _ _ _ _ Hfresh), set_last_app.
  change (Json.assoc "style" l) with (Json.prop (JObj l) "style").
  rewrite C5. simpl negb. rewrite andb_false_r.
  unfold restored_lines.
  destruct (Json.prop (JObj l) "lines") as [[]|] eqn:El; try reflexivity.
  rewrite (C6 _ eq_refl), (map_set_twice_fresh _ _ _ _ Hfresh). reflexivity.
Qed.

Lemma dedupe_in x l : In x (dedupe l) <-> In x l.
Proof.
  induction l as [|y r IH]; simpl; [tauto|].
  rewrite filter_In, IH. destruct (String.eqb_spec x y) as [->|Hne]; simpl.
  - tauto.
  - split; [tauto | intros [E|H]; [congruence | auto]].
Qed.

Lemma dedupe_nodup l : NoDup (dedupe l).
Proof.
  induction l as [|y r IH]; simpl; constructor.
  - rewrite filter_In. intros [_ H]. now rewrite String.eqb_refl in H.
  - now apply NoDup_filter.
Qed.

Lemma dedupe_id l : NoDup l -> dedupe l = l.
Proof.
  induction l as [|y r IH]; simpl; [reflexivity|].
  intros H. inversion H as [|? ? Hy Hr]; subst. rewrite (IH Hr). f_equal.
  apply forallb_filter_id. apply forallb_forall. intros z Hz.
  destruct (String.eqb_spec z y); [congruence | reflexivity].
Qed.

Lemma InvP_add_box pend pend' s t n nb ls :
  InvP pend s -> unlinked pend s ->
  totalBoxes s = JS.Fin t -> ~ In (JS.nat_str n) (keys s) ->
  id nb = JS.nat_str n -> NoDup ls -> (forall x, In x ls -> numeral x) ->
  incl pend pend' -> (forall x, In x ls -> In (JS.nat_str n, x) pend') ->
  let s' := mkState (boxes s ++ [(JS.nat_str n, mkEntry nb ls)])
                    (JS.Fin (Z.max t (Z.of_N n)))
                    (dom_boxes s ++ [nb]) (dom_lines s) in
  InvP pend' s' /\ unlinked pend' s'.
Proof.
  intros I [Hdl Hpend] Ht Hfresh Hid Hnd Hnum Hincl Hnew. cbv zeta.
  set (k := JS.nat_str n) in *.
  assert (Hkeys : map_keys (boxes s ++ [(k, mkEntry nb ls)]) = (keys s ++ [k])%list).
  { unfold map_keys, keys. now rewrite map_app. }
  assert (Hl : forall a, a <> k ->
            get_lines (boxes s ++ [(k, mkEntry nb ls)]) a = lines_of s a).
  { intros a Ha. apply get_lines_app_other. congruence. }
  assert (Hlk : get_lines (boxes s ++ [(k, mkEntry nb ls)]) k = ls).
  { now rewrite get_lines_app_new. }
  assert (Hall : forall a b, In b (get_lines (boxes s ++ [(k, mkEntry nb ls)]) a) ->
                             In (a, b) pend').
  { intros a b. destruct (string_dec a k) as [->|Hak].
    - rewrite Hlk. apply Hnew.
    - rewrite Hl by assumption. intros H. apply Hincl. now apply Hpend. }
  split; [|split; [assumption | exact Hall]].
  constructor; unfold keys, lines_of; simpl; try rewrite Hkeys.
  - apply Permutation_NoDup with (l := k :: keys s).
    + apply Permutation_cons_append.
    + constructor; [assumption | apply (inv_keys_nodup s I)].
  - intros k' Hin. apply in_app_or in Hin. destruct Hin as [Hin|[<-|[]]].
    + now apply (inv_keys_num s I).
    + now exists n.
  - intros k' b. unfold shape. rewrite map_app. intros Hin.
    apply in_app_or in Hin. destruct Hin as [Hin|[E'|[]]].
    + now apply (inv_entry_id s I).
    + simpl in E'. injection E'; intros <- <-. assumption.
  - unfold shape. rewrite !map_app. simpl. f_equal.
    rewrite (inv_dom s I). unfold shape. reflexivity.
  - rewrite Hdl. constructor.
  - rewrite Hdl. intros l [].
  - intros a b _ _ H1 _. left. now apply Hall.
  - intros a. destruct (string_dec a k) as [->|Hak].
    + now rewrite Hlk.
    + rewrite Hl by assumption. apply (inv_refs_nodup s I).
  - intros a x0. destruct (string_dec a k) as [->|Hak].
    + rewrite Hlk. apply Hnum.
    + rewrite Hl by assumption. apply (inv_refs_num s I).
  - destruct (inv_total s I) as [t' [Ht' [H0 Hb]]].
    assert (t' = t) by congruence. subst t'.
    exists (Z.max t (Z.of_N n)). repeat split; [lia|].
    intros m Hin. apply in_app_or in Hin. destruct Hin as [Hin|[E'|[]]].
    + apply Hb in Hin. lia.
    + unfold k in E'. apply nat_str_inj in E'. subst m. lia.
Qed.

Lemma link_calls_cons e r :
  link_calls (e :: r) = (link_calls [e] ++ link_calls r)%list.
Proof. unfold link_calls. simpl. now rewrite List.app_nil_r. Qed.

Lemma wf_box_lines e :
  wf_box e ->
  exists a, Json.prop e "lines" = Some (JArr a) /\
            restored_lines e = dedupe (map Json.str a) /\
            link_calls [e] = map (fun x => (box_id e, Json.str x)) a /\
            forall x, In x a -> numeral (Json.str x).
Proof.
  intros [_ [[a [Ha Hnum]] _]]. exists a. unfold restored_lines, link_calls.
  simpl. rewrite Ha, List.app_nil_r. repeat (split; [reflexivity|]).
  intros x Hx. now apply Hnum.
Qed.

(** The first pass on the boxes of a document in the serialised
    format: every box is restored, none is connected yet. *)
Lemma restore_boxes_spec bs : forall pend s,
  InvP pend s -> unlinked pend s ->
  (forall e, In e bs -> wf_box e) -> NoDup (map box_id bs) ->
  (forall e, In e bs -> ~ In (box_id e) (keys s)) ->
  exists s', restore_boxes bs s = Done s' /\
    InvP (pend ++ link_calls bs) s' /\ unlinked (pend ++ link_calls bs) s' /\
    boxes s' = (boxes s ++ map restored_entry bs)%list /\
    dom_boxes s' = (dom_boxes s ++ map (fun e => restored e (box_id e)) bs)%list.
Proof.
  induction bs as [|e r IH]; intros pend s I U Hwf Hnd Hfresh.
  - exists s. unfold link_calls. simpl. rewrite !List.app_nil_r. auto.
  - simpl restore_boxes. assert (We : wf_box e) by (apply Hwf; now left).
    destruct (wf_box_id e We) as [w [n [_ [_ [Hid _]]]]].
    destruct (wf_box_lines e We) as [a [Ha [Hrl [Hlc Hnum]]]].
    destruct (inv_total s I) as [t [Ht _]].
    assert (Fe : ~ In (box_id e) (keys s)) by (apply Hfresh; now left).
    rewrite (restore_box_spec e s t n We Hid Ht Fe).
    set (s1 := mkState _ _ _ _).
    assert (H1 : InvP (pend ++ link_calls [e]) s1 /\ unlinked (pend ++ link_calls [e]) s1).
    { unfold s1. rewrite Hid in *.
      apply (InvP_add_box pend); try assumption.
      - apply restored_id.
      - rewrite Hrl. apply dedupe_nodup.
      - intros x Hx. rewrite Hrl in Hx. apply dedupe_in, in_map_iff in Hx.
        destruct Hx as [y [<- Hy]]. now apply Hnum.
      - intros p Hp. apply in_or_app. now left.
      - intros x Hx. rewrite Hrl in Hx. apply dedupe_in, in_map_iff in Hx.
        destruct Hx as [y [<- Hy]]. apply in_or_app. right.
        rewrite Hlc. apply in_map_iff. exists y. auto. }
    destruct H1 as [I1 U1].
    inversion Hnd as [|? ? Hne Hr]; subst.
    assert (Hfresh1 : forall e', In e' r -> ~ In (box_id e') (keys s1)).
    { intros e' He' Hin. unfold s1, keys, map_keys in Hin. simpl in Hin.
      rewrite map_app in Hin. apply in_app_or in Hin. simpl in Hin.
      destruct Hin as [Hin|[E|[]]].
      - apply (Hfresh e'); [now right | assumption].
      - apply Hne. rewrite E. now apply in_map. }
    destruct (IH _ s1 I1 U1 (fun e' H => Hwf e' (or_intror H)) Hr Hfresh1)
      as [s' [E [I' [U' [Hb Hd]]]]].
    exists s'. rewrite (link_calls_cons e r), List.app_assoc.
    split; [assumption|]. split; [assumption|]. split; [assumption|]. split.
    + rewrite Hb. unfold s1. simpl. now rewrite <- List.app_assoc.
    + rewrite Hd. unfold s1. simpl. now rewrite <- List.app_assoc.
Qed.

(** *** Import, second pass *)

Lemma reconnect_boxes_spec bs : forall s,
  (forall e, In e bs -> wf_box e) ->
  reconnect_boxes bs s = Done (connect_all (link_calls bs) s).
Proof.
  induction bs as [|e r IH]; intros s Hwf; [reflexivity|].
  simpl reconnect_boxes.
  assert (We : wf_box e) by (apply Hwf; now left).
  destruct (wf_box_lines e We) as [a [Ha [_ [Hlc _]]]].
  destruct (wf_box_id e We) as [w [n [_ [Hp _]]]].
  destruct (wf_box_converts e We) as [_ [Ck [_ [_ [_ [_ Cl]]]]]].
  specialize (Cl a Ha).
  assert (El : reconnect_box e s =
               Done (fold_left (fun acc x => newLine (box_id e) (Json.str x) acc) a s)).
  { unfold reconnect_box. destruct e; try (simpl in Hp; discriminate).
    rewrite Ha. unfold forEach_target. simpl Json.truthy. cbv iota.
    unfold box_id. clear - Ck Cl. revert Ck.
    generalize (Json.prop (JObj l) "id") as k. intros k Ck. revert s.
    induction a as [|x t IHt]; intros s; [reflexivity|].
    simpl in Cl. apply andb_true_iff in Cl. destruct Cl as [Cx Ct].
    cbn [link_each fold_left]. rewrite Ck, Cx. cbn [andb]. now apply IHt. }
  rewrite El.
  rewrite IH by (intros e' H; apply Hwf; now right).
  rewrite (link_calls_cons e r). unfold connect_all.
  rewrite fold_left_app. f_equal. f_equal. rewrite Hlc.
  clear. revert s. induction a as [|x t IHt]; intros s; simpl; [reflexivity|].
  apply IHt.
Qed.

Lemma InvP_connect_all calls : forall s,
  InvP calls s -> (forall p, In p calls -> numeral (fst p) /\ numeral (snd p)) ->
  Inv (connect_all calls s).
Proof.
  induction calls as [|[a b] r IH]; intros s I Hn; simpl; [assumption|].
  apply IH.
  - apply InvP_newLine; [assumption | |]; apply (Hn (a, b)); now left.
  - intros p Hp. apply Hn. now right.
Qed.

(** *** Import of a document in the serialised format *)

Lemma Inv_cleared : Inv cleared.
Proof.
  constructor; unfold keys, lines_of; simpl; try constructor;
    try (intros; contradiction).
  exists 0. repeat split; [lia | intros n []].
Qed.

Lemma link_calls_numeral bs :
  (forall e, In e bs -> wf_box e) ->
  forall p, In p (link_calls bs) -> numeral (fst p) /\ numeral (snd p).
Proof.
  intros Hwf p Hp. unfold link_calls in Hp. apply in_flat_map in Hp.
  destruct Hp as [e [He Hp]]. pose proof (Hwf e He) as We.
  destruct (wf_box_lines e We) as [a [Ha [_ [_ Hnum]]]].
  destruct (wf_box_id e We) as [w [n [_ [_ [Hid _]]]]].
  rewrite Ha in Hp. apply in_map_iff in Hp. destruct Hp as [x [<- Hx]]. simpl.
  split; [rewrite Hid; now eexists | now apply Hnum].
Qed.

Lemma upload_wf data s :
  wf_doc data ->
  exists bs s1,
    Json.prop data "boxes" = Some (JArr bs) /\
    (forall e, In e bs -> wf_box e) /\ NoDup (map box_id bs) /\
    restore_boxes bs cleared = Done s1 /\
    boxes s1 = map restored_entry bs /\
    dom_boxes s1 = map (fun e => restored e (box_id e)) bs /\
    dom_lines s1 = [] /\
    InvP (link_calls bs) s1 /\
    upload (Parsed data) s = Done (connect_all (link_calls bs) s1) /\
    Inv (connect_all (link_calls bs) s1).
Proof.
  intros [bs [Hp [Hwf [Hnd [T1 [T2 T3]]]]]].
  assert (U0 : unlinked [] cleared) by (split; [reflexivity | intros a b []]).
  destruct (restore_boxes_spec bs [] cleared Inv_cleared U0 Hwf Hnd
              (fun e _ H => H)) as [s1 [E [I1 [U1 [Hb Hd]]]]].
  simpl in I1, U1, Hb, Hd.
  exists bs, s1. repeat (split; [assumption|]).
  split; [apply U1|]. split; [assumption|]. split.
  - unfold upload. destruct data; try (simpl in Hp; discriminate).
    rewrite T1, T2, T3, Hp. unfold forEach_target. simpl.
    rewrite E. now apply reconnect_boxes_spec.
  - apply InvP_connect_all; [assumption | now apply link_calls_numeral].
Qed.

(** The serialised format is one on which the import completes. *)
Lemma safe_numeral k : safe_id k -> numeral k.
Proof. intros [n [_ ->]]. now exists n. Qed.

Lemma id_value_wf w :
  id_value w ->
  requested (Some w) = Some w /\ Json.convertible w = true /\ numeral (Json.str w).
Proof.
  intros [[[t ->]|[z ->]] Hs]; (split; [reflexivity|]); (split; [reflexivity|]);
    now apply safe_numeral.
Qed.

Lemma text_value_converts v : text_value v -> Json.converts v = true.
Proof. intros [->|[t ->]]; reflexivity. Qed.

Lemma text_value_page v : text_value v -> page_text_ok v = true.
Proof.
  intros H. unfold page_text_ok. rewrite (text_value_converts v H).
  apply orb_true_r.
Qed.

Lemma pos_value_converts v : pos_value v -> Json.converts v = true.
Proof. intros [->|[t [-> _]]]; reflexivity. Qed.

Lemma colour_value_converts v : colour_value v -> Json.converts v = true.
Proof. intros [->|[t [-> _]]]; reflexivity. Qed.

Lemma snapshot_box_wf e : snapshot_box e -> wf_box e.
Proof.
  intros [[w [Hw Hv]] [[a [Ha Hl]] [Hc Hs]]].
  destruct (id_value_wf w Hv) as [Hr [Hcv Hn]].
  split; [|split; [|split]].
  - exists w. rewrite Hw. auto.
  - exists a. split; [assumption|]. intros x Hx.
    destruct (id_value_wf x (Hl x Hx)) as [_ [H1 H2]]. auto.
  - now apply text_value_converts.
  - destruct Hs as [->|[fields [-> [H1 [H2 H3]]]]]; [repeat split|].
    simpl Json.opt_prop. unfold Json.prop.
    split; [now apply pos_value_converts|].
    split; [now apply pos_value_converts | now apply colour_value_converts].
Qed.

Lemma snapshot_wf data : snapshot data -> wf_doc data.
Proof.
  intros [bs [Hp [Hb [Hnd [T1 [T2 T3]]]]]]. exists bs.
  split; [assumption|]. split; [intros e He; now apply snapshot_box_wf, Hb|].
  split; [assumption|]. repeat split; now apply text_value_page.
Qed.

(** Every state the editor reaches is well formed. *)
Lemma reachable_Inv seed s : id seed = "1" -> reachable seed s -> Inv s.
Proof.
  intros Hseed R. induction R.
  - now apply Inv_init.
  - now apply Inv_create.
  - now apply Inv_addBlock.
  - now apply Inv_newLine.
  - now apply Inv_deleteLine.
  - now apply Inv_deleteBox.
  - destruct (upload_wf data s H) as [bs [s1 [_ [_ [_ [_ [_ [_ [_ [_ [E I]]]]]]]]]]].
    rewrite E in H0. injection H0; intros <-. assumption.
Qed.

Lemma numbered_box_wf e : numbered_box e -> wf_box e.
Proof.
  intros [[w [Hw [Hc Hs]]] [[a [Ha Hl]] H]].
  split; [|split; [|exact H]].
  - exists w. split; [assumption|]. split; [assumption | now apply safe_numeral].
  - exists a. split; [assumption|]. intros x Hx.
    destruct (Hl x Hx) as [H1 H2]. split; [assumption | now apply safe_numeral].
Qed.

Lemma numbered_wf data : numbered_doc data -> wf_doc data.
Proof.
  intros [bs [Hp [Hb H]]]. exists bs.
  split; [assumption|]. split; [intros e He; now apply numbered_box_wf, Hb | exact H].
Qed.

Lemma snapshot_box_numbered e : snapshot_box e -> numbered_box e.
Proof.
  intros S. pose proof (snapshot_box_wf e S) as [_ [_ H]].
  destruct S as [[w [Hw Hv]] [[a [Ha Hl]] _]].
  destruct (id_value_wf w Hv) as [Hr [Hcv _]].
  split; [|split; [|exact H]].
  - exists w. rewrite Hw. split; [assumption|]. split; [assumption | apply Hv].
  - exists a. split; [assumption|]. intros x Hx.
    destruct (id_value_wf x (Hl x Hx)) as [_ [H1 _]].
    split; [assumption | apply (Hl x Hx)].
Qed.

Lemma snapshot_numbered data : snapshot data -> numbered_doc data.
Proof.
  intros [bs [Hp [Hb [Hnd [T1 [T2 T3]]]]]]. exists bs.
  split; [assumption|]. split; [intros e He; now apply snapshot_box_numbered, Hb|].
  split; [assumption|]. repeat split; now apply text_value_page.
Qed.

Lemma numbered_reachable seed s : id seed = "1" -> numbered seed s -> reachable seed s.
Proof.
  intros Hseed R. induction R.
  - apply r_init.
  - now apply r_create.
  - now apply r_addBlock.
  - pose proof (reachable_Inv seed s Hseed IHR) as I.
    apply r_newLine; [assumption | |]; now apply (inv_keys_num s I).
  - now apply r_deleteLine.
  - now apply r_deleteBox.
  - apply (r_upload seed s data s'); [assumption | now apply numbered_wf | assumption].
Qed.

Lemma numbered_Inv seed s : id seed = "1" -> numbered seed s -> Inv s.
Proof.
  intros Hseed R.
  apply (reachable_Inv seed s Hseed), (numbered_reachable seed s Hseed R).
Qed.

Lemma bounded_numbered seed s : bounded seed s -> numbered seed s.
Proof.
  intros R. induction R.
  - apply n_init.
  - now apply n_create.
  - now apply n_addBlock.
  - now apply n_newLine.
  - now apply n_deleteLine.
  - now apply n_deleteBox.
  - apply (n_upload seed s data s'); [assumption | now apply snapshot_numbered | assumption].
Qed.

Lemma bounded_Inv seed s : id seed = "1" -> bounded seed s -> Inv s.
Proof. intros Hseed R. apply (numbered_Inv seed s Hseed), bounded_numbered, R. Qed.

(* ================================================================== *)
(** ** Properties of the specification *)
(* ================================================================== *)

(** The side conditions of a step on a sample store. *)
Ltac in_range :=
  first [ now (eexists; split; [reflexivity | vm_compute; reflexivity])
        | now (vm_compute; reflexivity)
        | now (vm_compute; auto 10) ].

Lemma numbered_three : numbered seed0 three.
Proof.
  unfold three. apply n_create; [apply n_create; [apply n_init | ..] | ..];
    in_range.
Qed.

Lemma numbered_path123 : numbered seed0 path123.
Proof.
  unfold path123.
  apply n_newLine; [| in_range | in_range].
  apply n_newLine; [| in_range | in_range].
  apply numbered_three.
Qed.

(** Two boxes whose ids, [1] and [01], read as the same number. *)
Lemma leading_zero_store :
  upload (Parsed doc_leading_zero) page0 = Done leading_zero /\
  keys leading_zero = ["1"; "01"] /\ dom_lines leading_zero = [] /\
  JS.Number "01" = JS.Number "1".
Proof. repeat split. Qed.

(** C2, as stated, fails: the import takes the ids of a document as
    they are.  After the import of two boxes with the ids [1] and
    [01], which read as the same number, and a connection of the
    first with the second, both boxes list each other and their line
    is [1_01]; for the pair taken in the other order there is no
    line, neither under the key [01_1] nor under any key that
    [newLine] computes for that pair.  And after the import of a box
    that refers to ["heading"], the id of an element that is no box,
    the line [1_heading] exists while no neighbour list of a box
    [heading] holds [1]. *)
Lemma C2_adjacency_counterexample :
  let s := newLine "1" "01" leading_zero in
  let h := final (upload (Parsed doc_heading) page0) in
  upload (Parsed doc_leading_zero) page0 = Done leading_zero /\
  dom_lines s = ["1_01"] /\
  In "1" (lines_of s "01") /\ In "01" (lines_of s "1") /\
  lineIdOf "01" "1" = "01_1" /\
  ~ In (lineIdOf "01" "1") (dom_lines s) /\
  In (lineIdOf "1" "heading") (dom_lines h) /\
  ~ In "1" (lines_of h "heading").
Proof.
  cbv zeta. repeat split; try (simpl; auto; fail).
  vm_compute. intros [H|[]]. discriminate.
Qed.

(** C2, amended.  In every state reached, with ids below 2^53, by
    creating, connecting, disconnecting and deleting boxes and by
    importing documents with pairwise distinct decimal ids below 2^53
    on which the import completes (see [numbered]), the line with the
    key of the pair [a], [b] exists if and only if [b] is in the
    neighbour list of [a] and [a] in that of [b], for all boxes and
    all decimal ids below 2^53; and after [newLine(a, b)] on two
    boxes the membership test of the connect menu holds in both
    directions. *)
Theorem C2_adjacency_agrees (seed : BoxElem) (s : State) :
  id seed = "1" -> numbered seed s ->
  (forall a b, In a (keys s) \/ safe_id a -> In b (keys s) \/ safe_id b ->
     (In (lineIdOf a b) (dom_lines s) <->
      In b (lines_of s a) /\ In a (lines_of s b))) /\
  (forall a b, In a (keys s) -> In b (keys s) ->
     isConnected (newLine a b s) a b = true /\
     isConnected (newLine a b s) b a = true).
Proof.
  intros Hseed R. pose proof (numbered_Inv seed s Hseed R) as I. split.
  - intros a b Ha Hb.
    assert (Na : numeral a)
      by (destruct Ha; [now apply (inv_keys_num s I) | now apply safe_numeral]).
    assert (Nb : numeral b)
      by (destruct Hb; [now apply (inv_keys_num s I) | now apply safe_numeral]).
    split.
    + intros Hl.
      destruct (inv_lines_sound s I _ Hl) as [a' [b' [Ka [Kb [E [H1 H2]]]]]].
      apply lineIdOf_inj in E; try assumption;
        try (now apply (inv_keys_num s I)).
      destruct E as [[-> ->]|[-> ->]]; auto.
    + intros [H1 H2]. apply (Inv_complete s a b I); try assumption.
      * eapply get_lines_key; eauto.
      * eapply get_lines_key; eauto.
  - intros a b Ka Kb.
    pose proof (inv_keys_num s I a Ka) as Na.
    pose proof (inv_keys_num s I b Kb) as Nb.
    unfold isConnected. rewrite !mem_In.
    destruct (newLine_cases s a b I Na Nb) as [[-> Hc]|[_ [_ [_ ->]]]].
    + destruct Hc as [Hc|[Hc|Hc]]; try contradiction.
      destruct (inv_lines_sound s I _ Hc) as [a' [b' [Ka' [Kb' [E [H1 H2]]]]]].
      apply lineIdOf_inj in E; try assumption;
        try (now apply (inv_keys_num s I)).
      destruct E as [[-> ->]|[-> ->]]; auto.
    + unfold lines_of. simpl.
      split; apply connected_lines_in; auto.
Qed.

Lemma C2_adjacency_agrees_witness :
  id seed0 = "1" /\ numbered seed0 path123 /\
  (forall a b, In a (keys path123) \/ safe_id a ->
     In b (keys path123) \/ safe_id b ->
     (In (lineIdOf a b) (dom_lines path123) <->
      In b (lines_of path123 a) /\ In a (lines_of path123 b))) /\
  (forall a b, In a (keys path123) -> In b (keys path123) ->
     isConnected (newLine a b path123) a b = true /\
     isConnected (newLine a b path123) b a = true).
Proof.
  split; [reflexivity|]. split; [apply numbered_path123|].
  apply (C2_adjacency_agrees seed0 path123 eq_refl numbered_path123).
Defined.

Lemma attached_lineIdOf k a b :
  numeral a -> numeral b ->
  attached k (lineIdOf a b) = String.eqb a k || String.eqb b k.
Proof.
  intros Na Nb. destruct (lineIdOf_split a b Na Nb) as [E|E];
    rewrite (attached_line k _ _ _ E); [reflexivity | apply orb_comm].
Qed.

(** C3, as stated, fails: [deleteBox] finds the lines of a box by the
    first two parts of their ids, split at the underscores, and the
    import takes the ids of a document as they are.  After the import
    of the boxes [1], [1_2] and [3], with [1_2] connected to [3] by
    the line [1_2_3], deleting box [1], which has no line, removes
    that line, while the boxes [1_2] and [3] stay and still list each
    other. *)
Lemma C3_deleteBox_counterexample :
  upload (Parsed doc_underscore) page0 = Done underscore /\
  keys underscore = ["1"; "1_2"; "3"] /\
  dom_lines underscore = ["1_2_3"] /\
  lines_of underscore "1" = [] /\
  lines_of underscore "1_2" = ["3"] /\ lines_of underscore "3" = ["1_2"] /\
  keys (deleteBox "1" underscore) = ["1_2"; "3"] /\
  dom_lines (deleteBox "1" underscore) = [] /\
  lines_of (deleteBox "1" underscore) "1_2" = ["3"] /\
  lines_of (deleteBox "1" underscore) "3" = ["1_2"].
Proof. repeat split. Qed.

(** C3, amended.  In the states reached with decimal ids below 2^53
    (see [numbered]), [deleteBox(n)] removes exactly the lines
    attached to [n], the lines that have [n] as an endpoint, and no
    other; it removes [n] and leaves every other box; from the
    neighbour list of every other box it removes [n] when the box had
    a line to [n], and nothing else.  On the path 1-2-3, deleting box
    2 leaves the boxes 1 and 3, no line, and empty neighbour lists. *)
Theorem C3_deleteBox_exact (seed : BoxElem) (s : State) (n : string) :
  id seed = "1" -> numbered seed s -> In n (keys s) ->
  dom_lines (deleteBox n s) =
    filter (fun l => negb (attached n l)) (dom_lines s) /\
  (forall a b, In a (keys s) \/ safe_id a -> In b (keys s) \/ safe_id b ->
     (In (lineIdOf a b) (dom_lines (deleteBox n s)) <->
      In (lineIdOf a b) (dom_lines s) /\ a <> n /\ b <> n)) /\
  (forall k, In k (keys (deleteBox n s)) <-> In k (keys s) /\ k <> n) /\
  (forall k, In k (map id (dom_boxes (deleteBox n s))) <->
             In k (map id (dom_boxes s)) /\ k <> n) /\
  (forall c x, c <> n ->
     (In x (lines_of (deleteBox n s) c) <->
      In x (lines_of s c) /\
      ~ (x = n /\ In (lineIdOf c n) (dom_lines s)))) /\
  (keys (deleteBox "2" path123) = ["1"; "3"] /\
   dom_lines (deleteBox "2" path123) = [] /\
   lines_of (deleteBox "2" path123) "1" = [] /\
   lines_of (deleteBox "2" path123) "3" = []).
Proof.
  intros Hseed R Kn. pose proof (numbered_Inv seed s Hseed R) as I.
  destruct (deleteBox_spec s n I) as [I' [Hs [_ [_ [Hl Hrefs]]]]]. cbv zeta in *.
  assert (Hk : forall k, In k (keys (deleteBox n s)) <-> In k (keys s) /\ k <> n).
  { intros k. unfold keys. rewrite <- !keys_shape, Hs.
    rewrite in_map_iff. split.
    - intros [[k' b] [<- Hin]]. apply filter_In in Hin. destruct Hin as [Hin Hne].
      simpl in *. split.
      + apply in_map_iff. exists (k', b). auto.
      + intros ->. now rewrite String.eqb_refl in Hne.
    - intros [Hin Hne]. apply in_map_iff in Hin. destruct Hin as [[k' b] [<- Hin]].
      exists (k', b). split; [reflexivity|]. apply filter_In. split; [assumption|].
      simpl in *. destruct (String.eqb_spec n k'); [congruence | reflexivity]. }
  split; [assumption|]. split; [|split; [assumption|split; [|split]]].
  - intros a b Ha Hb.
    assert (Na : numeral a)
      by (destruct Ha; [now apply (inv_keys_num s I) | now apply safe_numeral]).
    assert (Nb : numeral b)
      by (destruct Hb; [now apply (inv_keys_num s I) | now apply safe_numeral]).
    rewrite Hl, filter_In, (attached_lineIdOf n a b Na Nb).
    rewrite negb_true_iff, orb_false_iff, !String.eqb_neq. tauto.
  - intros k. rewrite (Inv_dom_ids _ I'), (Inv_dom_ids _ I). apply Hk.
  - intros c x Hc. rewrite (Hrefs c x Hc). split.
    + intros [Hin Hna]. split; [assumption|]. intros [-> Hline].
      apply Hna. unfold getLinesAttached. apply filter_In. split; [assumption|].
      rewrite attached_lineIdOf.
      * rewrite String.eqb_refl. apply orb_true_r.
      * apply (inv_keys_num s I). eapply get_lines_key; eauto.
      * now apply (inv_keys_num s I).
    + intros [Hin Hna]. split; [assumption|]. intros Ha.
      apply filter_In in Ha. destruct Ha as [Hd Ha].
      rewrite attached_lineIdOf in Ha.
      * apply orb_true_iff in Ha. rewrite !String.eqb_eq in Ha.
        destruct Ha as [Ha|Ha]; [congruence|]. subst x. tauto.
      * apply (inv_keys_num s I). eapply get_lines_key; eauto.
      * now apply (inv_refs_num s I c).
  - repeat split; reflexivity.
Qed.

Lemma C3_deleteBox_exact_witness :
  id seed0 = "1" /\ numbered seed0 path123 /\ In "2" (keys path123) /\
  dom_lines (deleteBox "2" path123) =
    filter (fun l => negb (attached "2" l)) (dom_lines path123) /\
  (forall a b, In a (keys path123) \/ safe_id a -> In b (keys path123) \/ safe_id b ->
     (In (lineIdOf a b) (dom_lines (deleteBox "2" path123)) <->
      In (lineIdOf a b) (dom_lines path123) /\ a <> "2" /\ b <> "2")) /\
  (forall k, In k (keys (deleteBox "2" path123)) <-> In k (keys path123) /\ k <> "2") /\
  (forall k, In k (map id (dom_boxes (deleteBox "2" path123))) <->
             In k (map id (dom_boxes path123)) /\ k <> "2") /\
  (forall c x, c <> "2" ->
     (In x (lines_of (deleteBox "2" path123) c) <->
      In x (lines_of path123 c) /\
      ~ (x = "2" /\ In (lineIdOf c "2") (dom_lines path123)))) /\
  (keys (deleteBox "2" path123) = ["1"; "3"] /\
   dom_lines (deleteBox "2" path123) = [] /\
   lines_of (deleteBox "2" path123) "1" = [] /\
   lines_of (deleteBox "2" path123) "3" = []).
Proof.
  assert (K : In "2" (keys path123)) by (simpl; auto).
  split; [reflexivity|]. split; [apply numbered_path123|]. split; [exact K|].
  apply (C3_deleteBox_exact seed0 path123 "2" eq_refl numbered_path123 K).
Defined.

Lemma newLine_keys s a b : keys (newLine a b s) = keys s.
Proof.
  unfold newLine.
  destruct (negb (hasElement s a) || negb (hasElement s b)); [reflexivity|].
  destruct (hasElement s (lineIdOf a b)); [reflexivity|].
  unfold keys. simpl. now rewrite !keys_push_line.
Qed.

(** Connecting two boxes gives them their line and each the other in
    its neighbour list; a further request, in either order, changes
    nothing. *)
Lemma newLine_connects s a b :
  Inv s -> In a (keys s) -> In b (keys s) ->
  let s1 := newLine a b s in
  In (lineIdOf a b) (dom_lines s1) /\
  In b (lines_of s1 a) /\ In a (lines_of s1 b) /\
  newLine a b s1 = s1 /\ newLine b a s1 = s1.
Proof.
  intros I Ka Kb. cbv zeta.
  pose proof (inv_keys_num s I a Ka) as Na.
  pose proof (inv_keys_num s I b Kb) as Nb.
  pose proof (Inv_newLine s a b I Na Nb) as I1.
  assert (Hl : In (lineIdOf a b) (dom_lines (newLine a b s))).
  { destruct (newLine_cases s a b I Na Nb) as [[-> Hc]|[_ [_ [_ ->]]]].
    - destruct Hc as [Hc|[Hc|Hc]]; [contradiction | contradiction | assumption].
    - simpl. apply in_or_app. right. now left. }
  assert (Hm : In b (lines_of (newLine a b s) a) /\ In a (lines_of (newLine a b s) b)).
  { destruct (inv_lines_sound _ I1 _ Hl) as [a' [b' [Ka' [Kb' [E [H1 H2]]]]]].
    apply lineIdOf_inj in E; try assumption;
      try (now apply (inv_keys_num _ I1)).
    destruct E as [[-> ->]|[-> ->]]; auto. }
  split; [assumption|]. split; [apply Hm|]. split; [apply Hm|]. split.
  - destruct (newLine_cases _ a b I1 Na Nb) as [[E _]|[_ [_ [Hn _]]]];
      [assumption | contradiction].
  - destruct (newLine_cases _ b a I1 Nb Na) as [[E _]|[_ [_ [Hn _]]]];
      [assumption|]. rewrite (lineIdOf_sym b a Nb Na) in Hn. contradiction.
Qed.

Lemma set_lines_id k f m :
  f (get_lines m k) = get_lines m k -> set_lines k f m = m.
Proof.
  unfold get_lines. induction m as [|[k' e'] r IH]; simpl; [reflexivity|].
  destruct (String.eqb_spec k k') as [->|Hne]; intros H.
  - rewrite H. now destruct e'.
  - now rewrite IH.
Qed.

Lemma filter_absent x l :
  ~ In x l -> filter (fun i => negb (String.eqb i x)) l = l.
Proof.
  intros H. apply forallb_filter_id. apply forallb_forall. intros y Hy.
  destruct (String.eqb_spec y x); [congruence | reflexivity].
Qed.

Lemma remove_first_absent x l : ~ In x l -> remove_first x l = l.
Proof.
  induction l as [|y r IH]; simpl; [reflexivity|].
  intros H. destruct (String.eqb_spec x y) as [->|Hne]; [tauto|].
  rewrite IH; [reflexivity | tauto].
Qed.

Lemma menu_key n m :
  JS.num_str (num_min (JS.Number (JS.nat_str n)) (JS.Number (JS.nat_str m))) ++ "_" ++
  JS.num_str (JS.max (JS.Number (JS.nat_str n)) (JS.Number (JS.nat_str m))) =
  lineIdOf (JS.nat_str n) (JS.nat_str m).
Proof.
  rewrite lineIdOf_nat, !Number_nat_str. simpl num_min. simpl JS.max.
  simpl JS.num_str.
  destruct (N.ltb_spec m n).
  - rewrite Z.min_r, Z.max_l by lia. now rewrite !int_str_of_N.
  - rewrite Z.min_l, Z.max_r by lia. now rewrite !int_str_of_N.
Qed.

(** The connect menu stays within the states of [numbered]. *)
Lemma menuClick_numbered seed s a b :
  id seed = "1" -> numbered seed s -> In a (keys s) -> In b (keys s) ->
  numbered seed (menuClick a b s).
Proof.
  intros Hseed R Ka Kb. pose proof (numbered_Inv seed s Hseed R) as I.
  destruct (inv_keys_num s I a Ka) as [n ->].
  destruct (inv_keys_num s I b Kb) as [m ->].
  assert (Hlo : JS.num_str (num_min (JS.Number (JS.nat_str n)) (JS.Number (JS.nat_str m)))
                = JS.nat_str (N.min n m)).
  { rewrite !Number_nat_str. simpl. rewrite <- int_str_of_N. f_equal. lia. }
  assert (Hhi : JS.num_str (JS.max (JS.Number (JS.nat_str n)) (JS.Number (JS.nat_str m)))
                = JS.nat_str (N.max n m)).
  { rewrite !Number_nat_str. simpl. rewrite <- int_str_of_N. f_equal. lia. }
  unfold menuClick. destruct (isConnected s _ _).
  - unfold disconnect.
    destruct (hasElement s _) eqn:E; [|assumption].
    rewrite menu_key in *. apply n_deleteLine; [assumption|].
    rewrite (hasElement_line s _ _ I) in E by now eexists.
    now apply mem_In.
  - rewrite Hlo, Hhi. apply n_newLine; [assumption | |].
    + destruct (N.min_dec n m) as [-> | ->]; assumption.
    + destruct (N.max_dec n m) as [-> | ->]; assumption.
Qed.

(** C4, as stated, fails: the key of a line is made of the two ids in
    the order of their numeric values, and ids that read as the same
    number keep the order of the request.  For two boxes with the ids
    [1] and [01], connecting the first with the second and then the
    second with the first stores two lines. *)
Lemma C4_connect_once_counterexample :
  In "1" (keys leading_zero) /\ In "01" (keys leading_zero) /\ "1" <> "01" /\
  dom_lines (newLine "01" "1" (newLine "1" "01" leading_zero)) = ["1_01"; "01_1"].
Proof. repeat split; try (simpl; auto; fail). discriminate. Qed.

(** C4, amended.  In the states reached with decimal ids below 2^53
    (see [numbered]), connecting two distinct boxes twice, in the
    same or in the opposite order, leaves exactly one line, under the
    key [<lesser>_<greater>], and each box exactly once in the
    neighbour list of the other; a disconnect request for a pair that
    has no line leaves the state as it is. *)
Theorem C4_connect_once (seed : BoxElem) (s : State) (a b : string) :
  id seed = "1" -> numbered seed s ->
  In a (keys s) -> In b (keys s) -> a <> b ->
  (forall s', s' = newLine a b (newLine a b s) \/
              s' = newLine b a (newLine a b s) ->
     count_occ string_dec (dom_lines s') (lineIdOf a b) = 1%nat /\
     count_occ string_dec (lines_of s' a) b = 1%nat /\
     count_occ string_dec (lines_of s' b) a = 1%nat) /\
  (exists n m, a = JS.nat_str n /\ b = JS.nat_str m /\
     lineIdOf a b = JS.nat_str (N.min n m) ++ "_" ++ JS.nat_str (N.max n m) /\
     lineIdOf b a = lineIdOf a b) /\
  (~ In (lineIdOf a b) (dom_lines s) ->
     (isConnected s a b = true -> menuClick a b s = s) /\
     (~ In b (lines_of s a) -> ~ In a (lines_of s b) ->
      deleteLine (lineIdOf a b) s = s)).
Proof.
  intros Hseed R Ka Kb Hab. pose proof (numbered_Inv seed s Hseed R) as I.
  pose proof (inv_keys_num s I a Ka) as Na.
  pose proof (inv_keys_num s I b Kb) as Nb.
  split; [|split].
  - destruct (newLine_connects s a b I Ka Kb) as [Hl [H1 [H2 [E1 E2]]]].
    pose proof (Inv_newLine s a b I Na Nb) as I1.
    intros s' Hs'. assert (s' = newLine a b s) as -> by (destruct Hs'; congruence).
    repeat split; apply NoDup_count_occ'; try assumption.
    + apply (inv_lines_nodup _ I1).
    + apply (inv_refs_nodup _ I1).
    + apply (inv_refs_nodup _ I1).
  - destruct Na as [n ->]. destruct Nb as [m ->]. exists n, m.
    split; [reflexivity|]. split; [reflexivity|]. split.
    + rewrite lineIdOf_nat. destruct (N.ltb_spec m n).
      * now rewrite N.min_r, N.max_l by lia.
      * now rewrite N.min_l, N.max_r by lia.
    + apply lineIdOf_sym; now eexists.
  - intros Hl. split.
    + intros Hc. unfold menuClick. rewrite Hc.
      destruct Na as [n ->]. destruct Nb as [m ->].
      unfold disconnect. rewrite menu_key.
      rewrite (hasElement_line s _ _ I) by now eexists.
      apply mem_false in Hl. now rewrite Hl.
    + intros H1 H2.
      destruct (lineIdOf_split a b Na Nb) as [E|E];
        rewrite (deleteLine_split _ _ _ s E);
        rewrite !set_lines_id, (remove_first_absent _ _ Hl);
        try (now destruct s); simpl;
        try (rewrite set_lines_id; simpl);
        now apply filter_absent.
Qed.

Lemma C4_connect_once_witness :
  id seed0 = "1" /\ numbered seed0 path123 /\
  In "1" (keys path123) /\ In "3" (keys path123) /\ "1" <> "3" /\
  (forall s', s' = newLine "1" "3" (newLine "1" "3" path123) \/
              s' = newLine "3" "1" (newLine "1" "3" path123) ->
     count_occ string_dec (dom_lines s') (lineIdOf "1" "3") = 1%nat /\
     count_occ string_dec (lines_of s' "1") "3" = 1%nat /\
     count_occ string_dec (lines_of s' "3") "1" = 1%nat) /\
  (exists n m, "1" = JS.nat_str n /\ "3" = JS.nat_str m /\
     lineIdOf "1" "3" = JS.nat_str (N.min n m) ++ "_" ++ JS.nat_str (N.max n m) /\
     lineIdOf "3" "1" = lineIdOf "1" "3") /\
  (~ In (lineIdOf "1" "3") (dom_lines path123) ->
     (isConnected path123 "1" "3" = true -> menuClick "1" "3" path123 = path123) /\
     (~ In "3" (lines_of path123 "1") -> ~ In "1" (lines_of path123 "3") ->
      deleteLine (lineIdOf "1" "3") path123 = path123)).
Proof.
  assert (K1 : In "1" (keys path123)) by (simpl; auto).
  assert (K3 : In "3" (keys path123)) by (simpl; auto).
  assert (D : "1" <> "3") by discriminate.
  split; [reflexivity|]. split; [apply numbered_path123|].
  split; [exact K1|]. split; [exact K3|]. split; [exact D|].
  apply (C4_connect_once seed0 path123 "1" "3" eq_refl numbered_path123 K1 K3 D).
Defined.

Lemma remove_first_other x l y :
  y <> x -> (In y (remove_first x l) <-> In y l).
Proof.
  intros Hne. induction l as [|z r IH]; simpl; [tauto|].
  destruct (String.eqb_spec x z) as [->|Hxz]; simpl.
  - split; [auto | intros [->|H]; [congruence | assumption]].
  - rewrite IH. tauto.
Qed.

Lemma filter_twice (f : string -> bool) l : filter f (filter f l) = filter f l.
Proof.
  induction l as [|x r IH]; simpl; [reflexivity|].
  destruct (f x) eqn:E; simpl; [rewrite E; now f_equal | assumption].
Qed.

(** [deleteLine] of the current script is exact on the pair: on the
    line [a_b] it takes [b] out of the neighbour list of [a] and [a]
    out of that of [b], and nothing else: every other entry of these
    two lists stays, the list of every other box is unchanged, the
    boxes are unchanged, and no other line is removed. *)
Theorem deleteLine_pair_exact (s : State) (l a b : string) :
  JS.split2 l = (a, Some b) ->
  lines_of (deleteLine l s) a =
    filter (fun i => negb (String.eqb i b)) (lines_of s a) /\
  lines_of (deleteLine l s) b =
    filter (fun i => negb (String.eqb i a)) (lines_of s b) /\
  (forall c, c <> a -> c <> b ->
     lines_of (deleteLine l s) c = lines_of s c) /\
  (forall l', l' <> l ->
     (In l' (dom_lines (deleteLine l s)) <-> In l' (dom_lines s))) /\
  shape (boxes (deleteLine l s)) = shape (boxes s) /\
  dom_boxes (deleteLine l s) = dom_boxes s /\
  totalBoxes (deleteLine l s) = totalBoxes s.
Proof.
  intros E. rewrite (deleteLine_split l a b s E). unfold lines_of. simpl.
  repeat split.
  - rewrite !get_lines_set by reflexivity. rewrite String.eqb_refl.
    destruct (String.eqb_spec b a) as [->|Hne]; [|reflexivity].
    simpl. apply filter_twice.
  - rewrite !get_lines_set by reflexivity. rewrite String.eqb_refl.
    destruct (String.eqb_spec a b) as [->|Hne]; [|reflexivity].
    simpl. apply filter_twice.
  - intros c Ha Hb. rewrite !get_lines_set by reflexivity.
    destruct (String.eqb_spec b c); [congruence|].
    destruct (String.eqb_spec a c); [congruence | reflexivity].
  - now apply remove_first_other.
  - now apply remove_first_other.
  - now rewrite !shape_set_lines.
Qed.

Lemma deleteLine_pair_exact_path123 :
  lines_of (deleteLine "1_2" path123) "2" = ["3"] /\
  lines_of (deleteLine "1_2" path123) "3" = ["2"] /\
  dom_lines (deleteLine "1_2" path123) = ["2_3"].
Proof.
  destruct (deleteLine_pair_exact path123 "1_2" "1" "2" eq_refl)
    as [_ [H2 [H3 _]]].
  split; [rewrite H2; reflexivity|].
  split; [rewrite H3; [reflexivity | discriminate | discriminate]|].
  reflexivity.
Defined.

(** C6.  The earlier version of [deleteLine] does not keep to the pair:
    it filters both endpoints out of the neighbour list of every box.
    On the path 1-2-3, deleting the line [1_2] empties the list of
    box 3, whose line [2_3] remains; box 2 keeps box 3.  [deleteLine]
    of the current script leaves the list of box 3 as it is. *)
Theorem C6_legacy_deleteLine_prunes :
  lines_of path123 "3" = ["2"] /\
  lines_of (Legacy.deleteLine "1_2" path123) "3" = [] /\
  lines_of (Legacy.deleteLine "1_2" path123) "2" = ["3"] /\
  dom_lines (Legacy.deleteLine "1_2" path123) = ["2_3"] /\
  lines_of (deleteLine "1_2" path123) "3" = ["2"] /\
  dom_lines (deleteLine "1_2" path123) = ["2_3"].
Proof. repeat split. Qed.

Lemma connect_all_keys calls : forall s, keys (connect_all calls s) = keys s.
Proof.
  induction calls as [|p r IH]; intros s; simpl; [reflexivity|].
  unfold connect_all in *. simpl. now rewrite IH, newLine_keys.
Qed.

Lemma upload_keys data s s' :
  wf_doc data -> upload (Parsed data) s = Done s' ->
  Inv s' /\
  exists bs, Json.prop data "boxes" = Some (JArr bs) /\ keys s' = map box_id bs.
Proof.
  intros W E.
  destruct (upload_wf data s W) as [bs [s1 [Hp [_ [_ [_ [Hb [_ [_ [_ [E' I]]]]]]]]]]].
  rewrite E' in E. injection E; intros <-. split; [assumption|].
  exists bs. split; [assumption|]. rewrite connect_all_keys.
  unfold keys, map_keys. rewrite Hb, map_map. reflexivity.
Qed.

Lemma createNewBlock_requested s x y c n t :
  totalBoxes s = JS.Fin t ->
  totalBoxes (fst (createNewBlock x y c (Some (JS.nat_str n)) s))
    = JS.Fin (Z.max t (Z.of_N n)).
Proof.
  intros Ht. unfold createNewBlock. cbv beta iota zeta.
  simpl. now rewrite Number_nat_str, Ht.
Qed.

(** C10, as stated, fails: the counter is advanced to
    [Math.max(totalBoxes, Number(id))], which is [NaN] for an id that
    does not read as a number.  After the import of a box with the id
    [NaN] the counter is [NaN], and the next box created gets the id
    [NaN], the id of the restored box. *)
Lemma C10_allocator_counterexample :
  exists s', upload (Parsed doc_nan) page0 = Done s' /\
    keys s' = ["NaN"] /\ totalBoxes s' = JS.NaN /\
    id (snd (createNewBlock 0 0 None None s')) = "NaN" /\
    In (id (snd (createNewBlock 0 0 None None s'))) (keys s').
Proof. eexists. split; [reflexivity|]. repeat split. simpl. auto. Qed.

(** C10, amended.  In the states reached with decimal ids below 2^53
    (see [numbered]) the counter is a number that bounds the id of
    every box.  It never decreases when a box is created: an
    allocated id raises it by one, a requested id below 2^53 raises
    it to at least that id.  The import of a document with pairwise
    distinct decimal ids below 2^53 and convertible values completes
    and leaves a counter that bounds every imported id.  While the
    counter leaves room below 2^53, a box created with an allocated
    id gets an id no box of the store has, in particular none
    restored by an import. *)
Theorem C10_allocator_fresh (seed : BoxElem) (s : State) :
  id seed = "1" -> numbered seed s ->
  exists t, totalBoxes s = JS.Fin t /\
    (forall n, In (JS.nat_str n) (keys s) -> Z.of_N n <= t) /\
    (below_limit s -> forall x y c,
       totalBoxes (fst (createNewBlock x y c None s)) = JS.Fin (t + 1) /\
       id (snd (createNewBlock x y c None s)) = JS.nat_str (Z.to_N (t + 1)) /\
       ~ In (id (snd (createNewBlock x y c None s))) (keys s)) /\
    (forall x y c n, (n < id_limit)%N ->
       exists t', totalBoxes (fst (createNewBlock x y c (Some (JS.nat_str n)) s))
                    = JS.Fin t' /\
                  t <= t' /\ Z.of_N n <= t') /\
    (forall data, numbered_doc data ->
       exists s' t' bs, upload (Parsed data) s = Done s' /\
         totalBoxes s' = JS.Fin t' /\
         Json.prop data "boxes" = Some (JArr bs) /\
         keys s' = map box_id bs /\
         (forall e n, In e bs -> box_id e = JS.nat_str n -> Z.of_N n <= t') /\
         (below_limit s' -> forall e x y c, In e bs ->
            id (snd (createNewBlock x y c None s')) <> box_id e)).
Proof.
  intros Hseed R. pose proof (numbered_Inv seed s Hseed R) as I.
  destruct (inv_total s I) as [t [Ht [H0 Hb]]].
  exists t. split; [assumption|]. split; [assumption|]. split; [|split].
  - intros _ x y c.
    destruct (createNewBlock_fresh s x y c t Ht H0 Hb) as [Hf [nb [Hid E]]].
    rewrite E. simpl. rewrite Hid. auto.
  - intros x y c n _. exists (Z.max t (Z.of_N n)).
    split; [now apply createNewBlock_requested | lia].
  - intros data W0. pose proof (numbered_wf data W0) as W.
    destruct (upload_wf data s W) as [bs0 [s1 [_ [_ [_ [_ [_ [_ [_ [_ [E _]]]]]]]]]]].
    destruct (upload_keys data s _ W E) as [I' [bs [Hp Hk]]].
    destruct (inv_total _ I') as [t' [Ht' [H0' Hb']]].
    eexists. exists t', bs. split; [exact E|].
    split; [assumption|]. split; [assumption|]. split; [assumption|]. split.
    + intros e n He Hn. apply Hb'. rewrite Hk, <- Hn. now apply in_map.
    + intros _ e x y c He.
      destruct (createNewBlock_fresh _ x y c t' Ht' H0' Hb') as [Hf [nb [Hid E']]].
      rewrite E'. simpl. rewrite Hid. intros Heq. apply Hf.
      rewrite Heq, Hk. now apply in_map.
Qed.

Lemma C10_allocator_fresh_witness :
  id seed0 = "1" /\ numbered seed0 path123 /\
  exists t, totalBoxes path123 = JS.Fin t /\
    (forall n, In (JS.nat_str n) (keys path123) -> Z.of_N n <= t) /\
    (below_limit path123 -> forall x y c,
       totalBoxes (fst (createNewBlock x y c None path123)) = JS.Fin (t + 1) /\
       id (snd (createNewBlock x y c None path123)) = JS.nat_str (Z.to_N (t + 1)) /\
       ~ In (id (snd (createNewBlock x y c None path123))) (keys path123)) /\
    (forall x y c n, (n < id_limit)%N ->
       exists t', totalBoxes (fst (createNewBlock x y c (Some (JS.nat_str n)) path123))
                    = JS.Fin t' /\
                  t <= t' /\ Z.of_N n <= t') /\
    (forall data, numbered_doc data ->
       exists s' t' bs, upload (Parsed data) path123 = Done s' /\
         totalBoxes s' = JS.Fin t' /\
         Json.prop data "boxes" = Some (JArr bs) /\
         keys s' = map box_id bs /\
         (forall e n, In e bs -> box_id e = JS.nat_str n -> Z.of_N n <= t') /\
         (below_limit s' -> forall e x y c, In e bs ->
            id (snd (createNewBlock x y c None s')) <> box_id e)).
Proof.
  split; [reflexivity|]. split; [apply numbered_path123|].
  apply (C10_allocator_fresh seed0 path123 eq_refl numbered_path123).
Defined.





(** C8.  [newLine] looks its arguments up with
    [document.getElementById], which also finds elements that are no
    boxes.  Importing a document whose only box refers to ["heading"],
    the id of the page heading and of no box, completes and creates
    the line [1_heading]: the reference to an id that names no node is
    stored as a line. *)
Theorem C8_dangling_reference :
  upload (Parsed doc_heading) page0 =
    Done (newLine "1" "heading" (final (restore_boxes
            [JObj [("id", JStr "1"); ("lines", JArr [JStr "heading"])]] cleared))) /\
  keys (final (upload (Parsed doc_heading) page0)) = ["1"] /\
  ~ In "heading" (keys (final (upload (Parsed doc_heading) page0))) /\
  dom_lines (final (upload (Parsed doc_heading) page0)) = ["1_heading"].
Proof.
  split; [reflexivity|]. split; [reflexivity|]. split; [|reflexivity].
  simpl. intros [H|[]]. discriminate.
Qed.

Ltac safe n := exists n; split; reflexivity.
Ltac id_str n := split; [left; eexists; reflexivity | safe n].

Example snapshot_dangling : snapshot doc_dangling.
Proof.
  eexists. split; [reflexivity|]. split; [|split; [|repeat split; now left]].
  - intros e [<-|[<-|[]]]; (split; [|split; [|split; now left]]).
    + exists (JStr "1"). split; [reflexivity | id_str 1%N].
    + eexists. split; [reflexivity|].
      intros x [<-|[<-|[]]]; [id_str 2%N | id_str 9%N].
    + exists (JStr "2"). split; [reflexivity | id_str 2%N].
    + eexists. split; [reflexivity|]. intros x [<-|[]]. id_str 9%N.
  - repeat constructor; simpl; intuition discriminate.
Qed.

Example upload_dangling :
  dom_lines (final (upload (Parsed doc_dangling) page0)) = ["1_2"] /\
  lines_of (final (upload (Parsed doc_dangling) page0)) "1" = ["2"; "9"] /\
  lines_of (final (upload (Parsed doc_dangling) page0)) "2" = ["9"; "1"].
Proof. repeat split. Qed.

(** C9, as stated, fails in one point: [download] writes the neighbour
    list as it is stored, [lines.map(String)], and sorts nothing.  For
    box 1 connected first to box 3 and then to box 2 the exported list
    is ["3", "2"]. *)
Lemma C9_export_sorted_counterexample :
  Json.prop (nth 0 (download_boxes star) JNull) "id" = Some (JStr "1") /\
  Json.prop (nth 0 (download_boxes star) JNull) "lines" =
    Some (JArr [JStr "3"; JStr "2"]) /\
  ascending ["3"; "2"] = false.
Proof. repeat split. Qed.

Lemma numbered_star : numbered seed0 star.
Proof.
  unfold star.
  apply n_newLine; [| in_range | in_range].
  apply n_newLine; [| in_range | in_range].
  apply numbered_three.
Qed.

(** C9, amended.  The exported [boxes] array lists the boxes in the
    order of the Map, and each element holds the id, the position and
    the colour of its box as the element reports them, the trimmed
    text of its first child node when that text is ASCII, and the
    neighbour ids as strings in the order in which they are stored;
    this holds of every store.  In the states reached with decimal
    ids below 2^53 (see [numbered]) the order of the Map is the order
    in which the boxes were created, a new box is exported last, and
    the order of the neighbour ids is the order in which the
    connections were made: a new neighbour is exported last. *)
Theorem C9_export_content (seed : BoxElem) (s : State) :
  (map (fun e => Json.prop e "id") (download_boxes s) =
     map (fun k => Some (JStr k)) (keys s) /\
   forall k e, In (k, e) (boxes s) ->
     exists j, In j (download_boxes s) /\
       Json.prop j "id" = Some (JStr k) /\
       (ascii_text (firstChild (box e)) = true ->
        Json.prop j "content" = Some (JStr (JS.trim (firstChild (box e))))) /\
       Json.opt_prop (Json.prop j "style") "left" = Some (JStr (left (box e))) /\
       Json.opt_prop (Json.prop j "style") "top" = Some (JStr (top (box e))) /\
       Json.opt_prop (Json.prop j "style") "backgroundColor" =
         Some (JStr (backgroundColor (box e))) /\
       Json.prop j "lines" = Some (JArr (map JStr (lines e)))) /\
  (id seed = "1" -> numbered seed s ->
   (below_limit s -> forall x y c, exists j,
      download_boxes (fst (createNewBlock x y c None s)) =
        (download_boxes s ++ [j])%list /\
      Json.prop j "id" = Some (JStr (id (snd (createNewBlock x y c None s))))) /\
   (forall a b, In a (keys s) -> In b (keys s) ->
      ~ In (lineIdOf a b) (dom_lines s) -> ~ In b (lines_of s a) ->
      lines_of (newLine a b s) a = (lines_of s a ++ [b])%list)).
Proof.
  split; [split|].
  - unfold download_boxes, keys, map_keys. rewrite !map_map.
    apply map_ext. now intros [k e].
  - intros k e Hin. exists (export_box (k, e)). split.
    + unfold download_boxes. now apply in_map.
    + simpl. repeat split.
  - intros Hseed R. pose proof (numbered_Inv seed s Hseed R) as I. split.
    + intros _ x y c. destruct (inv_total s I) as [t [Ht [H0 Hb]]].
      destruct (createNewBlock_fresh s x y c t Ht H0 Hb) as [_ [nb [Hid E]]].
      rewrite E. simpl. unfold download_boxes. simpl. rewrite map_app. simpl.
      eexists. split; [reflexivity|]. simpl. now rewrite Hid.
    + intros a b Ka Kb Hl Hn.
      pose proof (inv_keys_num s I a Ka) as Na.
      pose proof (inv_keys_num s I b Kb) as Nb.
      destruct (newLine_cases s a b I Na Nb) as [[_ Hc]|[_ [_ [_ ->]]]];
        [tauto|].
      unfold lines_of in *. simpl. unfold push_line.
      apply mem_false in Hn.
      destruct (string_dec b a) as [->|Hne].
      * rewrite !get_lines_set_same by (now rewrite ?keys_set_lines).
        rewrite Hn.
        assert (mem a (get_lines (boxes s) a ++ [a]) = true) as ->; [|reflexivity].
        apply mem_In, in_or_app. right. now left.
      * rewrite get_lines_set_other by assumption.
        rewrite get_lines_set_same by assumption. now rewrite Hn.
Qed.

Lemma C9_export_content_witness :
  id seed0 = "1" /\ numbered seed0 star /\ below_limit star /\
  In "2" (keys star) /\ In "3" (keys star) /\
  ~ In (lineIdOf "2" "3") (dom_lines star) /\ ~ In "3" (lines_of star "2") /\
  (exists j,
     download_boxes (fst (createNewBlock 0 0 None None star)) =
       (download_boxes star ++ [j])%list /\
     Json.prop j "id" = Some (JStr (id (snd (createNewBlock 0 0 None None star))))) /\
  lines_of (newLine "2" "3" star) "2" = (lines_of star "2" ++ ["3"])%list.
Proof.
  assert (B : below_limit star) by in_range.
  assert (K2 : In "2" (keys star)) by (simpl; auto).
  assert (K3 : In "3" (keys star)) by (simpl; auto).
  assert (L : ~ In (lineIdOf "2" "3") (dom_lines star)).
  { vm_compute. intros [H|[H|[]]]; discriminate. }
  assert (N : ~ In "3" (lines_of star "2")).
  { vm_compute. intros [H|[]]; discriminate. }
  split; [reflexivity|]. split; [apply numbered_star|]. split; [exact B|].
  split; [exact K2|]. split; [exact K3|]. split; [exact L|]. split; [exact N|].
  destruct (C9_export_content seed0 star) as [_ H].
  destruct (H eq_refl numbered_star) as [H1 H2].
  split; [exact (H1 B 0 0 None) | exact (H2 "2" "3" K2 K3 L N)].
Defined.

(** C5, as stated, fails: [upload] validates nothing and clears the
    store before it reads the boxes.  A document whose [boxes] is a
    number ends the import with an exception and an empty store; one
    whose second box is [null] ends it with the first box installed.
    In both cases the three boxes and two lines of the prior state are
    gone. *)
Lemma C5_malformed_import_counterexample :
  upload (Parsed doc_boxes_number) path123 = Thrown cleared /\
  (exists s', upload (Parsed doc_null_box) path123 = Thrown s' /\
              keys s' = ["7"] /\ totalBoxes s' = JS.Fin 7) /\
  keys path123 = ["1"; "2"; "3"] /\ dom_lines path123 = ["1_2"; "2_3"].
Proof.
  split; [reflexivity|]. split; [|split; reflexivity].
  eexists. split; [reflexivity|]. split; reflexivity.
Qed.

(** C5, amended.  A file that is not JSON, or that holds the JSON
    value [null], or whose [heading], [cueText] or [summary] is a
    value without a conversion to a string, ends the import with an
    exception before the store is changed: the store is exactly as it
    was.  Any other document is not validated; the store is cleared
    before the boxes are read, so that what the import leaves behind,
    completed or not, does not depend on the prior state. *)
Theorem C5_import_failure (s : State) :
  upload NotJson s = Thrown s /\
  upload (Parsed JNull) s = Thrown s /\
  (forall data,
     page_text_ok (Json.prop data "heading") = false \/
     page_text_ok (Json.prop data "cueText") = false \/
     page_text_ok (Json.prop data "summary") = false ->
     upload (Parsed data) s = Thrown s) /\
  (forall data s0, data <> JNull ->
     page_text_ok (Json.prop data "heading") = true ->
     page_text_ok (Json.prop data "cueText") = true ->
     page_text_ok (Json.prop data "summary") = true ->
     upload (Parsed data) s = upload (Parsed data) s0) /\
  (forall data, data <> JNull ->
     page_text_ok (Json.prop data "heading") = true ->
     page_text_ok (Json.prop data "cueText") = true ->
     page_text_ok (Json.prop data "summary") = true ->
     Json.prop data "boxes" = None ->
     upload (Parsed data) s = Done cleared).
Proof.
  split; [reflexivity|]. split; [reflexivity|]. split; [|split].
  - intros data H. destruct data; try reflexivity; unfold upload;
      destruct H as [-> | [-> | ->]];
      rewrite ?andb_false_r; reflexivity.
  - intros data s0 Hn T1 T2 T3. destruct data; try congruence;
      unfold upload; rewrite T1, T2, T3; reflexivity.
  - intros data Hn T1 T2 T3 Hp. destruct data; try congruence; unfold upload;
      rewrite T1, T2, T3, Hp; reflexivity.
Qed.

(* ================================================================== *)
(** ** Export followed by import *)
(* ================================================================== *)

Lemma append_empty s : s ++ "" = s.
Proof. induction s; simpl; congruence. Qed.

Lemma take_digits_px d :
  all_digits d = true -> JS.take_digits (d ++ "px") = d.
Proof.
  induction d as [|c r IH]; simpl; [reflexivity|].
  intros H. apply andb_true_iff in H. destruct H as [Hc Hr].
  now rewrite Hc, (IH Hr).
Qed.

Lemma parseInt_digits_px n :
  JS.signed (JS.nat_str n ++ "px") (fun r => JS.nonempty_digits (JS.take_digits r))
  = Some (Z.of_N n) /\ JS.skip_ws (JS.nat_str n ++ "px") = JS.nat_str n ++ "px".
Proof.
  pose proof (nat_str_digits n) as Hd. pose proof (nat_str_nonempty n) as Hne.
  pose proof (take_digits_px _ Hd) as Ht.
  assert (Hv : JS.nonempty_digits (JS.nat_str n) = Some (Z.of_N n)).
  { unfold JS.nonempty_digits, JS.digits_value.
    destruct (JS.nat_str n) eqn:E; [congruence|].
    rewrite <- E, nat_str_unfold, NilEmpty.usu, Unsigned.of_to. reflexivity. }
  destruct (JS.nat_str n) as [|c r] eqn:E; [congruence|].
  simpl in Hd. apply andb_true_iff in Hd. destruct Hd as [Hc _].
  split.
  - change (String c r ++ "px") with (String c (r ++ "px")).
    rewrite (signed_digit c _ _ Hc).
    change (String c (r ++ "px")) with (String c r ++ "px"). now rewrite Ht.
  - simpl. now rewrite (digit_not_ws _ Hc).
Qed.

(** A whole-pixel length is read back as the number it was written
    from. *)
Lemma parseInt_whole_px z :
  JS.parseInt (coord_str (whole z) ++ "px") = JS.Fin z.
Proof.
  unfold coord_str, whole.
  assert (Ho : Z.odd (2 * z) = false).
  { rewrite Z.odd_mul. reflexivity. }
  rewrite Ho, append_empty.
  assert (Ha : Z.abs (2 * z) / 2 = Z.abs z).
  { rewrite Z.abs_mul. simpl Z.abs. rewrite Z.mul_comm. apply Z.div_mul. lia. }
  rewrite Ha. unfold JS.parseInt.
  destruct (parseInt_digits_px (Z.to_N (Z.abs z))) as [Hs Hw].
  destruct (Z.ltb_spec (2 * z) 0).
  - change (("-" ++ JS.nat_str (Z.to_N (Z.abs z))) ++ "px")
      with (String "-" (JS.nat_str (Z.to_N (Z.abs z)) ++ "px")).
    simpl JS.skip_ws. unfold JS.signed at 1.
    assert (JS.nonempty_digits (JS.take_digits (JS.nat_str (Z.to_N (Z.abs z)) ++ "px"))
            = Some (Z.abs z)) as ->.
    { pose proof (nat_str_digits (Z.to_N (Z.abs z))) as Hd.
      pose proof (nat_str_nonempty (Z.to_N (Z.abs z))) as Hne.
      rewrite (take_digits_px _ Hd).
      unfold JS.nonempty_digits, JS.digits_value.
      destruct (JS.nat_str (Z.to_N (Z.abs z))) eqn:E; [congruence|].
      rewrite <- E, nat_str_unfold, NilEmpty.usu, Unsigned.of_to.
      rewrite Z2N.id by lia. reflexivity. }
    simpl. f_equal. lia.
  - simpl append. rewrite Hw, Hs. f_equal. rewrite Z2N.id; lia.
Qed.

Lemma restored_export k e :
  id (box e) = k -> plain_box (box e) ->
  restored (export_box (k, e)) k = box e.
Proof.
  intros Hid [[zl [_ Hl]] [[zt [_ Ht]] [Hbg [t [Hc [_ [Htrim Hne]]]]]]].
  assert (Hf : firstChild (box e) = t) by (unfold firstChild; now rewrite Hc).
  assert (Hcol : backgroundColor (box e) <> "").
  { intros E. rewrite E in Hbg. discriminate. }
  unfold restored. simpl Json.prop. simpl Json.opt_prop. simpl content_text.
  simpl Json.String. simpl Json.truthy.
  rewrite Hf, Htrim, Hl, Ht, !parseInt_whole_px. simpl JS.or_zero.
  destruct (String.eqb_spec t ""); [contradiction|].
  destruct (String.eqb_spec (backgroundColor (box e)) ""); [contradiction|].
  simpl negb. cbv iota. unfold set_backgroundColor. rewrite Hbg. simpl.
  rewrite <- Hl, <- Ht. rewrite Hid in Hc.
  change [t; String "#" k] with [t; ("#" ++ k)%string].
  rewrite <- Hc, <- Hid. now destruct (box e).
Qed.

Lemma restored_lines_export k e :
  NoDup (lines e) -> restored_lines (export_box (k, e)) = lines e.
Proof.
  intros H. unfold restored_lines.
  change (Json.prop (export_box (k, e)) "lines") with (Some (JArr (map JStr (lines e)))).
  cbv iota. rewrite map_map.
  change (fun x : string => Json.str (JStr x)) with (fun x : string => x).
  rewrite map_id. now apply dedupe_id.
Qed.

Lemma get_lines_entry m k e :
  NoDup (map_keys m) -> In (k, e) m -> get_lines m k = lines e.
Proof.
  unfold get_lines. induction m as [|[k' e'] r IH]; simpl; [tauto|].
  intros Hnd Hin. inversion Hnd as [|? ? Hk Hr]; subst.
  destruct Hin as [E|Hin].
  - injection E; intros <- <-. now rewrite String.eqb_refl.
  - destruct (String.eqb_spec k k') as [->|Hne]; [|now apply IH].
    exfalso. apply Hk. apply in_map_iff. exists (k', e). auto.
Qed.

Lemma push_line_present k x m :
  In x (get_lines m k) -> push_line k x m = m.
Proof.
  intros H. unfold push_line. apply set_lines_id.
  apply mem_In in H. now rewrite H.
Qed.

(** The second pass of an import changes no neighbour list when every
    call names a reference that is stored already and references are
    mutual. *)
Lemma connect_all_boxes calls : forall u,
  InvP calls u ->
  (forall p, In p calls ->
     numeral (fst p) /\ numeral (snd p) /\ In (snd p) (lines_of u (fst p))) ->
  mutual u ->
  boxes (connect_all calls u) = boxes u.
Proof.
  induction calls as [|[a b] r IH]; intros u I Hc Hm; [reflexivity|].
  destruct (Hc (a, b) (or_introl eq_refl)) as [Na [Nb Hab]]. simpl in Na, Nb, Hab.
  assert (Hb : boxes (newLine a b u) = boxes u).
  { destruct (newLine_cases u a b I Na Nb) as [[-> _]|[Ka [Kb [_ ->]]]];
      [reflexivity|].
    simpl. rewrite (push_line_present a b) by assumption.
    apply push_line_present. now apply Hm. }
  unfold connect_all in *. simpl. rewrite IH.
  - assumption.
  - now apply InvP_newLine.
  - intros p Hp. destruct (Hc p (or_intror Hp)) as [H1 [H2 H3]].
    repeat split; try assumption. unfold lines_of. now rewrite Hb.
  - unfold mutual, keys, lines_of. rewrite Hb. exact Hm.
Qed.

Lemma export_box_wf s k e :
  Inv s -> In (k, e) (boxes s) -> wf_box (export_box (k, e)).
Proof.
  intros I Hin.
  assert (Kk : In k (keys s)).
  { unfold keys, map_keys. apply in_map_iff. exists (k, e). auto. }
  pose proof (get_lines_entry _ _ _ (inv_keys_nodup s I) Hin) as Hl.
  split; [|split; [|repeat split]].
  - exists (JStr k). split; [reflexivity|]. split; [reflexivity|].
    now apply (inv_keys_num s I).
  - exists (map JStr (lines e)). split; [reflexivity|].
    intros x Hx. apply in_map_iff in Hx. destruct Hx as [y [<- Hy]].
    split; [reflexivity|]. simpl.
    apply (inv_refs_num s I k). unfold lines_of. now rewrite Hl.
Qed.

Lemma export_ids s : map box_id (download_boxes s) = keys s.
Proof.
  unfold download_boxes, keys, map_keys. rewrite map_map.
  apply map_ext. now intros [k e].
Qed.

Lemma download_wf s : Inv s -> wf_doc (download s).
Proof.
  intros I. exists (download_boxes s). split; [reflexivity|].
  split; [|split; [|repeat split]].
  - intros j Hj. unfold download_boxes in Hj. apply in_map_iff in Hj.
    destruct Hj as [[k e] [<- Hin]]. now apply (export_box_wf s).
  - rewrite export_ids. apply (inv_keys_nodup s I).
Qed.

Lemma link_calls_export s p :
  Inv s -> In p (link_calls (download_boxes s)) ->
  In (snd p) (lines_of s (fst p)).
Proof.
  intros I Hp. unfold link_calls, download_boxes in Hp.
  apply in_flat_map in Hp. destruct Hp as [j [Hj Hp]].
  apply in_map_iff in Hj. destruct Hj as [[k e] [<- Hin]].
  change (Json.prop (export_box (k, e)) "lines")
    with (Some (JArr (map JStr (lines e)))) in Hp.
  cbv iota in Hp. rewrite map_map in Hp. apply in_map_iff in Hp.
  destruct Hp as [x [<- Hx]].
  change (In x (get_lines (boxes s) k)).
  now rewrite (get_lines_entry _ _ _ (inv_keys_nodup s I) Hin).
Qed.

(** Export followed by import, for a well-formed store with mutual
    references and plain boxes. *)
Lemma round_trip s s0 :
  Inv s -> mutual s -> (forall b, In b (dom_boxes s) -> plain_box b) ->
  exists s', upload (Parsed (download s)) s0 = Done s' /\ Inv s' /\
    boxes s' = boxes s /\ dom_boxes s' = dom_boxes s /\
    Permutation (dom_lines s') (dom_lines s).
Proof.
  intros I Hm Hp.
  destruct (upload_wf (download s) s0 (download_wf s I))
    as [bs [s1 [Hb [Hwf [_ [_ [Hb1 [_ [_ [I1 [E I']]]]]]]]]]].
  simpl in Hb. injection Hb; intros <-.
  assert (Hs1 : boxes s1 = boxes s).
  { rewrite Hb1. unfold download_boxes. rewrite map_map.
    rewrite <- (map_id (boxes s)) at 2. apply map_ext_in.
    intros [k e] Hin. unfold restored_entry.
    change (box_id (export_box (k, e))) with k.
    assert (Hid : id (box e) = k).
    { apply (inv_entry_id s I). unfold shape. apply in_map_iff.
      exists (k, e). auto. }
    rewrite restored_export, restored_lines_export.
    - now destruct e.
    - rewrite <- (get_lines_entry _ _ _ (inv_keys_nodup s I) Hin).
      apply (inv_refs_nodup s I).
    - assumption.
    - apply Hp. rewrite (inv_dom s I). unfold shape. rewrite map_map.
      apply in_map_iff. exists (k, e). auto. }
  assert (Hs' : boxes (connect_all (link_calls (download_boxes s)) s1) = boxes s).
  { rewrite connect_all_boxes; try assumption.
    - intros p Hin.
      destruct (link_calls_numeral _ Hwf p Hin) as [N1 N2].
      repeat split; try assumption.
      unfold lines_of. rewrite Hs1. now apply (link_calls_export s).
    - unfold mutual, keys, lines_of. rewrite Hs1. exact Hm. }
  eexists. split; [exact E|]. split; [assumption|]. split; [assumption|]. split.
  - rewrite (inv_dom _ I'), (inv_dom s I). now rewrite Hs'.
  - apply NoDup_Permutation;
      [apply (inv_lines_nodup _ I') | apply (inv_lines_nodup s I) |].
    intros l. split; intros Hl.
    + destruct (inv_lines_sound _ I' l Hl) as [a [b [Ka [Kb [-> [H1 H2]]]]]].
      unfold keys, lines_of in *. rewrite Hs' in *.
      now apply (Inv_complete s).
    + destruct (inv_lines_sound _ I l Hl) as [a [b [Ka [Kb [-> [H1 H2]]]]]].
      apply (Inv_complete _ a b I'); unfold keys, lines_of; rewrite Hs';
        assumption.
Qed.

(** C1, as stated, fails: [upload] reads a position with [parseInt],
    which drops the half pixel that [addBlock] gives the centre of a
    box of odd width.  The box added next to a seed box 101 pixels
    wide is at [50.5px]; after export and import it is at [50px]. *)
Lemma C1_round_trip_counterexample :
  map left (dom_boxes offcentre) = ["0px"; "50.5px"] /\
  exists s', upload (Parsed (download offcentre)) offcentre = Done s' /\
             keys s' = keys offcentre /\
             map left (dom_boxes s') = ["0px"; "50px"].
Proof.
  split; [reflexivity|]. eexists. split; [reflexivity|]. split; reflexivity.
Qed.

(** C1, amended.  For every graph reached with decimal ids below
    2^53 (see [bounded]) whose boxes lie on whole pixels within
    [pos_limit], have a background colour in the form the page
    reports and a text node with a non-empty ASCII text without
    surrounding white space, followed by the footer, and whose
    neighbour references are mutual, export followed by import
    restores the graph: the same Map of boxes, in the same order,
    with the same content, position, colour and neighbour lists, the
    same box elements, and the same lines up to their order. *)
Theorem C1_round_trip (seed : BoxElem) (s s0 : State) :
  id seed = "1" -> bounded seed s -> mutual s ->
  (forall b, In b (dom_boxes s) -> plain_box b) ->
  exists s', upload (Parsed (download s)) s0 = Done s' /\
    boxes s' = boxes s /\ dom_boxes s' = dom_boxes s /\
    Permutation (dom_lines s') (dom_lines s) /\
    (forall a b, isConnected s' a b = isConnected s a b).
Proof.
  intros Hseed R Hm Hp. pose proof (bounded_Inv seed s Hseed R) as I.
  destruct (round_trip s s0 I Hm Hp) as [s' [E [_ [Hb [Hd Hl]]]]].
  exists s'. repeat split; try assumption.
  intros a b. unfold isConnected, lines_of. now rewrite Hb.
Qed.

Lemma bounded_path123 : bounded seed0 path123.
Proof.
  unfold path123.
  apply b_newLine; [| in_range | in_range].
  apply b_newLine; [| in_range | in_range].
  unfold three. apply b_create; [apply b_create; [apply b_init | ..] | ..];
    in_range.
Qed.

Lemma mutual_path123 : mutual path123.
Proof.
  intros a b Ha Hb. simpl in Ha, Hb.
  destruct Ha as [<-|[<-|[<-|[]]]]; destruct Hb as [<-|[<-|[<-|[]]]];
    simpl; intuition discriminate.
Qed.

Lemma plain_path123 b : In b (dom_boxes path123) -> plain_box b.
Proof.
  simpl. intros [<-|[<-|[<-|[]]]]; unfold plain_box; simpl.
  - split; [now exists 0 | split; [now exists 0|]].
    split; [reflexivity|]. eexists. repeat split; discriminate.
  - split; [now exists 50 | split; [now exists 20|]].
    split; [reflexivity|]. eexists. repeat split; discriminate.
  - split; [now exists 100 | split; [now exists 20|]].
    split; [reflexivity|]. eexists. repeat split; discriminate.
Qed.

Lemma C1_round_trip_witness :
  id seed0 = "1" /\ bounded seed0 path123 /\ mutual path123 /\
  (forall b, In b (dom_boxes path123) -> plain_box b) /\
  exists s', upload (Parsed (download path123)) page0 = Done s' /\
    boxes s' = boxes path123 /\ dom_boxes s' = dom_boxes path123 /\
    Permutation (dom_lines s') (dom_lines path123) /\
    (forall a b, isConnected s' a b = isConnected path123 a b).
Proof.
  split; [reflexivity|]. split; [apply bounded_path123|].
  split; [apply mutual_path123|]. split; [apply plain_path123|].
  apply (C1_round_trip seed0 path123 page0 eq_refl bounded_path123
           mutual_path123 plain_path123).
Defined.

(* ================================================================== *)
(** * Further properties of the script *)
(* ================================================================== *)

(** ** Connecting and disconnecting *)

(** Two Maps with the same keys and boxes and the same neighbour
    lists are the same Map. *)
Lemma map_ext_lines m1 : forall m2,
  shape m1 = shape m2 -> NoDup (map_keys m1) ->
  (forall k, In k (map_keys m1) -> get_lines m1 k = get_lines m2 k) ->
  m1 = m2.
Proof.
  induction m1 as [|[k e] r IH]; intros [|[k' e'] r'] Hs Hnd Hl;
    try discriminate; [reflexivity|].
  simpl in Hs. injection Hs; intros Hr Hb Hk. subst k'.
  inversion Hnd as [|? ? Hnk Hnr]; subst.
  assert (He : e = e').
  { pose proof (Hl k (or_introl eq_refl)) as H. unfold get_lines in H.
    simpl in H. rewrite String.eqb_refl in H.
    destruct e, e'. simpl in *. congruence. }
  subst e'. f_equal. apply IH; try assumption.
  intros c Hc. pose proof (Hl c (or_intror Hc)) as H.
  unfold get_lines in *. simpl in H.
  destruct (String.eqb_spec c k) as [->|]; [contradiction | assumption].
Qed.

Lemma get_lines_push k x m c :
  In k (map_keys m) ->
  get_lines (push_line k x m) c =
  if String.eqb k c
  then (if mem x (get_lines m c) then get_lines m c
        else (get_lines m c ++ [x])%list)
  else get_lines m c.
Proof.
  intros Hk. unfold push_line. destruct (String.eqb_spec k c) as [<-|Hne].
  - now rewrite get_lines_set_same.
  - now rewrite get_lines_set_other.
Qed.

Lemma filter_app_last x l :
  ~ In x l ->
  filter (fun i => negb (String.eqb i x)) (l ++ [x]) = l.
Proof.
  intros H. rewrite filter_app. simpl. rewrite String.eqb_refl. simpl.
  rewrite List.app_nil_r. now apply filter_absent.
Qed.

Lemma remove_first_app_last x l : ~ In x l -> remove_first x (l ++ [x]) = l.
Proof.
  induction l as [|y r IH]; simpl; intros H.
  - now rewrite String.eqb_refl.
  - destruct (String.eqb_spec x y) as [->|Hne]; [tauto|].
    rewrite IH; [reflexivity | tauto].
Qed.

Lemma State_eta s :
  mkState (boxes s) (totalBoxes s) (dom_boxes s) (dom_lines s) = s.
Proof. now destruct s. Qed.

(** The neighbour lists after a line between [a] and [b] is created
    and deleted again. *)
Lemma connect_disconnect_lines m a b p q c :
  In a (map_keys m) -> In b (map_keys m) ->
  ~ In b (get_lines m a) -> ~ In a (get_lines m b) ->
  (p = a /\ q = b) \/ (p = b /\ q = a) ->
  get_lines (set_lines q (drop_id (Some p))
               (set_lines p (drop_id (Some q))
                  (push_line b a (push_line a b m)))) c = get_lines m c.
Proof.
  intros Ka Kb Hab Hba Hpq.
  assert (Kb' : In b (map_keys (push_line a b m))) by now rewrite keys_push_line.
  assert (Hpush : forall k,
            get_lines (push_line b a (push_line a b m)) k =
            if String.eqb a k
            then (get_lines m k ++ [b])%list
            else if String.eqb b k then (get_lines m k ++ [a])%list
                 else get_lines m k).
  { intros k. rewrite (get_lines_push b a _ k Kb'), !(get_lines_push a b m _ Ka).
    pose proof Hab as Hab'. pose proof Hba as Hba'.
    apply mem_false in Hab'. apply mem_false in Hba'.
    destruct (String.eqb_spec b k) as [E1|Hbk];
      destruct (String.eqb_spec a k) as [E2|Hak].
    - subst k. subst b. rewrite Hab'.
      assert (mem a (get_lines m a ++ [a]) = true) as ->; [|reflexivity].
      apply mem_In, in_or_app. right. now left.
    - subst k. now rewrite Hba'.
    - subst k. now rewrite Hab'.
    - reflexivity. }
  rewrite !get_lines_set by reflexivity. rewrite Hpush.
  destruct Hpq as [[-> ->]|[-> ->]];
    destruct (String.eqb_spec a c) as [E1|Hac];
    destruct (String.eqb_spec b c) as [E2|Hbc]; simpl;
    try reflexivity; try subst c; try subst b;
    rewrite ?filter_twice; now apply filter_app_last.
Qed.

(** In a well-formed store, connecting two boxes that do not list
    each other and deleting the new line gives the state back. *)
Lemma connect_disconnect_Inv s a b :
  Inv s -> In a (keys s) -> In b (keys s) ->
  ~ In b (lines_of s a) -> ~ In a (lines_of s b) ->
  ~ In (lineIdOf a b) (dom_lines s) /\
  deleteLine (lineIdOf a b) (newLine a b s) = s.
Proof.
  intros I Ka Kb Hab Hba.
  pose proof (inv_keys_num s I a Ka) as Na.
  pose proof (inv_keys_num s I b Kb) as Nb.
  assert (Hl : ~ In (lineIdOf a b) (dom_lines s)).
  { intros Hl. destruct (inv_lines_sound s I _ Hl) as [a' [b' [Ka' [Kb' [E [H1 H2]]]]]].
    apply lineIdOf_inj in E; try assumption;
      try (now apply (inv_keys_num s I)).
    destruct E as [[-> ->]|[-> ->]]; contradiction. }
  split; [assumption|].
  destruct (newLine_cases s a b I Na Nb) as [[_ Hc]|[_ [_ [_ ->]]]]; [tauto|].
  assert (Hsp : exists p q, JS.split2 (lineIdOf a b) = (p, Some q) /\
                  ((p = a /\ q = b) \/ (p = b /\ q = a))).
  { destruct (lineIdOf_split a b Na Nb) as [E|E]; eauto 10. }
  destruct Hsp as [p [q [Es Hpq]]].
  rewrite (deleteLine_split _ p q _ Es). simpl.
  rewrite (remove_first_app_last _ _ Hl).
  rewrite <- (State_eta s) at 5. f_equal.
  apply map_ext_lines.
  - unfold push_line. now rewrite !shape_set_lines.
  - unfold push_line. rewrite !keys_set_lines. apply (inv_keys_nodup s I).
  - intros c _. now apply connect_disconnect_lines.
Qed.

(** The order of the two arguments of [newLine] does not matter. *)
Lemma newLine_sym s a b :
  Inv s -> In a (keys s) -> In b (keys s) -> newLine a b s = newLine b a s.
Proof.
  intros I Ka Kb.
  destruct (string_dec a b) as [->|Hne]; [reflexivity|].
  pose proof (inv_keys_num s I a Ka) as Na.
  pose proof (inv_keys_num s I b Kb) as Nb.
  destruct (newLine_cases s a b I Na Nb) as [[E1 Hc]|[_ [_ [Hl E1]]]];
    destruct (newLine_cases s b a I Nb Na) as [[E2 Hc']|[_ [_ [Hl' E2]]]];
    rewrite ?(lineIdOf_sym b a Nb Na) in *; try congruence; try tauto.
  rewrite E1, E2. f_equal. apply map_ext_lines.
  - unfold push_line. now rewrite !shape_set_lines.
  - unfold push_line. rewrite !keys_set_lines. apply (inv_keys_nodup s I).
  - intros c _.
    assert (Ka' : In a (map_keys (push_line b a (boxes s))))
      by now rewrite keys_push_line.
    assert (Kb' : In b (map_keys (push_line a b (boxes s))))
      by now rewrite keys_push_line.
    rewrite (get_lines_push _ _ _ c Kb'), (get_lines_push _ _ _ c Ka).
    rewrite (get_lines_push _ _ _ c Ka'), (get_lines_push _ _ _ c Kb).
    destruct (String.eqb_spec a c) as [E3|H1];
      destruct (String.eqb_spec b c) as [E4|H2];
      try reflexivity. congruence.
Qed.

(** X1. In a state reached with decimal ids below 2^53 (see
    [numbered]), connecting two boxes that do not list each other and
    deleting the new line gives the state back, and so does clicking
    the same item of the connect menu twice. *)
Theorem X1_connect_then_disconnect (seed : BoxElem) (s : State) (a b : string) :
  id seed = "1" -> numbered seed s -> In a (keys s) -> In b (keys s) ->
  ~ In b (lines_of s a) -> ~ In a (lines_of s b) ->
  deleteLine (lineIdOf a b) (newLine a b s) = s /\
  menuClick a b (menuClick a b s) = s.
Proof.
  intros Hseed R Ka Kb Hab Hba. pose proof (numbered_Inv seed s Hseed R) as I.
  destruct (connect_disconnect_Inv s a b I Ka Kb Hab Hba) as [Hl E].
  split; [assumption|].
  destruct (inv_keys_num s I a Ka) as [n Hn].
  destruct (inv_keys_num s I b Kb) as [m Hm]. subst a b.
  assert (Hlo : JS.num_str (num_min (JS.Number (JS.nat_str n)) (JS.Number (JS.nat_str m)))
                = JS.nat_str (N.min n m)).
  { rewrite !Number_nat_str. simpl. rewrite <- int_str_of_N. f_equal. lia. }
  assert (Hhi : JS.num_str (JS.max (JS.Number (JS.nat_str n)) (JS.Number (JS.nat_str m)))
                = JS.nat_str (N.max n m)).
  { rewrite !Number_nat_str. simpl. rewrite <- int_str_of_N. f_equal. lia. }
  assert (Hnl : newLine (JS.nat_str (N.min n m)) (JS.nat_str (N.max n m)) s =
                newLine (JS.nat_str n) (JS.nat_str m) s).
  { destruct (N.le_ge_cases n m) as [H|H].
    - now rewrite N.min_l, N.max_r by assumption.
    - rewrite N.min_r, N.max_l by assumption. now apply newLine_sym. }
  unfold menuClick at 2. unfold isConnected.
  assert (mem (JS.nat_str m) (lines_of s (JS.nat_str n)) = false) as ->
    by now apply mem_false.
  rewrite Hlo, Hhi, Hnl.
  destruct (newLine_connects s _ _ I Ka Kb) as [Hl1 [H1 _]].
  unfold menuClick, isConnected.
  apply mem_In in H1. rewrite H1. unfold disconnect. rewrite menu_key.
  pose proof (Inv_newLine s _ _ I (ex_intro _ n eq_refl) (ex_intro _ m eq_refl)) as I1.
  rewrite (hasElement_line _ _ _ I1) by now eexists.
  apply mem_In in Hl1. now rewrite Hl1.
Qed.

Lemma X1_connect_then_disconnect_witness :
  id seed0 = "1" /\ numbered seed0 path123 /\
  In "1" (keys path123) /\ In "3" (keys path123) /\
  ~ In "3" (lines_of path123 "1") /\ ~ In "1" (lines_of path123 "3") /\
  deleteLine (lineIdOf "1" "3") (newLine "1" "3" path123) = path123 /\
  menuClick "1" "3" (menuClick "1" "3" path123) = path123.
Proof.
  assert (K1 : In "1" (keys path123)) by (simpl; auto).
  assert (K3 : In "3" (keys path123)) by (simpl; auto).
  assert (H1 : ~ In "3" (lines_of path123 "1")).
  { simpl. intros [H|[]]; discriminate. }
  assert (H3 : ~ In "1" (lines_of path123 "3")).
  { simpl. intros [H|[]]; discriminate. }
  split; [reflexivity|]. split; [apply numbered_path123|].
  split; [exact K1|]. split; [exact K3|]. split; [exact H1|]. split; [exact H3|].
  apply (X1_connect_then_disconnect seed0 path123 "1" "3" eq_refl
           numbered_path123 K1 K3 H1 H3).
Defined.

(** ** Adding and deleting a box *)

Lemma newLine_fresh_pair s a b :
  Inv s -> In a (keys s) -> In b (keys s) ->
  ~ In b (lines_of s a) -> ~ In a (lines_of s b) ->
  newLine a b s =
  mkState (push_line b a (push_line a b (boxes s))) (totalBoxes s)
          (dom_boxes s) (dom_lines s ++ [lineIdOf a b]).
Proof.
  intros I Ka Kb Hab Hba.
  destruct (connect_disconnect_Inv s a b I Ka Kb Hab Hba) as [Hl _].
  destruct (newLine_cases s a b I (inv_keys_num s I a Ka) (inv_keys_num s I b Kb))
    as [[_ Hc]|[_ [_ [_ E]]]]; [tauto | assumption].
Qed.

(** What [addBlock] does in a well-formed store whose counter is [t]:
    the intermediate state after [createNewBlock], and the result. *)
Lemma addBlock_unfold s k r t :
  Inv s -> In k (keys s) -> totalBoxes s = JS.Fin t ->
  let n := JS.nat_str (Z.to_N (t + 1)) in
  exists nb s1,
    createNewBlock (fst (getBoxCoords r)) (snd (getBoxCoords r)) None None s = (s1, nb) /\
    nb = mkBox n ["New Box"; ("#" ++ n)%string]
               (coord_str (fst (getBoxCoords r)) ++ "px")
               (coord_str (snd (getBoxCoords r)) ++ "px") default_colour /\
    s1 = mkState (boxes s ++ [(n, mkEntry nb [])]) (JS.Fin (t + 1))
                 (dom_boxes s ++ [nb]) (dom_lines s) /\
    Inv s1 /\ ~ In n (keys s) /\ k <> n /\
    addBlock k r s = newLine k n s1 /\
    addBlock k r s =
      mkState (push_line n k (push_line k n (boxes s1))) (JS.Fin (t + 1))
              (dom_boxes s ++ [nb]) (dom_lines s ++ [k ++ "_" ++ n]).
Proof.
  intros I Kk Ht n.
  destruct (inv_total s I) as [t' [Ht' [H0 Hb]]].
  assert (t' = t) by congruence. subst t'.
  destruct (createNewBlock_fresh s (fst (getBoxCoords r)) (snd (getBoxCoords r))
              None t Ht H0 Hb) as [Hf [nb [Hid E]]].
  fold n in Hf, Hid, E.
  pose proof (Inv_create s (fst (getBoxCoords r)) (snd (getBoxCoords r)) None I) as I1.
  rewrite E in I1. simpl fst in I1.
  assert (Hnb : nb = mkBox n ["New Box"; ("#" ++ n)%string]
                        (coord_str (fst (getBoxCoords r)) ++ "px")
                        (coord_str (snd (getBoxCoords r)) ++ "px") default_colour).
  { pose proof (f_equal snd E) as E2. simpl snd in E2. rewrite <- E2.
    unfold createNewBlock. simpl requested. cbv beta iota zeta. simpl snd.
    rewrite Ht. simpl JS.incr.
    replace (JS.num_str (JS.Fin (t + 1))) with n; [reflexivity|].
    unfold n. simpl. rewrite <- int_str_of_N. now rewrite Z2N.id by lia. }
  assert (Hkn : k <> n) by (intros ->; contradiction).
  eexists nb, _. split; [exact E|]. split; [exact Hnb|]. split; [reflexivity|].
  split; [assumption|]. split; [assumption|]. split; [assumption|].
  assert (Ea : addBlock k r s = newLine k n
            (mkState (boxes s ++ [(n, mkEntry nb [])]) (JS.Fin (t + 1))
               (dom_boxes s ++ [nb]) (dom_lines s))).
  { unfold addBlock. destruct (getBoxCoords r) as [x1 y1]. simpl fst in *. simpl snd in *.
    rewrite E. now rewrite Hid. }
  split; [exact Ea|]. rewrite Ea.
  set (s1 := mkState _ _ _ _) in *.
  assert (Kk1 : In k (keys s1)).
  { unfold s1, keys, map_keys. simpl. rewrite map_app. apply in_or_app. now left. }
  assert (Kn1 : In n (keys s1)).
  { unfold s1, keys, map_keys. simpl. rewrite map_app. apply in_or_app.
    right. now left. }
  assert (Hln : lines_of s1 n = []).
  { unfold lines_of, s1. simpl. now rewrite get_lines_app_new. }
  assert (Hlk : lines_of s1 k = lines_of s k).
  { unfold lines_of, s1. simpl. apply get_lines_app_other. congruence. }
  assert (Hl : ~ In (lineIdOf k n) (dom_lines s1)).
  { intros Hl. destruct (inv_lines_sound s1 I1 _ Hl) as [a' [b' [Ka' [Kb' [E' [H1 H2]]]]]].
    apply lineIdOf_inj in E'; try (now apply (inv_keys_num s1 I1)).
    destruct E' as [[-> ->]|[-> ->]]; rewrite Hln in *; contradiction. }
  destruct (newLine_cases s1 k n I1 (inv_keys_num s1 I1 k Kk1) (inv_keys_num s1 I1 n Kn1))
    as [[_ Hc]|[_ [_ [_ ->]]]]; [tauto|].
  f_equal. simpl. f_equal. f_equal.
  destruct (inv_keys_num s I k Kk) as [i ->]. unfold n.
  rewrite lineIdOf_nat.
  assert (Hi : Z.of_N i <= t) by now apply Hb.
  destruct (N.ltb_spec (Z.to_N (t + 1)) i); [lia | reflexivity].
Qed.

(** X2. In a state reached with ids below 2^53 whose counter leaves
    room for one more, [addBlock] on a box [k] whose centre lies
    within [pos_limit] allocates the next id [n], appends one box
    element with the text [New Box], the footer [#n] and the default
    colour, placed at the centre of the layout box of [k], and one
    line [k_n]; the new box lists [k], [k] lists the new box, and no
    other neighbour list changes. *)
Theorem X2_addBlock_adds_one (seed : BoxElem) (s : State) (k : string) (r : Rect) :
  id seed = "1" -> numbered seed s -> In k (keys s) -> below_limit s ->
  within (fst (getBoxCoords r)) -> within (snd (getBoxCoords r)) ->
  exists t, totalBoxes s = JS.Fin t /\
    let n := JS.nat_str (Z.to_N (t + 1)) in
    ~ In n (keys s) /\
    keys (addBlock k r s) = (keys s ++ [n])%list /\
    dom_boxes (addBlock k r s) =
      (dom_boxes s ++
       [mkBox n ["New Box"; ("#" ++ n)%string]
              (coord_str (whole (offsetLeft r) + offsetWidth r) ++ "px")
              (coord_str (whole (offsetTop r) + offsetHeight r) ++ "px")
              "rgb(241, 241, 241)"])%list /\
    dom_lines (addBlock k r s) = (dom_lines s ++ [(k ++ "_" ++ n)%string])%list /\
    totalBoxes (addBlock k r s) = JS.Fin (t + 1) /\
    lines_of (addBlock k r s) n = [k] /\
    In n (lines_of (addBlock k r s) k) /\
    (~ In n (lines_of s k) ->
     lines_of (addBlock k r s) k = (lines_of s k ++ [n])%list) /\
    (forall c, c <> k -> c <> n -> lines_of (addBlock k r s) c = lines_of s c).
Proof.
  intros Hseed R Kk _ _ _. pose proof (numbered_Inv seed s Hseed R) as I.
  destruct (inv_total s I) as [t [Ht _]]. exists t. split; [assumption|].
  cbv zeta.
  destruct (addBlock_unfold s k r t I Kk Ht) as
    [nb [s1 [_ [Hnb [Hs1 [I1 [Hf [Hkn [_ E]]]]]]]]].
  set (n := JS.nat_str (Z.to_N (t + 1))) in *.
  assert (Kk1 : In k (map_keys (boxes s1))).
  { rewrite Hs1. unfold map_keys. simpl. rewrite map_app. apply in_or_app. now left. }
  assert (Kn1 : In n (map_keys (push_line k n (boxes s1)))).
  { rewrite keys_push_line, Hs1. unfold map_keys. simpl. rewrite map_app.
    apply in_or_app. right. now left. }
  assert (Hl : forall c, lines_of (addBlock k r s) c =
            if String.eqb n c then [k]
            else if String.eqb k c
                 then (if mem n (lines_of s c) then lines_of s c
                       else (lines_of s c ++ [n])%list)
                 else lines_of s c).
  { intros c. rewrite E. unfold lines_of. simpl boxes.
    rewrite (get_lines_push _ _ _ c Kn1), (get_lines_push _ _ _ c Kk1).
    rewrite Hs1. simpl boxes.
    destruct (String.eqb_spec n c) as [E1|Hnc].
    - subst c. destruct (String.eqb_spec k n); [congruence|].
      rewrite get_lines_app_new by assumption. reflexivity.
    - rewrite get_lines_app_other by assumption. reflexivity. }
  split; [assumption|].
  split; [|split; [|split; [|split; [|split; [|split; [|split]]]]]].
  - rewrite E. unfold keys. simpl. unfold push_line. rewrite !keys_set_lines, Hs1.
    unfold map_keys. simpl. now rewrite map_app.
  - rewrite E. simpl. now rewrite Hnb.
  - now rewrite E.
  - now rewrite E.
  - rewrite Hl. now rewrite String.eqb_refl.
  - rewrite Hl. destruct (String.eqb_spec n k); [congruence|].
    rewrite String.eqb_refl. destruct (mem n (lines_of s k)) eqn:Em.
    + now apply mem_In.
    + apply in_or_app. right. now left.
  - intros Hn. rewrite Hl. destruct (String.eqb_spec n k); [congruence|].
    rewrite String.eqb_refl. apply mem_false in Hn. now rewrite Hn.
  - intros c Hc Hcn. rewrite Hl.
    destruct (String.eqb_spec n c); [congruence|].
    destruct (String.eqb_spec k c); [congruence | reflexivity].
Qed.

Lemma X2_addBlock_adds_one_witness :
  id seed0 = "1" /\ numbered seed0 path123 /\ In "2" (keys path123) /\
  below_limit path123 /\
  within (fst (getBoxCoords (mkRect 10 20 80 30))) /\
  within (snd (getBoxCoords (mkRect 10 20 80 30))) /\
  exists t, totalBoxes path123 = JS.Fin t /\
    let n := JS.nat_str (Z.to_N (t + 1)) in
    ~ In n (keys path123) /\
    keys (addBlock "2" (mkRect 10 20 80 30) path123) = (keys path123 ++ [n])%list /\
    dom_boxes (addBlock "2" (mkRect 10 20 80 30) path123) =
      (dom_boxes path123 ++
       [mkBox n ["New Box"; ("#" ++ n)%string]
              (coord_str (whole 10 + 80) ++ "px")
              (coord_str (whole 20 + 30) ++ "px")
              "rgb(241, 241, 241)"])%list /\
    dom_lines (addBlock "2" (mkRect 10 20 80 30) path123) =
      (dom_lines path123 ++ [("2" ++ "_" ++ n)%string])%list /\
    totalBoxes (addBlock "2" (mkRect 10 20 80 30) path123) = JS.Fin (t + 1) /\
    lines_of (addBlock "2" (mkRect 10 20 80 30) path123) n = ["2"] /\
    In n (lines_of (addBlock "2" (mkRect 10 20 80 30) path123) "2") /\
    (~ In n (lines_of path123 "2") ->
     lines_of (addBlock "2" (mkRect 10 20 80 30) path123) "2" =
       (lines_of path123 "2" ++ [n])%list) /\
    (forall c, c <> "2" -> c <> n ->
       lines_of (addBlock "2" (mkRect 10 20 80 30) path123) c = lines_of path123 c).
Proof.
  assert (K : In "2" (keys path123)) by (simpl; auto).
  assert (B : below_limit path123) by in_range.
  assert (W1 : within (fst (getBoxCoords (mkRect 10 20 80 30)))) by in_range.
  assert (W2 : within (snd (getBoxCoords (mkRect 10 20 80 30)))) by in_range.
  split; [reflexivity|]. split; [apply numbered_path123|]. split; [exact K|].
  split; [exact B|]. split; [exact W1|]. split; [exact W2|].
  apply (X2_addBlock_adds_one seed0 path123 "2" (mkRect 10 20 80 30) eq_refl
           numbered_path123 K B W1 W2).
Defined.

Lemma map_delete_app_last n e m :
  ~ In n (map_keys m) -> map_delete n (m ++ [(n, e)]) = m.
Proof.
  intros H. unfold map_delete. rewrite filter_app. simpl.
  rewrite String.eqb_refl. simpl. rewrite List.app_nil_r.
  apply forallb_filter_id. apply forallb_forall. intros [k' e'] Hin. simpl.
  destruct (String.eqb_spec n k') as [->|]; [|reflexivity].
  exfalso. apply H. unfold map_keys. apply in_map_iff. exists (k', e'). auto.
Qed.

Lemma remove_box_app_last b l :
  ~ In (id b) (map id l) -> remove_box (id b) (l ++ [b]) = l.
Proof.
  induction l as [|c r IH]; simpl; intros H.
  - now rewrite String.eqb_refl.
  - destruct (String.eqb_spec (id b) (id c)) as [E|Hne];
      [exfalso; apply H; left; congruence|].
    rewrite IH; [reflexivity | tauto].
Qed.

(** X3. In a state reached with ids below 2^53 whose counter leaves
    room for one more, adding a box next to [k] and deleting it again
    restores the boxes, the neighbour lists and the lines, when [k]
    holds no stale reference to the new id; only the counter stays
    advanced, so that the id is not given out again. *)
Theorem X3_add_then_delete (seed : BoxElem) (s : State) (k : string) (r : Rect) :
  id seed = "1" -> numbered seed s -> In k (keys s) -> below_limit s ->
  (forall x, In x (lines_of s k) -> In x (keys s)) ->
  exists t, totalBoxes s = JS.Fin t /\
    deleteBox (JS.nat_str (Z.to_N (t + 1))) (addBlock k r s) =
    mkState (boxes s) (JS.Fin (t + 1)) (dom_boxes s) (dom_lines s).
Proof.
  intros Hseed R Kk _ Hrefs. pose proof (numbered_Inv seed s Hseed R) as I.
  destruct (inv_total s I) as [t [Ht _]]. exists t. split; [assumption|].
  destruct (addBlock_unfold s k r t I Kk Ht) as
    [nb [s1 [_ [Hnb [Hs1 [I1 [Hf [Hkn [Ea _]]]]]]]]].
  set (n := JS.nat_str (Z.to_N (t + 1))) in *.
  assert (Kk1 : In k (keys s1)).
  { rewrite Hs1. unfold keys, map_keys. simpl. rewrite map_app. apply in_or_app. now left. }
  assert (Kn1 : In n (keys s1)).
  { rewrite Hs1. unfold keys, map_keys. simpl. rewrite map_app. apply in_or_app.
    right. now left. }
  assert (Hln : lines_of s1 n = []).
  { rewrite Hs1. unfold lines_of. simpl. now rewrite get_lines_app_new. }
  assert (Hlk : lines_of s1 k = lines_of s k).
  { rewrite Hs1. unfold lines_of. simpl. apply get_lines_app_other. congruence. }
  assert (Hkn1 : ~ In n (lines_of s1 k)).
  { rewrite Hlk. intros Hin. apply Hf. now apply Hrefs. }
  assert (Hnk1 : ~ In k (lines_of s1 n)) by (rewrite Hln; intros []).
  destruct (connect_disconnect_Inv s1 k n I1 Kk1 Kn1 Hkn1 Hnk1) as [Hl Ed].
  pose proof (newLine_fresh_pair s1 k n I1 Kk1 Kn1 Hkn1 Hnk1) as En.
  assert (Hnone : filter (attached n) (dom_lines s1) = []).
  { destruct (filter (attached n) (dom_lines s1)) as [|l0 r0] eqn:Ef; [reflexivity|].
    exfalso. assert (Hin0 : In l0 (filter (attached n) (dom_lines s1)))
      by (rewrite Ef; now left).
    apply filter_In in Hin0. destruct Hin0 as [Hin Hat]. revert Hat.
    set (l := l0) in *.
    destruct (Inv_line_split s1 l I1 Hin) as [p [q [Kp [Kq [Np [Nq [El [Es [H1 H2]]]]]]]]].
    rewrite (attached_line n p q l Es). intros Hat.
    apply orb_true_iff in Hat. rewrite !String.eqb_eq in Hat.
    destruct Hat as [-> | ->].
    - rewrite Hln in H1. contradiction.
    - rewrite Hln in H2. contradiction. }
  assert (Hatt : getLinesAttached n (addBlock k r s) = [lineIdOf k n]).
  { rewrite Ea, En. unfold getLinesAttached. simpl dom_lines.
    rewrite filter_app, Hnone. simpl.
    rewrite (attached_lineIdOf n k n) by (now apply (inv_keys_num s1 I1)).
    now rewrite String.eqb_refl, orb_true_r. }
  unfold deleteBox. rewrite Hatt. simpl fold_left. rewrite Ea, Ed.
  rewrite Hs1. simpl.
  rewrite map_delete_app_last by assumption.
  assert (Hidn : id nb = n) by (rewrite Hnb; reflexivity).
  rewrite <- Hidn at 1. rewrite remove_box_app_last; [reflexivity|].
  rewrite Hidn, (Inv_dom_ids s I). assumption.
Qed.

Lemma X3_add_then_delete_witness :
  id seed0 = "1" /\ numbered seed0 path123 /\ In "2" (keys path123) /\
  below_limit path123 /\
  (forall x, In x (lines_of path123 "2") -> In x (keys path123)) /\
  exists t, totalBoxes path123 = JS.Fin t /\
    deleteBox (JS.nat_str (Z.to_N (t + 1))) (addBlock "2" (mkRect 10 20 80 30) path123) =
    mkState (boxes path123) (JS.Fin (t + 1)) (dom_boxes path123) (dom_lines path123).
Proof.
  assert (K : In "2" (keys path123)) by (simpl; auto).
  assert (H : forall x, In x (lines_of path123 "2") -> In x (keys path123)).
  { simpl. intros x [<-|[<-|[]]]; auto. }
  assert (B : below_limit path123) by in_range.
  split; [reflexivity|]. split; [apply numbered_path123|].
  split; [exact K|]. split; [exact B|]. split; [exact H|].
  apply (X3_add_then_delete seed0 path123 "2" (mkRect 10 20 80 30) eq_refl
           numbered_path123 K B H).
Defined.

(** ** References stay closed and mutual *)

Lemma tidy_create s x y c : Inv s -> tidy s -> tidy (fst (createNewBlock x y c None s)).
Proof.
  intros I [Hc Hm]. destruct (inv_total s I) as [t [Ht [H0 Hb]]].
  destruct (createNewBlock_fresh s x y c t Ht H0 Hb) as [Hf [nb [Hid E]]].
  rewrite E. simpl fst. set (n := JS.nat_str (Z.to_N (t + 1))) in *.
  assert (Hl : forall a, lines_of (mkState (boxes s ++ [(n, mkEntry nb [])])
                 (JS.Fin (t + 1)) (dom_boxes s ++ [nb]) (dom_lines s)) a = lines_of s a).
  { intros a. unfold lines_of. simpl. destruct (string_dec n a) as [<-|Hne].
    - rewrite get_lines_app_new by assumption.
      symmetry. now apply get_lines_absent.
    - now apply get_lines_app_other. }
  assert (Hk : forall a, In a (keys s) ->
            In a (keys (mkState (boxes s ++ [(n, mkEntry nb [])])
                 (JS.Fin (t + 1)) (dom_boxes s ++ [nb]) (dom_lines s)))).
  { intros a Ha. unfold keys, map_keys. simpl. rewrite map_app.
    apply in_or_app. now left. }
  split.
  - intros a x0. rewrite Hl. intros H. apply Hk. eapply Hc; eauto.
  - intros a b _ _. rewrite !Hl. intros H.
    apply Hm; try assumption; [eapply get_lines_key; eauto | eapply Hc; eauto].
Qed.

Lemma tidy_newLine s a b :
  Inv s -> tidy s -> numeral a -> numeral b -> tidy (newLine a b s).
Proof.
  intros I [Hc Hm] Na Nb.
  destruct (newLine_cases s a b I Na Nb) as [[-> _]|[Ka [Kb [_ E]]]];
    [now split|].
  assert (Hk : keys (newLine a b s) = keys s) by apply newLine_keys.
  assert (Hin : forall k x, In x (lines_of (newLine a b s) k) <->
                  In x (lines_of s k) \/ (k = a /\ x = b) \/ (k = b /\ x = a)).
  { intros k x. rewrite E. unfold lines_of. simpl. now apply connected_lines_in. }
  split.
  - intros k x H. rewrite Hk. apply Hin in H.
    destruct H as [H|[[_ ->]|[_ ->]]]; try assumption. eapply Hc; eauto.
  - intros k x Kk Kx H. rewrite Hk in *. apply Hin in H. apply Hin.
    destruct H as [H|[[-> ->]|[-> ->]]]; auto.
Qed.

Lemma tidy_deleteLine s l :
  Inv s -> tidy s -> In l (dom_lines s) -> tidy (deleteLine l s).
Proof.
  intros I [Hc Hm] Hl.
  destruct (Inv_line_split s l I Hl) as [p [q [Kp [Kq [Np [Nq [El [Es _]]]]]]]].
  assert (Hin : forall k x, In x (lines_of (deleteLine l s) k) <->
            In x (lines_of s k) /\ ~ (k = p /\ x = q) /\ ~ (k = q /\ x = p)).
  { intros k x. rewrite (deleteLine_split l p q s Es). unfold lines_of. simpl.
    apply disconnected_lines_in. }
  assert (Hk : keys (deleteLine l s) = keys s).
  { rewrite (deleteLine_split l p q s Es). unfold keys. simpl.
    now rewrite !keys_set_lines. }
  split.
  - intros k x H. rewrite Hk. apply Hin in H. eapply Hc. apply H.
  - intros k x Kk Kx H. rewrite Hk in *. apply Hin in H. apply Hin.
    destruct H as [H [H1 H2]]. split; [now apply Hm | tauto].
Qed.

Lemma tidy_deleteBox s n :
  Inv s -> tidy s ->
  tidy (deleteBox n s) /\ forall c, ~ In n (lines_of (deleteBox n s) c).
Proof.
  intros I [Hc Hm].
  destruct (deleteBox_spec s n I) as [I' [Hs [_ [_ [_ Hrefs]]]]]. cbv zeta in *.
  assert (Hk : forall k, In k (keys (deleteBox n s)) <-> In k (keys s) /\ k <> n).
  { intros k. unfold keys. rewrite <- !keys_shape, Hs.
    rewrite in_map_iff. split.
    - intros [[k' b] [<- Hin]]. apply filter_In in Hin. destruct Hin as [Hin Hne].
      simpl in *. split.
      + apply in_map_iff. exists (k', b). auto.
      + intros ->. now rewrite String.eqb_refl in Hne.
    - intros [Hin Hne]. apply in_map_iff in Hin. destruct Hin as [[k' b] [<- Hin]].
      exists (k', b). split; [reflexivity|]. apply filter_In. split; [assumption|].
      simpl in *. destruct (String.eqb_spec n k'); [congruence | reflexivity]. }
  assert (Hnone : forall c, ~ In n (lines_of (deleteBox n s) c)).
  { intros c Hin.
    assert (Kc : In c (keys (deleteBox n s))) by (eapply get_lines_key; eauto).
    apply Hk in Kc. destruct Kc as [Kc Hcn].
    apply (Hrefs c n Hcn) in Hin. destruct Hin as [Hin Hna].
    apply Hna. apply filter_In.
    assert (Kn : In n (keys s)) by (eapply Hc; eauto).
    split.
    - apply (Inv_complete s c n I Kc Kn Hin). now apply Hm.
    - rewrite attached_lineIdOf by (now apply (inv_keys_num s I)).
      now rewrite String.eqb_refl, orb_true_r. }
  split; [split|exact Hnone].
  - intros a x Hin.
    assert (Ka : In a (keys (deleteBox n s))) by (eapply get_lines_key; eauto).
    pose proof Ka as Ka'. apply Hk in Ka'. destruct Ka' as [Ka' Han].
    apply Hk. split.
    + apply (Hrefs a x Han) in Hin. eapply Hc. apply Hin.
    + intros ->. now apply (Hnone a).
  - intros a b Ka Kb Hin. apply Hk in Ka. apply Hk in Kb.
    destruct Ka as [Ka Han]. destruct Kb as [Kb Hbn].
    apply (Hrefs a b Han) in Hin. destruct Hin as [Hin Hna].
    apply (Hrefs b a Hbn). split; [now apply Hm|].
    rewrite (lineIdOf_sym b a) by (now apply (inv_keys_num s I)). assumption.
Qed.

(** X4. From a state reached with ids below 2^53 in which every
    neighbour reference names a box and is held by both boxes,
    creating a box and adding a box (while the counter leaves room
    for one more id), connecting two boxes, deleting a line and
    deleting a box lead to such states again; after [deleteBox(n)] no
    neighbour list names [n]. *)
Theorem X4_references_stay_tidy (seed : BoxElem) (s : State) :
  id seed = "1" -> numbered seed s -> tidy s ->
  (below_limit s -> forall x y c, tidy (fst (createNewBlock x y c None s))) /\
  (below_limit s -> forall k r, In k (keys s) -> tidy (addBlock k r s)) /\
  (forall a b, In a (keys s) -> In b (keys s) -> tidy (newLine a b s)) /\
  (forall l, In l (dom_lines s) -> tidy (deleteLine l s)) /\
  (forall n, In n (keys s) ->
             tidy (deleteBox n s) /\
             forall c, ~ In n (lines_of (deleteBox n s) c)).
Proof.
  intros Hseed R T. pose proof (numbered_Inv seed s Hseed R) as I.
  split; [|split; [|split; [|split]]].
  - intros _ x y c. now apply tidy_create.
  - intros _ k r Kk. destruct (inv_total s I) as [t [Ht _]].
    destruct (addBlock_unfold s k r t I Kk Ht) as
      [nb [s1 [Ec [_ [_ [I1 [_ [_ [Ea _]]]]]]]]].
    rewrite Ea. apply tidy_newLine; try assumption.
    + pose proof (tidy_create s (fst (getBoxCoords r)) (snd (getBoxCoords r)) None I T) as H.
      now rewrite Ec in H.
    + now apply (inv_keys_num s I).
    + now eexists.
  - intros a b Ka Kb. apply tidy_newLine; try assumption;
      now apply (inv_keys_num s I).
  - intros l Hl. now apply tidy_deleteLine.
  - intros n _. now apply tidy_deleteBox.
Qed.

Lemma map_get_In m k e : map_get k m = Some e -> In (k, e) m.
Proof.
  induction m as [|[k' e'] r IH]; simpl; [discriminate|].
  destruct (String.eqb_spec k k') as [->|]; [intros [= ->]; now left | auto].
Qed.

Lemma closed_by_entries s :
  (forall k e, In (k, e) (boxes s) -> forall x, In x (lines e) -> In x (keys s)) ->
  closed s.
Proof.
  intros H a x. unfold lines_of, get_lines.
  destruct (map_get a (boxes s)) eqn:E; [|intros []].
  apply map_get_In in E. now apply (H a e).
Qed.

Lemma tidy_path123 : tidy path123.
Proof.
  split; [|apply mutual_path123].
  apply closed_by_entries. intros k e H. vm_compute in H.
  destruct H as [H|[H|[H|[]]]]; injection H; intros <- <-;
    intros x Hx; vm_compute in Hx; vm_compute; intuition.
Qed.

Lemma X4_references_stay_tidy_witness :
  id seed0 = "1" /\ numbered seed0 path123 /\ tidy path123 /\
  (below_limit path123 ->
   forall x y c, tidy (fst (createNewBlock x y c None path123))) /\
  (below_limit path123 ->
   forall k r, In k (keys path123) -> tidy (addBlock k r path123)) /\
  (forall a b, In a (keys path123) -> In b (keys path123) ->
     tidy (newLine a b path123)) /\
  (forall l, In l (dom_lines path123) -> tidy (deleteLine l path123)) /\
  (forall n, In n (keys path123) ->
             tidy (deleteBox n path123) /\
             forall c, ~ In n (lines_of (deleteBox n path123) c)).
Proof.
  split; [reflexivity|]. split; [apply numbered_path123|].
  split; [apply tidy_path123|].
  apply (X4_references_stay_tidy seed0 path123 eq_refl numbered_path123 tidy_path123).
Defined.

(** ** Import *)

Lemma newLine_frame a b s :
  shape (boxes (newLine a b s)) = shape (boxes s) /\
  totalBoxes (newLine a b s) = totalBoxes s /\
  dom_boxes (newLine a b s) = dom_boxes s.
Proof.
  unfold newLine.
  destruct (negb (hasElement s a) || negb (hasElement s b)); [auto|].
  destruct (hasElement s (lineIdOf a b)); [auto|].
  simpl. unfold push_line. now rewrite !shape_set_lines.
Qed.

Lemma connect_all_frame calls : forall s,
  shape (boxes (connect_all calls s)) = shape (boxes s) /\
  totalBoxes (connect_all calls s) = totalBoxes s /\
  dom_boxes (connect_all calls s) = dom_boxes s.
Proof.
  induction calls as [|[a b] r IH]; intros s; [auto|].
  unfold connect_all in *. simpl.
  destruct (IH (newLine a b s)) as [H1 [H2 H3]].
  destruct (newLine_frame a b s) as [F1 [F2 F3]].
  rewrite H1, H2, H3. auto.
Qed.

(** After the second pass no reference between two boxes lacks its
    line. *)
Lemma connect_all_refs calls : forall u,
  InvP calls u ->
  (forall p, In p calls -> numeral (fst p) /\ numeral (snd p)) ->
  (forall a b, In a (keys u) -> In b (keys u) -> In b (lines_of u a) ->
     In (a, b) calls \/ In (lineIdOf a b) (dom_lines u)) ->
  forall a b, In a (keys (connect_all calls u)) -> In b (keys (connect_all calls u)) ->
    In b (lines_of (connect_all calls u) a) ->
    In (lineIdOf a b) (dom_lines (connect_all calls u)).
Proof.
  induction calls as [|[a0 b0] r IH]; intros u I Hn Hp a b Ka Kb Hab.
  - destruct (Hp a b Ka Kb Hab) as [[]|H]; assumption.
  - destruct (Hn (a0, b0) (or_introl eq_refl)) as [Na Nb]. simpl in Na, Nb.
    unfold connect_all in *. simpl in *.
    apply (IH (newLine a0 b0 u)); try assumption.
    + now apply InvP_newLine.
    + intros p Hin. apply Hn. now right.
    + clear a b Ka Kb Hab. intros a b Ka Kb Hab.
      rewrite newLine_keys in Ka, Kb.
      destruct (newLine_cases u a0 b0 I Na Nb) as [[E Hc]|[Ka0 [Kb0 [Hl E]]]];
        rewrite E in *.
      * destruct (Hp a b Ka Kb Hab) as [[Eq|H]|H]; auto.
        injection Eq; intros <- <-. destruct Hc as [Hc|[Hc|Hc]]; tauto.
      * simpl. unfold lines_of in Hab. simpl in Hab.
        apply connected_lines_in in Hab; try assumption.
        rewrite in_app_iff. simpl.
        destruct Hab as [Hab|[[-> ->]|[-> ->]]].
        -- destruct (Hp a b Ka Kb Hab) as [[Eq|H]|H]; auto.
           injection Eq; intros <- <-. auto.
        -- auto.
        -- right. right. left. now apply lineIdOf_sym.
Qed.

(** What the import of a document with decimal ids leaves:
    the restored boxes in the order of the document, connected, with
    the counter at the largest id. *)
Lemma restore_boxes_total bs : forall s t s',
  totalBoxes s = JS.Fin t ->
  (forall e, In e bs -> wf_box e) -> NoDup (map box_id bs) ->
  (forall e, In e bs -> ~ In (box_id e) (keys s)) ->
  restore_boxes bs s = Done s' ->
  totalBoxes s' =
    JS.Fin (fold_left Z.max (map (fun e => JS.or_zero (JS.Number (box_id e))) bs) t).
Proof.
  induction bs as [|e r IH]; intros s t s' Ht Hwf Hnd Hf E.
  - simpl in *. injection E; intros <-. assumption.
  - simpl restore_boxes in E.
    assert (We : wf_box e) by (apply Hwf; now left).
    destruct (wf_box_id e We) as [w [n [_ [_ [Hid _]]]]].
    assert (Fe : ~ In (box_id e) (keys s)) by (apply Hf; now left).
    rewrite (restore_box_spec e s t n We Hid Ht Fe) in E.
    inversion Hnd as [|? ? Hne Hr]; subst.
    simpl map. simpl fold_left. rewrite Hid at 1. rewrite Number_nat_str.
    simpl JS.or_zero.
    refine (IH _ _ s' _ _ Hr _ E).
    + reflexivity.
    + intros e' He'. apply Hwf. now right.
    + intros e' He' Hin. unfold keys, map_keys in Hin. simpl in Hin.
      rewrite map_app in Hin. apply in_app_or in Hin. simpl in Hin.
      destruct Hin as [Hin|[Eq|[]]].
      * apply (Hf e'); [now right | assumption].
      * apply Hne. rewrite Eq. now apply in_map.
Qed.

Lemma fold_left_max_spec l : forall t,
  let m := fold_left Z.max l t in
  t <= m /\ (forall x, In x l -> x <= m) /\ (m = t \/ In m l).
Proof.
  induction l as [|x r IH]; intros t; simpl.
  - repeat split; [lia | intros x [] | now left].
  - destruct (IH (Z.max t x)) as [H1 [H2 H3]]. cbv zeta in *.
    repeat split.
    + lia.
    + intros y [<-|Hy]; [lia | now apply H2].
    + destruct H3 as [H3|H3]; [|now right; right].
      destruct (Z.max_spec t x) as [[_ E]|[_ E]];
        [right; left; congruence | left; congruence].
Qed.

Lemma upload_wf_full data s :
  wf_doc data ->
  exists bs s',
    Json.prop data "boxes" = Some (JArr bs) /\
    upload (Parsed data) s = Done s' /\ Inv s' /\ mutual s' /\
    shape (boxes s') = map (fun e => (box_id e, restored e (box_id e))) bs /\
    totalBoxes s' =
      JS.Fin (fold_left Z.max (map (fun e => JS.or_zero (JS.Number (box_id e))) bs) 0).
Proof.
  intros W.
  destruct (upload_wf data s W)
    as [bs [s1 [Hp [Hwf [Hnd [E1 [Hb [Hd [Hl [I1 [E I']]]]]]]]]]].
  exists bs, (connect_all (link_calls bs) s1).
  destruct (connect_all_frame (link_calls bs) s1) as [F1 [F2 F3]].
  split; [assumption|]. split; [assumption|]. split; [assumption|]. split; [|split].
  - intros a b Ka Kb Hab.
    assert (Hline : In (lineIdOf a b) (dom_lines (connect_all (link_calls bs) s1))).
    { apply connect_all_refs; try assumption.
      - now apply link_calls_numeral.
      - intros a' b' _ _ Hr. left.
        (* every reference of the first pass is one of the calls *)
        unfold lines_of in Hr. rewrite Hb in Hr.
        unfold get_lines in Hr.
        destruct (map_get a' (map restored_entry bs)) eqn:Eg; [|destruct Hr].
        apply map_get_In in Eg. apply in_map_iff in Eg.
        destruct Eg as [e' [Ee He']]. unfold restored_entry in Ee.
        injection Ee; intros <- <-. simpl in Hr.
        destruct (wf_box_lines e' (Hwf e' He')) as [arr [Ha [Hrl [Hlc _]]]].
        rewrite Hrl in Hr. apply (proj1 (dedupe_in _ _)) in Hr.
        unfold link_calls. apply in_flat_map. exists e'. split; [assumption|].
        rewrite Ha. apply in_map_iff in Hr. destruct Hr as [y [<- Hy]].
        apply in_map_iff. exists y. auto. }
    destruct (inv_lines_sound _ I' _ Hline) as [a' [b' [Ka' [Kb' [El [H1 H2]]]]]].
    apply lineIdOf_inj in El; try (now apply (inv_keys_num _ I')).
    destruct El as [[-> ->]|[-> ->]]; assumption.
  - rewrite F1, Hb. unfold shape, restored_entry. rewrite map_map. reflexivity.
  - rewrite F2.
    apply (restore_boxes_total bs cleared 0 s1); try assumption; try reflexivity.
    intros e _ [].
Qed.

Example numbered_dangling : numbered_doc doc_dangling.
Proof. apply snapshot_numbered, snapshot_dangling. Qed.

(** X5. The import of a document with pairwise distinct decimal ids
    below 2^53 and values that have conversions to strings (see
    [numbered_doc]), whose neighbour lists may be one-sided, repeat
    ids or name boxes that are not in it, completes and leaves every
    reference between two restored boxes held by both of them, with
    its line, and no neighbour list with a repeated id. *)
Theorem X5_import_symmetric (data : json) (s : State) :
  numbered_doc data ->
  exists bs s', Json.prop data "boxes" = Some (JArr bs) /\
    upload (Parsed data) s = Done s' /\
    keys s' = map box_id bs /\
    (forall a b, In a (keys s') -> In b (keys s') ->
       In b (lines_of s' a) ->
       In a (lines_of s' b) /\ In (lineIdOf a b) (dom_lines s')) /\
    (forall a, NoDup (lines_of s' a)) /\
    NoDup (dom_lines s').
Proof.
  intros W0. pose proof (numbered_wf data W0) as W.
  destruct (upload_wf_full data s W) as [bs [s' [Hp [E [I [Hm [Hs _]]]]]]].
  exists bs, s'. split; [assumption|]. split; [assumption|]. split; [|split; [|split]].
  - unfold keys. rewrite <- keys_shape, Hs, map_map. reflexivity.
  - intros a b Ka Kb Hab. pose proof (Hm a b Ka Kb Hab) as Hba.
    split; [assumption|]. now apply (Inv_complete s' a b I).
  - apply (inv_refs_nodup s' I).
  - apply (inv_lines_nodup s' I).
Qed.

Lemma X5_import_symmetric_witness :
  numbered_doc doc_dangling /\
  exists bs s', Json.prop doc_dangling "boxes" = Some (JArr bs) /\
    upload (Parsed doc_dangling) page0 = Done s' /\
    keys s' = map box_id bs /\
    (forall a b, In a (keys s') -> In b (keys s') ->
       In b (lines_of s' a) ->
       In a (lines_of s' b) /\ In (lineIdOf a b) (dom_lines s')) /\
    (forall a, NoDup (lines_of s' a)) /\
    NoDup (dom_lines s').
Proof.
  split; [apply numbered_dangling|].
  apply (X5_import_symmetric doc_dangling page0 numbered_dangling).
Defined.

(** X6. After the import of a document with pairwise distinct
    decimal ids below 2^53 and values that have conversions to
    strings (see [numbered_doc]) the counter is exactly the largest
    restored id (0 for a document without boxes), whatever it was
    before: the next allocated id is the successor of the largest id
    in the document. *)
Theorem X6_import_counter (data : json) (s : State) :
  numbered_doc data ->
  exists bs s' t, Json.prop data "boxes" = Some (JArr bs) /\
    upload (Parsed data) s = Done s' /\ totalBoxes s' = JS.Fin t /\
    (forall e, In e bs -> exists n, JS.Number (box_id e) = JS.Fin n /\ n <= t) /\
    (t = 0 \/ exists e, In e bs /\ JS.Number (box_id e) = JS.Fin t) /\
    (forall x y c, id (snd (createNewBlock x y c None s')) = JS.int_str (t + 1)).
Proof.
  intros W0. pose proof (numbered_wf data W0) as W.
  destruct (upload_wf_full data s W) as [bs [s' [Hp [E [I [_ [_ Ht]]]]]]].
  destruct W as [bs0 [Hp0 [Hwf _]]].
  assert (bs0 = bs) by congruence. subst bs0.
  pose proof (fold_left_max_spec
                (map (fun e => JS.or_zero (JS.Number (box_id e))) bs) 0) as Hmax.
  cbv zeta in Hmax. destruct Hmax as [H0 [Hle Hex]].
  set (t := fold_left Z.max _ 0) in *.
  assert (Hval : forall e, In e bs -> exists n : N,
            JS.Number (box_id e) = JS.Fin (Z.of_N n)).
  { intros e He. destruct (wf_box_id e (Hwf e He)) as [w [n [_ [_ [Hid _]]]]].
    exists n. now rewrite Hid, Number_nat_str. }
  exists bs, s', t. repeat (split; [assumption|]). split; [|split].
  - intros e He. destruct (Hval e He) as [n Hn]. exists (Z.of_N n).
    split; [assumption|]. apply Hle. apply in_map_iff. exists e.
    rewrite Hn. auto.
  - destruct Hex as [Hex|Hex]; [now left|]. right.
    apply in_map_iff in Hex. destruct Hex as [e [Ee He]]. exists e.
    split; [assumption|]. destruct (Hval e He) as [n Hn].
    rewrite Hn in *. simpl in Ee. now rewrite Ee.
  - intros x y c. unfold createNewBlock. simpl requested. cbv beta iota zeta.
    rewrite Ht. reflexivity.
Qed.

Lemma X6_import_counter_witness :
  numbered_doc doc_dangling /\
  exists bs s' t, Json.prop doc_dangling "boxes" = Some (JArr bs) /\
    upload (Parsed doc_dangling) path123 = Done s' /\ totalBoxes s' = JS.Fin t /\
    (forall e, In e bs -> exists n, JS.Number (box_id e) = JS.Fin n /\ n <= t) /\
    (t = 0 \/ exists e, In e bs /\ JS.Number (box_id e) = JS.Fin t) /\
    (forall x y c, id (snd (createNewBlock x y c None s')) = JS.int_str (t + 1)).
Proof.
  split; [apply numbered_dangling|].
  apply (X6_import_counter doc_dangling path123 numbered_dangling).
Defined.


(** X19. [newLine] with an id that names no element of the page
    changes nothing and raises no error; in a state reached with ids
    below 2^53, a decimal id below 2^53 that is the id of no box names
    no element.  The import of a document with pairwise distinct
    decimal ids below 2^53 and values that have conversions to
    strings (see [numbered_doc]) completes also when its neighbour
    lists name boxes that are not in it, every line it creates joins
    two of the restored boxes, and no line joins a restored box with
    such an id of no box. *)
Theorem X19_unknown_id_no_line (seed : BoxElem) (s : State) :
  id seed = "1" -> numbered seed s ->
  (forall x y, hasElement s x = false \/ hasElement s y = false ->
               newLine x y s = s) /\
  (forall x, safe_id x -> ~ In x (keys s) -> hasElement s x = false) /\
  (forall data, numbered_doc data ->
     exists s', upload (Parsed data) s = Done s' /\
       (forall l, In l (dom_lines s') ->
          exists a b, In a (keys s') /\ In b (keys s') /\ l = lineIdOf a b) /\
       (forall a x, In a (keys s') -> safe_id x -> ~ In x (keys s') ->
          ~ In (lineIdOf a x) (dom_lines s'))).
Proof.
  intros Hseed R. pose proof (numbered_Inv seed s Hseed R) as I.
  split; [|split].
  - intros x y H. unfold newLine.
    destruct H as [-> | ->]; simpl; [reflexivity | now rewrite orb_true_r].
  - intros x Nx Hx. rewrite (hasElement_numeral s x I (safe_numeral x Nx)).
    now apply mem_false.
  - intros data W0. pose proof (numbered_wf data W0) as W.
    destruct (upload_wf data s W) as [bs [s1 [_ [_ [_ [_ [_ [_ [_ [_ [E I']]]]]]]]]]].
    eexists. split; [exact E|]. split.
    + intros l Hl.
      destruct (inv_lines_sound _ I' l Hl) as [a [b [Ka [Kb [El _]]]]]. eauto.
    + intros a x Ka Nx Hx Hl.
      destruct (inv_lines_sound _ I' _ Hl) as [a' [b' [Ka' [Kb' [El _]]]]].
      apply lineIdOf_inj in El;
        try (now apply (inv_keys_num _ I')); try (now apply safe_numeral).
      destruct El as [[-> ->]|[-> ->]]; contradiction.
Qed.

Lemma X19_unknown_id_no_line_witness :
  id seed0 = "1" /\ numbered seed0 path123 /\
  (forall x y, hasElement path123 x = false \/ hasElement path123 y = false ->
               newLine x y path123 = path123) /\
  (forall x, safe_id x -> ~ In x (keys path123) -> hasElement path123 x = false) /\
  (forall data, numbered_doc data ->
     exists s', upload (Parsed data) path123 = Done s' /\
       (forall l, In l (dom_lines s') ->
          exists a b, In a (keys s') /\ In b (keys s') /\ l = lineIdOf a b) /\
       (forall a x, In a (keys s') -> safe_id x -> ~ In x (keys s') ->
          ~ In (lineIdOf a x) (dom_lines s'))).
Proof.
  split; [reflexivity|]. split; [apply numbered_path123|].
  apply (X19_unknown_id_no_line seed0 path123 eq_refl numbered_path123).
Defined.
(** ** Positions and contents through export and import *)

Lemma take_digits_stop d c r :
  all_digits d = true -> JS.is_digit c = false ->
  JS.take_digits (d ++ String c r) = d.
Proof.
  intros Hd Hc. induction d as [|x t IH]; simpl.
  - now rewrite Hc.
  - simpl in Hd. apply andb_true_iff in Hd. destruct Hd as [Hx Ht].
    now rewrite Hx, (IH Ht).
Qed.

Lemma nonempty_digits_nat_str n :
  JS.nonempty_digits (JS.nat_str n) = Some (Z.of_N n).
Proof.
  pose proof (nat_str_nonempty n) as Hne.
  unfold JS.nonempty_digits, JS.digits_value.
  destruct (JS.nat_str n) eqn:E; [congruence|].
  rewrite <- E, nat_str_unfold, NilEmpty.usu, Unsigned.of_to. reflexivity.
Qed.

Lemma append_assoc3 (a b c : string) : (a ++ b) ++ c = a ++ (b ++ c).
Proof. induction a; simpl; congruence. Qed.

(** [parseInt] reads the length [`${x}px`] back as [x] truncated
    towards zero. *)
Lemma parseInt_coord_px h :
  JS.parseInt (coord_str h ++ "px") = JS.Fin (Z.quot h 2).
Proof.
  unfold coord_str.
  set (d := JS.nat_str (Z.to_N (Z.abs h / 2))).
  assert (Hd : all_digits d = true) by apply nat_str_digits.
  assert (Hne : d <> "") by apply nat_str_nonempty.
  assert (Htake : JS.take_digits (d ++ (if Z.odd h then ".5" else "") ++ "px") = d).
  { destruct (Z.odd h); simpl append; now apply take_digits_stop. }
  assert (Hv : JS.nonempty_digits d = Some (Z.abs h / 2)).
  { unfold d. rewrite nonempty_digits_nat_str. f_equal.
    apply Z2N.id. apply Z.div_pos; lia. }
  destruct (Z.ltb_spec h 0) as [Hneg|Hpos].
  - change (("-" ++ d ++ (if Z.odd h then ".5" else "")) ++ "px")
      with (String "-" ((d ++ (if Z.odd h then ".5" else "")) ++ "px")).
    rewrite append_assoc3. unfold JS.parseInt. simpl JS.skip_ws.
    unfold JS.signed. rewrite Htake, Hv. simpl. f_equal.
    rewrite <- (Z.opp_involutive h) at 2. rewrite Z.quot_opp_l by lia.
    rewrite Z.quot_div_nonneg by lia. f_equal. f_equal. lia.
  - change (("" ++ d ++ (if Z.odd h then ".5" else "")) ++ "px")
      with ((d ++ (if Z.odd h then ".5" else "")) ++ "px").
    rewrite append_assoc3. unfold JS.parseInt.
    destruct d as [|c r] eqn:Ed; [congruence|].
    simpl in Hd. apply andb_true_iff in Hd. destruct Hd as [Hc Hr].
    change (String c r ++ (if Z.odd h then ".5" else "") ++ "px")
      with (String c (r ++ (if Z.odd h then ".5" else "") ++ "px")) in *.
    simpl JS.skip_ws. rewrite (digit_not_ws _ Hc).
    rewrite (signed_digit c _ _ Hc), Htake, Hv. f_equal.
    rewrite Z.quot_div_nonneg by lia. f_equal. lia.
Qed.

(** [trim] leaves a trimmed string as it is. *)
Lemma drop_ws_end_idem t : JS.drop_ws_end (JS.drop_ws_end t) = JS.drop_ws_end t.
Proof.
  induction t as [|c r IH]; simpl; [reflexivity|].
  destruct (JS.drop_ws_end r) as [|c' r'] eqn:E.
  - destruct (JS.is_ws c) eqn:Ec; simpl; [reflexivity | now rewrite Ec].
  - simpl. simpl in IH. now rewrite IH.
Qed.

Lemma drop_ws_end_head c r :
  JS.is_ws c = false -> exists r', JS.drop_ws_end (String c r) = String c r'.
Proof.
  intros Hc. simpl. destruct (JS.drop_ws_end r); [rewrite Hc|]; eauto.
Qed.

Lemma skip_ws_head s :
  JS.skip_ws s = "" \/ exists c r, JS.skip_ws s = String c r /\ JS.is_ws c = false.
Proof.
  induction s as [|c r IH]; simpl; [now left|].
  destruct (JS.is_ws c) eqn:Ec; [assumption | right; eauto].
Qed.

Lemma trim_idem s : JS.trim (JS.trim s) = JS.trim s.
Proof.
  unfold JS.trim. destruct (skip_ws_head s) as [->|[c [r [-> Hc]]]]; [reflexivity|].
  destruct (drop_ws_end_head c r Hc) as [r' E]. rewrite E.
  simpl JS.skip_ws. rewrite Hc. rewrite <- E. apply drop_ws_end_idem.
Qed.

Lemma trim_hash_numeral k : numeral k -> JS.trim ("#" ++ k) = "#" ++ k.
Proof.
  intros Nk. apply numeral_digits in Nk. unfold JS.trim. simpl.
  destruct (JS.drop_ws_end k) eqn:E.
  - rewrite (digits_drop_ws_end _ Nk) in E. now subst.
  - rewrite <- E. now rewrite (digits_drop_ws_end _ Nk).
Qed.

Lemma ascii_skip_ws t : ascii_text t = true -> ascii_text (JS.skip_ws t) = true.
Proof.
  induction t as [|c r IH]; simpl; [reflexivity|]. intros H.
  destruct (JS.is_ws c); [|exact H].
  apply andb_true_iff in H. now apply IH.
Qed.

Lemma ascii_drop_ws_end t : ascii_text t = true -> ascii_text (JS.drop_ws_end t) = true.
Proof.
  induction t as [|c r IH]; simpl; [reflexivity|]. intros H.
  apply andb_true_iff in H. destruct H as [Hc Hr]. specialize (IH Hr).
  destruct (JS.drop_ws_end r) as [|c' r'] eqn:E.
  - destruct (JS.is_ws c); simpl; [reflexivity | now rewrite Hc].
  - change (ascii_text (String c (String c' r')) = true).
    simpl. simpl in IH. now rewrite Hc, IH.
Qed.

Lemma ascii_trim t : ascii_text t = true -> ascii_text (JS.trim t) = true.
Proof. intros H. unfold JS.trim. now apply ascii_drop_ws_end, ascii_skip_ws. Qed.

Lemma within_whole_quot h : within h -> within (whole (Z.quot h 2)).
Proof.
  unfold within, whole. intros H.
  pose proof (Z.quot_rem' h 2) as E. pose proof (Z.rem_bound_abs h 2) as Hb.
  assert (Hs : 0 <= Z.rem h 2 * h) by (apply Z.rem_sign_mul; lia).
  assert (Z.abs (2 * Z.quot h 2) <= Z.abs h); [|lia].
  nia.
Qed.

(** What the first pass of an import makes of an exported box. *)
Lemma restored_export_shape k e hl ht :
  left (box e) = coord_str hl ++ "px" -> top (box e) = coord_str ht ++ "px" ->
  backgroundColor (box e) = "" \/ css_rgb (backgroundColor (box e)) = true ->
  restored (export_box (k, e)) k =
    mkBox k
      (if String.eqb (JS.trim (firstChild (box e))) ""
       then [("#" ++ k)%string]
       else [JS.trim (firstChild (box e)); ("#" ++ k)%string])
      (coord_str (whole (Z.quot hl 2)) ++ "px")
      (coord_str (whole (Z.quot ht 2)) ++ "px")
      (if String.eqb (backgroundColor (box e)) ""
       then default_colour else backgroundColor (box e)).
Proof.
  intros Hl Ht Hbg. unfold restored.
  change (Json.prop (export_box (k, e)) "content")
    with (Some (JStr (JS.trim (firstChild (box e))))).
  change (Json.prop (export_box (k, e)) "style")
    with (Some (JObj [("left", JStr (left (box e))); ("top", JStr (top (box e)));
                      ("backgroundColor", JStr (backgroundColor (box e)))])).
  simpl. rewrite Hl, Ht, !parseInt_coord_px. simpl JS.or_zero.
  destruct (String.eqb_spec (backgroundColor (box e)) "") as [E|Hne]; simpl.
  - destruct (String.eqb (JS.trim (firstChild (box e))) ""); reflexivity.
  - destruct Hbg as [E|Hc]; [contradiction|].
    unfold set_backgroundColor. rewrite Hc. simpl.
    destruct (String.eqb (JS.trim (firstChild (box e))) ""); reflexivity.
Qed.

(** A box restored from an exported box with a text is plain. *)
Lemma restored_export_plain k e :
  exportable (box e) -> JS.trim (firstChild (box e)) <> "" ->
  plain_box (restored (export_box (k, e)) k).
Proof.
  intros [[hl [Wl Hl]] [[ht [Wt Ht]] [Hbg Ha]]] Hne.
  rewrite (restored_export_shape k e hl ht Hl Ht Hbg).
  destruct (String.eqb_spec (JS.trim (firstChild (box e))) ""); [contradiction|].
  unfold plain_box. simpl.
  split; [exists (Z.quot hl 2); split; [now apply within_whole_quot | reflexivity]|].
  split; [exists (Z.quot ht 2); split; [now apply within_whole_quot | reflexivity]|].
  split.
  - destruct (String.eqb_spec (backgroundColor (box e)) "") as [E|Hn];
      [reflexivity|]. now destruct Hbg.
  - exists (JS.trim (firstChild (box e))). split; [reflexivity|].
    split; [now apply ascii_trim|]. split; [apply trim_idem | assumption].
Qed.

(** The import of an exported state. *)
Lemma upload_export s s0 :
  Inv s ->
  exists s', upload (Parsed (download s)) s0 = Done s' /\ Inv s' /\ mutual s' /\
    shape (boxes s') =
      map (fun p => (fst p, restored (export_box p) (fst p))) (boxes s) /\
    keys s' = keys s /\
    totalBoxes s' =
      JS.Fin (fold_left Z.max (map (fun k => JS.or_zero (JS.Number k)) (keys s)) 0).
Proof.
  intros I.
  destruct (upload_wf_full (download s) s0 (download_wf s I))
    as [bs [s' [Hp [E [I' [Hm [Hs Ht]]]]]]].
  simpl in Hp. injection Hp; intros <-.
  assert (Hshape : shape (boxes s') =
            map (fun p => (fst p, restored (export_box p) (fst p))) (boxes s)).
  { rewrite Hs. unfold download_boxes. rewrite map_map.
    apply map_ext. now intros [k e]. }
  assert (Hk : keys s' = keys s).
  { unfold keys. rewrite <- !keys_shape, Hshape. unfold shape.
    rewrite !map_map. reflexivity. }
  exists s'. repeat (split; [assumption|]).
  rewrite Ht. f_equal. f_equal. rewrite <- export_ids, map_map. reflexivity.
Qed.

(** X7. What export followed by import makes of a box of a state
    reached with ids below 2^53 and imports of documents in the
    serialised format (see [bounded]), when the box has a position
    within [pos_limit], an ASCII text and a background colour that is
    empty or in the form the page reports: its position is cut to whole
    pixels, towards zero (the half pixel of a centre is lost), its
    text is trimmed, a box whose text is blank is left with its
    footer [#id] only, and an empty background colour is replaced by
    the default; the id is kept. *)
Theorem X7_box_after_round_trip (seed : BoxElem) (s s0 : State)
    (k : string) (e : Entry) (hl ht : Z) :
  id seed = "1" -> bounded seed s -> In (k, e) (boxes s) ->
  within hl -> within ht ->
  left (box e) = coord_str hl ++ "px" -> top (box e) = coord_str ht ++ "px" ->
  ascii_text (firstChild (box e)) = true ->
  backgroundColor (box e) = "" \/ css_rgb (backgroundColor (box e)) = true ->
  exists s', upload (Parsed (download s)) s0 = Done s' /\
    In (k, mkBox k
             (if String.eqb (JS.trim (firstChild (box e))) ""
              then [("#" ++ k)%string]
              else [JS.trim (firstChild (box e)); ("#" ++ k)%string])
             (coord_str (whole (Z.quot hl 2)) ++ "px")
             (coord_str (whole (Z.quot ht 2)) ++ "px")
             (if String.eqb (backgroundColor (box e)) ""
              then "rgb(241, 241, 241)" else backgroundColor (box e)))
       (shape (boxes s')).
Proof.
  intros Hseed R Hin _ _ Hl Ht _ Hbg. pose proof (bounded_Inv seed s Hseed R) as I.
  destruct (upload_export s s0 I) as [s' [E [_ [_ [Hs _]]]]].
  exists s'. split; [assumption|]. rewrite Hs.
  apply in_map_iff. exists (k, e). split; [|assumption].
  simpl fst. f_equal. now apply restored_export_shape.
Qed.

Lemma bounded_offcentre : bounded seed0 offcentre.
Proof. unfold offcentre. apply b_addBlock; [apply b_init | ..]; in_range. Qed.

Lemma X7_box_after_round_trip_witness :
  id seed0 = "1" /\ bounded seed0 offcentre /\
  In ("2", mkEntry (mkBox "2" ["New Box"; "#2"] "50.5px" "3.5px" "rgb(241, 241, 241)")
                   ["1"])
     (boxes offcentre) /\
  within 101 /\ within 7 /\
  "50.5px" = coord_str 101 ++ "px" /\ "3.5px" = coord_str 7 ++ "px" /\
  ascii_text "New Box" = true /\
  ("rgb(241, 241, 241)" = "" \/ css_rgb "rgb(241, 241, 241)" = true) /\
  exists s', upload (Parsed (download offcentre)) page0 = Done s' /\
    In ("2", mkBox "2" ["New Box"; "#2"] "50px" "3px" "rgb(241, 241, 241)")
       (shape (boxes s')).
Proof.
  assert (H : In ("2", mkEntry (mkBox "2" ["New Box"; "#2"] "50.5px" "3.5px"
                                      "rgb(241, 241, 241)") ["1"])
                 (boxes offcentre)) by (simpl; auto).
  assert (W1 : within 101) by in_range.
  assert (W2 : within 7) by in_range.
  assert (C : "rgb(241, 241, 241)" = "" \/ css_rgb "rgb(241, 241, 241)" = true)
    by (right; reflexivity).
  split; [reflexivity|]. split; [apply bounded_offcentre|]. split; [exact H|].
  split; [exact W1|]. split; [exact W2|].
  split; [reflexivity|]. split; [reflexivity|]. split; [reflexivity|].
  split; [exact C|].
  apply (X7_box_after_round_trip seed0 offcentre page0 "2" _ 101 7 eq_refl
           bounded_offcentre H W1 W2 eq_refl eq_refl eq_refl C).
Defined.

(** X8. Export followed by import normalises a state reached with
    ids below 2^53 and imports of documents in the serialised format
    (see [bounded]) whose boxes have a position within [pos_limit], a
    background colour that is empty or in the form the page reports
    and an ASCII text that is not blank: a second export and import
    restores the first result, with the same boxes, neighbour lists,
    box elements and counter, the same lines up to their order, and
    the same exported document. *)
Theorem X8_round_trip_twice (seed : BoxElem) (s s0 s0' : State) :
  id seed = "1" -> bounded seed s ->
  (forall b, In b (dom_boxes s) ->
     exportable b /\ JS.trim (firstChild b) <> "") ->
  exists s1 s2,
    upload (Parsed (download s)) s0 = Done s1 /\
    upload (Parsed (download s1)) s0' = Done s2 /\
    boxes s2 = boxes s1 /\ dom_boxes s2 = dom_boxes s1 /\
    totalBoxes s2 = totalBoxes s1 /\
    Permutation (dom_lines s2) (dom_lines s1) /\
    download s2 = download s1.
Proof.
  intros Hseed R Hx. pose proof (bounded_Inv seed s Hseed R) as I.
  destruct (upload_export s s0 I) as [s1 [E1 [I1 [M1 [Hs [K1 T1]]]]]].
  assert (P1 : forall b, In b (dom_boxes s1) -> plain_box b).
  { intros b Hb. rewrite (inv_dom s1 I1), Hs, map_map in Hb.
    apply in_map_iff in Hb. destruct Hb as [[k e] [<- Hin]]. simpl.
    assert (Hd : In (box e) (dom_boxes s)).
    { rewrite (inv_dom s I). unfold shape. rewrite map_map.
      apply in_map_iff. exists (k, e). auto. }
    destruct (Hx _ Hd) as [X1 X2]. now apply restored_export_plain. }
  destruct (round_trip s1 s0' I1 M1 P1) as [s2 [E2 [I2 [Hb [Hd Hp]]]]].
  destruct (upload_export s1 s0' I1) as [s2' [E2' [_ [_ [_ [_ T2]]]]]].
  assert (s2' = s2) by congruence. subst s2'.
  exists s1, s2. repeat (split; [assumption|]). split; [|split; [assumption|]].
  - now rewrite T2, T1, K1.
  - unfold download, download_boxes. now rewrite Hb.
Qed.

Lemma exportable_offcentre b :
  In b (dom_boxes offcentre) -> exportable b /\ JS.trim (firstChild b) <> "".
Proof.
  simpl. intros [<-|[<-|[]]]; (split; [|discriminate]); unfold exportable; simpl.
  - split; [exists 0; split; [in_range | reflexivity]|].
    split; [exists 0; split; [in_range | reflexivity]|].
    split; [now right | reflexivity].
  - split; [exists 101; split; [in_range | reflexivity]|].
    split; [exists 7; split; [in_range | reflexivity]|].
    split; [now right | reflexivity].
Qed.

Lemma X8_round_trip_twice_witness :
  id seed0 = "1" /\ bounded seed0 offcentre /\
  (forall b, In b (dom_boxes offcentre) ->
     exportable b /\ JS.trim (firstChild b) <> "") /\
  exists s1 s2,
    upload (Parsed (download offcentre)) page0 = Done s1 /\
    upload (Parsed (download s1)) path123 = Done s2 /\
    boxes s2 = boxes s1 /\ dom_boxes s2 = dom_boxes s1 /\
    totalBoxes s2 = totalBoxes s1 /\
    Permutation (dom_lines s2) (dom_lines s1) /\
    download s2 = download s1.
Proof.
  split; [reflexivity|]. split; [apply bounded_offcentre|].
  split; [apply exportable_offcentre|].
  apply (X8_round_trip_twice seed0 offcentre page0 path123 eq_refl
           bounded_offcentre exportable_offcentre).
Defined.

(** *** The connect menu *)

Lemma insert_id_nat x : forall ns,
  StronglySorted N.le ns ->
  exists ns', insert_id (JS.nat_str x) (map JS.nat_str ns) = map JS.nat_str ns' /\
    Permutation ns' (x :: ns) /\ StronglySorted N.le ns'.
Proof.
  induction ns as [|y r IH]; intros Hs.
  - exists [x]. simpl. repeat split; auto. constructor; constructor.
  - simpl. rewrite !Number_nat_str. simpl JS.sub_pos.
    apply StronglySorted_inv in Hs. destruct Hs as [Hr Hy].
    destruct (Z.ltb_spec 0 (Z.of_N x - Z.of_N y)) as [Hlt|Hge].
    + destruct (IH Hr) as [ns' [E [P S]]]. exists (y :: ns').
      simpl. rewrite E. split; [reflexivity|]. split.
      * rewrite P. apply perm_swap.
      * constructor; [assumption|].
        rewrite Forall_forall in *. intros z Hz.
        apply (Permutation_in _ P) in Hz. destruct Hz as [<-|Hz]; [lia | auto].
    + exists (x :: y :: r). split; [reflexivity|]. split; [reflexivity|].
      constructor; [constructor; assumption|].
      constructor; [lia|]. rewrite Forall_forall in *. intros z Hz.
      specialize (Hy z Hz). lia.
Qed.

Lemma sort_ids_nat ms :
  exists ns, sort_ids (map JS.nat_str ms) = map JS.nat_str ns /\
    Permutation ns ms /\ StronglySorted N.le ns.
Proof.
  induction ms as [|x r [ns [E [P S]]]].
  - exists []. simpl. repeat split; auto. constructor.
  - change (sort_ids (map JS.nat_str (x :: r)))
      with (insert_id (JS.nat_str x) (sort_ids (map JS.nat_str r))).
    rewrite E.
    destruct (insert_id_nat x ns S) as [ns' [E' [P' S']]].
    exists ns'. split; [assumption|]. split; [|assumption].
    rewrite P'. now constructor.
Qed.

Lemma sorted_nodup_lt ns :
  StronglySorted N.le ns -> NoDup ns -> StronglySorted N.lt ns.
Proof.
  induction 1 as [|x r Hr IH Hx]; intros Hn; constructor.
  - apply IH. now inversion Hn.
  - rewrite Forall_forall in *. intros z Hz. specialize (Hx z Hz).
    assert (z <> x) by (intros ->; now inversion Hn). lia.
Qed.

Lemma numerals_list (l : list string) :
  (forall k, In k l -> numeral k) -> exists ms, l = map JS.nat_str ms.
Proof.
  induction l as [|k r IH]; intros H.
  - now exists [].
  - destruct (H k (or_introl eq_refl)) as [n ->].
    destruct IH as [ms ->]; [intros; apply H; now right|].
    now exists (n :: ms).
Qed.

Lemma NoDup_nat_str ms : NoDup (map JS.nat_str ms) -> NoDup ms.
Proof.
  induction ms as [|x r IH]; simpl; intros H; constructor; inversion H; subst.
  - intros Hx. apply H2. now apply in_map.
  - auto.
Qed.

(** The key of a menu item is the id of the line between the two
    boxes, and its endpoints are the two boxes in numeric order. *)
Lemma item_ends n m :
  JS.num_str (num_min (JS.Number (JS.nat_str n)) (JS.Number (JS.nat_str m)))
    = JS.nat_str (N.min n m) /\
  JS.num_str (JS.max (JS.Number (JS.nat_str n)) (JS.Number (JS.nat_str m)))
    = JS.nat_str (N.max n m).
Proof.
  rewrite !Number_nat_str. simpl. rewrite <- !int_str_of_N. split; f_equal; lia.
Qed.

Lemma menu_some s boxId :
  Inv s -> In boxId (keys s) ->
  menu boxId s =
  Some (map (menu_item s boxId)
            (sort_ids (filter (fun i => negb (String.eqb i boxId)) (keys s)))).
Proof.
  intros I K. unfold menu.
  destruct (inv_keys_num s I boxId K) as [n ->].
  replace (String.eqb (JS.nat_str n) "") with false.
  - apply mem_In in K. unfold keys in K. now rewrite K.
  - symmetry. apply String.eqb_neq. intros E.
    pose proof (nat_str_nonempty n) as Hne. now rewrite E in Hne.
Qed.

(** X9. In a state reached with decimal ids below 2^53 (see
    [numbered]; an import may leave ids such as [01], for which this
    does not hold), the connect menu of a box lists every other box
    exactly once and never the box itself, in increasing order of the
    ids; an item is marked connected exactly when the neighbour list
    of the box names its box, and its two data fields spell the id of
    the line between the two boxes. *)
Theorem X9_menu_lists_others (seed : BoxElem) (s : State) (boxId : string) :
  id seed = "1" -> numbered seed s -> In boxId (keys s) ->
  exists items ns,
    menu boxId s = Some items /\
    map item_id items = map JS.nat_str ns /\
    StronglySorted N.lt ns /\
    (forall i, In i (map item_id items) <-> In i (keys s) /\ i <> boxId) /\
    (forall it, In it items ->
       data_a it ++ "_" ++ data_b it = lineIdOf boxId (item_id it) /\
       (data_c it = "1" /\ In (item_id it) (lines_of s boxId) \/
        data_c it = "0" /\ ~ In (item_id it) (lines_of s boxId))).
Proof.
  intros Hseed R K. pose proof (numbered_Inv seed s Hseed R) as I.
  rewrite (menu_some s boxId I K).
  set (F := filter (fun i => negb (String.eqb i boxId)) (keys s)).
  assert (HF : forall i, In i F <-> In i (keys s) /\ i <> boxId).
  { intros i. unfold F. rewrite filter_In, negb_true_iff, String.eqb_neq. tauto. }
  destruct (numerals_list F) as [ms Ems].
  { intros k Hk. apply (inv_keys_num s I). now apply HF. }
  assert (Nms : NoDup ms).
  { apply NoDup_nat_str. rewrite <- Ems. apply NoDup_filter, (inv_keys_nodup s I). }
  destruct (sort_ids_nat ms) as [ns [E [P S]]].
  exists (map (menu_item s boxId) (sort_ids F)), ns.
  assert (Eid : map item_id (map (menu_item s boxId) (sort_ids F)) = map JS.nat_str ns).
  { rewrite map_map. simpl. rewrite map_id, Ems. exact E. }
  split; [reflexivity|]. split; [exact Eid|]. split; [|split].
  - apply sorted_nodup_lt; [assumption|].
    apply (Permutation_NoDup (Permutation_sym P) Nms).
  - intros i. rewrite Eid, <- HF, Ems. split; intros Hi.
    + apply (Permutation_in _ (Permutation_map JS.nat_str P) Hi).
    + apply (Permutation_in _ (Permutation_map JS.nat_str (Permutation_sym P)) Hi).
  - intros it Hit. apply in_map_iff in Hit. destruct Hit as [i [<- Hi]].
    simpl. rewrite Ems, E in Hi. apply in_map_iff in Hi. destruct Hi as [m [<- _]].
    destruct (inv_keys_num s I boxId K) as [n ->].
    split; [apply menu_key|]. unfold isConnected.
    destruct (mem (JS.nat_str m) (lines_of s (JS.nat_str n))) eqn:Em.
    + left. split; [reflexivity|]. now apply mem_In.
    + right. split; [reflexivity|]. now apply mem_false.
Qed.

Lemma X9_menu_lists_others_witness :
  id seed0 = "1" /\ numbered seed0 path123 /\ In "2" (keys path123) /\
  exists items ns,
    menu "2" path123 = Some items /\
    map item_id items = map JS.nat_str ns /\
    StronglySorted N.lt ns /\
    (forall i, In i (map item_id items) <-> In i (keys path123) /\ i <> "2") /\
    (forall it, In it items ->
       data_a it ++ "_" ++ data_b it = lineIdOf "2" (item_id it) /\
       (data_c it = "1" /\ In (item_id it) (lines_of path123 "2") \/
        data_c it = "0" /\ ~ In (item_id it) (lines_of path123 "2"))).
Proof.
  assert (K : In "2" (keys path123)) by (vm_compute; auto).
  split; [reflexivity|]. split; [apply numbered_path123|]. split; [exact K|].
  apply (X9_menu_lists_others seed0 path123 "2" eq_refl numbered_path123 K).
Defined.

Lemma insert_id_perm x l : Permutation (insert_id x l) (x :: l).
Proof.
  induction l as [|y r IH]; simpl; [reflexivity|].
  destruct (JS.sub_pos _ _); [|reflexivity].
  rewrite IH. apply perm_swap.
Qed.

Lemma sort_ids_perm l : Permutation (sort_ids l) l.
Proof.
  induction l as [|x r IH]; [reflexivity|].
  change (sort_ids (x :: r)) with (insert_id x (sort_ids r)).
  rewrite insert_id_perm. now constructor.
Qed.

Lemma item_click_menuClick s a b :
  item_click (menu_item s a b) s = menuClick a b s.
Proof.
  unfold item_click, menu_item, menuClick. simpl.
  destruct (isConnected s a b); reflexivity.
Qed.

(** A click on an item that was not marked connects the two boxes,
    whatever the state has become since the menu was filled. *)
Lemma click_unmarked s0 s a b :
  Inv s -> In a (keys s) -> In b (keys s) -> isConnected s0 a b = false ->
  item_click (menu_item s0 a b) s = newLine a b s.
Proof.
  intros I Ka Kb Hc. unfold item_click, menu_item. simpl. rewrite Hc. simpl.
  destruct (inv_keys_num s I a Ka) as [n ->].
  destruct (inv_keys_num s I b Kb) as [m ->].
  destruct (item_ends n m) as [-> ->].
  destruct (N.le_ge_cases n m) as [H|H].
  - now rewrite N.min_l, N.max_r.
  - rewrite N.min_r, N.max_l by assumption. now apply newLine_sym.
Qed.

(** A click on an item that was marked removes the line between the
    two boxes when there is one. *)
Lemma click_marked s0 s a b :
  Inv s -> numeral a -> numeral b -> isConnected s0 a b = true ->
  item_click (menu_item s0 a b) s =
  if mem (lineIdOf a b) (dom_lines s) then deleteLine (lineIdOf a b) s else s.
Proof.
  intros I [n ->] [m ->] Hc. unfold item_click, menu_item. simpl. rewrite Hc. simpl.
  unfold disconnect. rewrite menu_key.
  rewrite (hasElement_line s _ _ I) by now eexists. reflexivity.
Qed.

Lemma menu_item_in s boxId items it :
  menu boxId s = Some items -> In it items ->
  In boxId (keys s) /\
  exists i, it = menu_item s boxId i /\ In i (keys s) /\ i <> boxId.
Proof.
  unfold menu. intros E Hit.
  destruct (String.eqb boxId "" || negb (mem boxId (map_keys (boxes s)))) eqn:C;
    [discriminate|].
  apply orb_false_iff in C. destruct C as [_ C]. apply negb_false_iff, mem_In in C.
  split; [exact C|]. injection E as <-. apply in_map_iff in Hit.
  destruct Hit as [i [<- Hi]]. exists i. split; [reflexivity|].
  apply (Permutation_in _ (sort_ids_perm _)) in Hi.
  apply filter_In in Hi. destruct Hi as [Hi Hne].
  apply negb_true_iff, String.eqb_neq in Hne. now split.
Qed.

Lemma newLine_other s a b c :
  Inv s -> numeral a -> numeral b -> c <> a -> c <> b ->
  lines_of (newLine a b s) c = lines_of s c.
Proof.
  intros I Na Nb Ha Hb.
  destruct (newLine_cases s a b I Na Nb) as [[-> _]|[Ka [Kb [_ ->]]]]; [reflexivity|].
  unfold lines_of. simpl boxes.
  rewrite get_lines_push.
  - destruct (String.eqb_spec b c); [congruence|].
    rewrite get_lines_push by assumption.
    destruct (String.eqb_spec a c); [congruence | reflexivity].
  - unfold push_line. rewrite <- keys_shape, shape_set_lines, keys_shape. assumption.
Qed.

(** X10. A click on an item of the connect menu, in a state reached
    with decimal ids below 2^53 (see [numbered]).  When the item's box
    was not in the neighbour list, the two boxes are connected
    afterwards; when both boxes listed each other, the connection is
    gone; when only the menu's box listed the other (a reference an
    import left over), the click changes nothing.  The neighbour
    lists of all other boxes are as before, the state is again one of
    these states, and a second click on the same, now stale, item has
    no further effect. *)
Theorem X10_menu_click (seed : BoxElem) (s : State) (boxId : string)
    (items : list MenuItem) (it : MenuItem) :
  id seed = "1" -> numbered seed s ->
  menu boxId s = Some items -> In it items ->
  let i := item_id it in
  let s' := item_click it s in
  numbered seed s' /\
  item_click it s' = s' /\
  (forall c, c <> boxId -> c <> i -> lines_of s' c = lines_of s c) /\
  (~ In i (lines_of s boxId) ->
     In i (lines_of s' boxId) /\ In boxId (lines_of s' i) /\
     In (lineIdOf boxId i) (dom_lines s')) /\
  (In i (lines_of s boxId) -> In boxId (lines_of s i) ->
     ~ In i (lines_of s' boxId) /\ ~ In boxId (lines_of s' i) /\
     ~ In (lineIdOf boxId i) (dom_lines s')) /\
  (In i (lines_of s boxId) -> ~ In boxId (lines_of s i) -> s' = s).
Proof.
  intros Hseed R Em Hit.
  destruct (menu_item_in s boxId items it Em Hit) as [Ka [b [-> [Kb Hne]]]].
  simpl item_id. cbv zeta.
  pose proof (numbered_Inv seed s Hseed R) as I.
  pose proof (inv_keys_num s I boxId Ka) as Na.
  pose proof (inv_keys_num s I b Kb) as Nb.
  split.
  { rewrite item_click_menuClick. now apply menuClick_numbered. }
  destruct (isConnected s boxId b) eqn:C.
  - (* marked *)
    rewrite (click_marked s s boxId b I Na Nb C).
    pose proof (proj1 (mem_In _ _) C) as Hab.
    destruct (mem (lineIdOf boxId b) (dom_lines s)) eqn:L.
    + apply mem_In in L.
      pose proof (Inv_deleteLine s _ I L) as I'.
      assert (Hgone : ~ In (lineIdOf boxId b) (dom_lines (deleteLine (lineIdOf boxId b) s))).
      { destruct (lineIdOf_split boxId b Na Nb) as [E|E];
          rewrite (deleteLine_split _ _ _ s E); simpl;
          rewrite (remove_first_in _ _ _ (inv_lines_nodup s I)); tauto. }
      assert (Hex : (lines_of (deleteLine (lineIdOf boxId b) s) boxId =
                       filter (fun i => negb (String.eqb i b)) (lines_of s boxId)) /\
                    (lines_of (deleteLine (lineIdOf boxId b) s) b =
                       filter (fun i => negb (String.eqb i boxId)) (lines_of s b)) /\
                    (forall c, c <> boxId -> c <> b ->
                       lines_of (deleteLine (lineIdOf boxId b) s) c = lines_of s c)).
      { destruct (lineIdOf_split boxId b Na Nb) as [E|E];
          destruct (deleteLine_pair_exact s _ _ _ E) as [H1 [H2 [H3 _]]];
          repeat split; auto. }
      destruct Hex as [H1 [H2 H3]].
      split; [|split; [exact H3|split; [tauto|split]]].
      * rewrite (click_marked s _ boxId b I' Na Nb C).
        apply mem_false in Hgone. now rewrite Hgone.
      * intros _ _. split; [|split; [|exact Hgone]].
        -- rewrite H1, filter_In, String.eqb_refl. simpl. intros [_ H]. discriminate.
        -- rewrite H2, filter_In, String.eqb_refl. simpl. intros [_ H]. discriminate.
      * intros _ Hba. exfalso. apply Hba.
        destruct (inv_lines_sound s I _ L) as [p [q [Kp [Kq [El [Hpq Hqp]]]]]].
        apply lineIdOf_inj in El; try assumption;
          try (now apply (inv_keys_num s I)).
        destruct El as [[-> ->]|[-> ->]]; assumption.
    + apply mem_false in L.
      split; [|split; [reflexivity|split; [tauto|split]]].
      * rewrite (click_marked s s boxId b I Na Nb C).
        apply mem_false in L. now rewrite L.
      * intros _ Hba. exfalso. apply L. now apply (Inv_complete s boxId b I).
      * reflexivity.
  - (* not marked *)
    rewrite (click_unmarked s s boxId b I Ka Kb C).
    pose proof (proj1 (mem_false _ _) C) as Hab.
    destruct (newLine_connects s boxId b I Ka Kb) as [Hl [H1 [H2 [Hi _]]]].
    split; [|split; [|split; [|split]]].
    + rewrite (click_unmarked s _ boxId b (Inv_newLine s _ _ I Na Nb));
        [exact Hi | now rewrite newLine_keys | now rewrite newLine_keys | exact C].
    + intros c Hc1 Hc2. now apply newLine_other.
    + intros _. repeat split; assumption.
    + intros H. now destruct Hab.
    + intros H. now destruct Hab.
Qed.

Lemma X10_menu_click_witness :
  id seed0 = "1" /\ numbered seed0 path123 /\
  menu "2" path123 = Some [menu_item path123 "2" "1"; menu_item path123 "2" "3"] /\
  In (menu_item path123 "2" "3")
     [menu_item path123 "2" "1"; menu_item path123 "2" "3"] /\
  let it := menu_item path123 "2" "3" in
  let i := item_id it in
  let s' := item_click it path123 in
  numbered seed0 s' /\
  item_click it s' = s' /\
  (forall c, c <> "2" -> c <> i -> lines_of s' c = lines_of path123 c) /\
  (~ In i (lines_of path123 "2") ->
     In i (lines_of s' "2") /\ In "2" (lines_of s' i) /\
     In (lineIdOf "2" i) (dom_lines s')) /\
  (In i (lines_of path123 "2") -> In "2" (lines_of path123 i) ->
     ~ In i (lines_of s' "2") /\ ~ In "2" (lines_of s' i) /\
     ~ In (lineIdOf "2" i) (dom_lines s')) /\
  (In i (lines_of path123 "2") -> ~ In "2" (lines_of path123 i) -> s' = path123).
Proof.
  assert (E : menu "2" path123 =
              Some [menu_item path123 "2" "1"; menu_item path123 "2" "3"])
    by (vm_compute; reflexivity).
  assert (H : In (menu_item path123 "2" "3")
                 [menu_item path123 "2" "1"; menu_item path123 "2" "3"])
    by (right; left; reflexivity).
  split; [reflexivity|]. split; [apply numbered_path123|].
  split; [exact E|]. split; [exact H|].
  apply (X10_menu_click seed0 path123 "2" _ _ eq_refl numbered_path123 E H).
Defined.

(** *** Colours *)

Lemma to_int32_small z : - 2 ^ 31 <= z < 2 ^ 31 -> to_int32 z = z.
Proof. intros H. unfold to_int32. rewrite Z.mod_small; lia. Qed.

Lemma shl_small x k :
  0 <= x < 256 -> 0 <= k <= 16 -> shl x k = x * 2 ^ k.
Proof.
  intros Hx Hk. unfold shl.
  assert (H16 : 2 ^ k <= 2 ^ 16) by (apply Z.pow_le_mono_r; lia).
  assert (Hp : 0 < 2 ^ k) by (apply Z.pow_pos_nonneg; lia).
  change (2 ^ 16) with 65536 in H16.
  rewrite (to_int32_small x) by lia.
  rewrite (Z.mod_small k 32) by lia.
  rewrite Z.shiftl_mul_pow2 by lia.
  apply to_int32_small. nia.
Qed.

(** Bits that do not overlap are added by [|]. *)
Lemma lor_disjoint a b k :
  0 <= k -> 0 <= b < 2 ^ k -> Z.lor (a * 2 ^ k) b = a * 2 ^ k + b.
Proof.
  intros Hk Hb.
  assert (Hl : Z.land (a * 2 ^ k) b = 0).
  { rewrite <- (Z.mod_small b (2 ^ k)) by assumption.
    rewrite <- Z.land_ones by assumption.
    rewrite (Z.land_comm b), Z.land_assoc, Z.land_ones by assumption.
    rewrite Z.mod_mul by lia. apply Z.land_0_l. }
  rewrite <- Z.lxor_lor by assumption. symmetry. now apply Z.add_nocarry_lxor.
Qed.

Lemma packed r g b :
  0 <= r <= 255 -> 0 <= g <= 255 -> 0 <= b <= 255 ->
  bor (bor (bor (shl 1 24) (shl r 16)) (shl g 8)) b =
  ((256 + r) * 256 + g) * 256 + b.
Proof.
  intros Hr Hg Hb. unfold bor.
  change (shl 1 24) with 16777216.
  rewrite (shl_small r 16), (shl_small g 8) by lia.
  change (2 ^ 16) with 65536. change (2 ^ 8) with 256.
  rewrite (to_int32_small 16777216), (to_int32_small (r * 65536)) by lia.
  replace 16777216 with (256 * 2 ^ 16) by reflexivity.
  replace (r * 65536) with (r * 2 ^ 16) by reflexivity.
  assert (E1 : Z.lor (256 * 2 ^ 16) (r * 2 ^ 16) = (256 + r) * 65536).
  { rewrite <- !Z.shiftl_mul_pow2, <- Z.shiftl_lor by lia.
    replace 256 with (1 * 2 ^ 8) by reflexivity.
    rewrite lor_disjoint by (change (2 ^ 8) with 256; lia).
    rewrite Z.shiftl_mul_pow2 by lia. reflexivity. }
  rewrite E1.
  rewrite (to_int32_small ((256 + r) * 65536)), (to_int32_small (g * 256)) by lia.
  replace ((256 + r) * 65536) with (((256 + r) * 256) * 2 ^ 8) by (change (2 ^ 8) with 256; lia).
  replace (g * 256) with (g * 2 ^ 8) by reflexivity.
  assert (E2 : Z.lor ((256 + r) * 256 * 2 ^ 8) (g * 2 ^ 8) = ((256 + r) * 256 + g) * 256).
  { rewrite <- !Z.shiftl_mul_pow2, <- Z.shiftl_lor by lia.
    replace ((256 + r) * 256) with ((256 + r) * 2 ^ 8) by reflexivity.
    rewrite lor_disjoint by (change (2 ^ 8) with 256; lia).
    rewrite Z.shiftl_mul_pow2 by lia. reflexivity. }
  rewrite E2.
  rewrite (to_int32_small (((256 + r) * 256 + g) * 256)), (to_int32_small b) by lia.
  replace (((256 + r) * 256 + g) * 256) with (((256 + r) * 256 + g) * 2 ^ 8) by reflexivity.
  rewrite lor_disjoint by (change (2 ^ 8) with 256; lia).
  reflexivity.
Qed.

(** Two more digits in front: the digits of a number with a further
    byte are the digits of the number followed by those of the byte. *)
Lemma hex_of_byte f m c acc :
  1 <= m -> 0 <= c <= 255 ->
  hex_of (S (S f)) (m * 256 + c) acc =
  hex_of f m (String (hex_digit (c / 16)) (String (hex_digit (c mod 16)) acc)).
Proof.
  intros Hm Hc.
  assert (E1 : (m * 256 + c) mod 16 = c mod 16).
  { replace (m * 256 + c) with (c + (m * 16) * 16) by lia. apply Z.mod_add. lia. }
  assert (E2 : (m * 256 + c) / 16 = m * 16 + c / 16).
  { replace (m * 256 + c) with (c + (m * 16) * 16) by lia.
    rewrite Z.div_add by lia. lia. }
  assert (Hq : 0 <= c / 16 < 16).
  { split; [apply Z.div_pos; lia | apply Z.div_lt_upper_bound; lia]. }
  assert (E3 : (m * 16 + c / 16) mod 16 = c / 16).
  { rewrite Z.add_comm, Z.mod_add by lia. apply Z.mod_small. assumption. }
  assert (E4 : (m * 16 + c / 16) / 16 = m).
  { rewrite Z.add_comm, Z.div_add by lia. rewrite (Z.div_small (c / 16)) by assumption. lia. }
  change (hex_of (S (S f)) (m * 256 + c) acc) with
    (if m * 256 + c <? 16 then String (hex_digit ((m * 256 + c) mod 16)) acc
     else hex_of (S f) ((m * 256 + c) / 16)
            (String (hex_digit ((m * 256 + c) mod 16)) acc)).
  destruct (Z.ltb_spec (m * 256 + c) 16); [lia|].
  rewrite E1, E2.
  change (hex_of (S f) (m * 16 + c / 16) (String (hex_digit (c mod 16)) acc)) with
    (if m * 16 + c / 16 <? 16
     then String (hex_digit ((m * 16 + c / 16) mod 16)) (String (hex_digit (c mod 16)) acc)
     else hex_of f ((m * 16 + c / 16) / 16)
            (String (hex_digit ((m * 16 + c / 16) mod 16))
                    (String (hex_digit (c mod 16)) acc))).
  destruct (Z.ltb_spec (m * 16 + c / 16) 16); [lia|].
  now rewrite E3, E4.
Qed.

Lemma toString16_packed r g b :
  0 <= r <= 255 -> 0 <= g <= 255 -> 0 <= b <= 255 ->
  toString16 (((256 + r) * 256 + g) * 256 + b) =
  String "1" (String (hex_digit (r / 16)) (String (hex_digit (r mod 16))
    (String (hex_digit (g / 16)) (String (hex_digit (g mod 16))
      (String (hex_digit (b / 16)) (String (hex_digit (b mod 16)) "")))))).
Proof.
  intros Hr Hg Hb. unfold toString16.
  set (n := ((256 + r) * 256 + g) * 256 + b).
  destruct (Z.ltb_spec n 0); [unfold n in *; lia|].
  assert (El : Z.log2 n = 24).
  { apply Z.log2_unique; [lia|]. change (2 ^ 24) with 16777216.
    change (2 ^ (24 + 1)) with 33554432. unfold n. lia. }
  rewrite El. change (S (Z.to_nat 24)) with 25%nat. unfold n.
  rewrite (hex_of_byte 23) by lia.
  rewrite (hex_of_byte 21) by lia.
  replace (256 + r) with (1 * 256 + r) by lia.
  rewrite (hex_of_byte 19) by lia.
  reflexivity.
Qed.

(** X11. For colour channels between 0 and 255, [rgbToHex] gives [#]
    followed by the two upper-case hexadecimal digits of the red, the
    green and the blue channel. *)
Theorem X11_rgbToHex_digits (r g b : Z) :
  0 <= r <= 255 -> 0 <= g <= 255 -> 0 <= b <= 255 ->
  rgbToHex r g b = "#" ++ hex2 r ++ hex2 g ++ hex2 b.
Proof.
  intros Hr Hg Hb. unfold rgbToHex.
  rewrite packed, toString16_packed by assumption. reflexivity.
Qed.

Lemma X11_rgbToHex_digits_witness :
  0 <= 241 <= 255 /\ 0 <= 10 <= 255 /\ 0 <= 255 <= 255 /\
  rgbToHex 241 10 255 = "#" ++ hex2 241 ++ hex2 10 ++ hex2 255.
Proof.
  split; [lia|]. split; [lia|]. split; [lia|].
  apply (X11_rgbToHex_digits 241 10 255); lia.
Defined.

Lemma ws_not_digit c : JS.is_ws c = true -> JS.is_digit c = false.
Proof.
  intros H. destruct (JS.is_digit c) eqn:E; [|reflexivity].
  apply digit_not_ws in E. congruence.
Qed.

Lemma parseInt_nat_str n : JS.parseInt (JS.nat_str n) = JS.Fin (Z.of_N n).
Proof.
  pose proof (nat_str_digits n) as Hd. pose proof (nat_str_nonempty n) as Hne.
  pose proof (nonempty_digits_nat_str n) as Hv.
  assert (Ht : JS.take_digits (JS.nat_str n) = JS.nat_str n).
  { rewrite <- (append_empty (JS.nat_str n)) at 1.
    clear Hne Hv. induction (JS.nat_str n) as [|c r IH]; simpl in *; [reflexivity|].
    apply andb_true_iff in Hd. destruct Hd as [Hc Hr]. now rewrite Hc, (IH Hr). }
  unfold JS.parseInt.
  destruct (JS.nat_str n) as [|c r] eqn:E; [congruence|].
  simpl in Hd. apply andb_true_iff in Hd. destruct Hd as [Hc _].
  assert (Hw : JS.skip_ws (String c r) = String c r).
  { simpl. now rewrite (digit_not_ws _ Hc). }
  rewrite Hw, (signed_digit c _ _ Hc), Ht, Hv. reflexivity.
Qed.

(** Strings that [trim] keeps at their end. *)
Lemma drop_ws_end_app x y :
  JS.drop_ws_end y = y /\ y <> "" ->
  JS.drop_ws_end (x ++ y) = x ++ y /\ x ++ y <> "".
Proof.
  intros [Hy Hne]. induction x as [|a x [IH1 IH2]]; [now split|].
  split; [|discriminate]. simpl. rewrite IH1.
  destruct (x ++ y); [congruence | reflexivity].
Qed.

Lemma skip_ws_app w x :
  all_ws w = true -> JS.skip_ws (w ++ x) = JS.skip_ws x.
Proof.
  induction w as [|c r IH]; simpl; [reflexivity|].
  intros H. apply andb_true_iff in H. destruct H as [Hc Hr]. now rewrite Hc, IH.
Qed.

Lemma skip_ws_digits d x :
  all_digits d = true -> d <> "" -> JS.skip_ws (d ++ x) = d ++ x.
Proof.
  destruct d as [|c r]; [congruence|]. simpl. intros H _.
  apply andb_true_iff in H. destruct H as [Hc _]. now rewrite (digit_not_ws _ Hc).
Qed.

Lemma take_digits_app d y :
  all_digits d = true -> JS.take_digits y = "" -> JS.take_digits (d ++ y) = d.
Proof.
  intros Hd Hy. induction d as [|c r IH]; simpl; [assumption|].
  simpl in Hd. apply andb_true_iff in Hd. destruct Hd as [Hc Hr]. now rewrite Hc, IH.
Qed.

Lemma drop_digits_app d y :
  all_digits d = true -> JS.take_digits y = "" -> drop_digits (d ++ y) = y.
Proof.
  intros Hd Hy. induction d as [|c r IH]; simpl.
  - destruct y as [|c r]; [reflexivity|]. simpl in *.
    destruct (JS.is_digit c); [discriminate | reflexivity].
  - simpl in Hd. apply andb_true_iff in Hd. destruct Hd as [Hc Hr]. now rewrite Hc, IH.
Qed.

Lemma strip_prefix_app p r : strip_prefix p (p ++ r) = Some r.
Proof. induction p as [|c p IH]; simpl; [reflexivity|]. now rewrite Ascii.eqb_refl. Qed.

(** A number in the text is matched with the white space in front
    of it and the separator behind it. *)
Lemma number_then_ok sep w d r :
  all_ws w = true -> all_digits d = true -> d <> "" ->
  JS.take_digits (sep ++ r) = "" ->
  number_then sep (w ++ d ++ sep ++ r) = Some (d, r).
Proof.
  intros Hw Hd Hne Hs. unfold number_then.
  rewrite (skip_ws_app w _ Hw), (skip_ws_digits d _ Hd Hne).
  rewrite (take_digits_app d _ Hd Hs), (drop_digits_app d _ Hd Hs), strip_prefix_app.
  destruct d; [congruence | reflexivity].
Qed.

Lemma take_digits_ws_close w :
  all_ws w = true -> JS.take_digits (w ++ ")") = "".
Proof.
  destruct w as [|c r]; simpl; [reflexivity|].
  intros H. apply andb_true_iff in H. destruct H as [Hc _].
  now rewrite (ws_not_digit _ Hc).
Qed.

(** X12. A colour in the notation [rgb(r, g, b)], with channels from
    0 to 255 and any white space in front of the numbers and of the
    closing parenthesis, is converted to [#] and the upper-case
    hexadecimal digits of the three channels. *)
Theorem X12_colorToHex_rgb (hslToHex : Z -> Z -> Z -> string)
    (r g b : N) (w1 w2 w3 w4 : string) :
  all_ws w1 = true -> all_ws w2 = true -> all_ws w3 = true -> all_ws w4 = true ->
  (r <= 255)%N -> (g <= 255)%N -> (b <= 255)%N ->
  colorToHex hslToHex
    ("rgb(" ++ w1 ++ JS.nat_str r ++ "," ++ w2 ++ JS.nat_str g ++ "," ++
     w3 ++ JS.nat_str b ++ w4 ++ ")")
  = "#" ++ hex2 (Z.of_N r) ++ hex2 (Z.of_N g) ++ hex2 (Z.of_N b).
Proof.
  intros H1 H2 H3 H4 Hr Hg Hb.
  set (t3 := w3 ++ JS.nat_str b ++ w4 ++ ")").
  set (t2 := w2 ++ JS.nat_str g ++ "," ++ t3).
  set (t1 := w1 ++ JS.nat_str r ++ "," ++ t2).
  assert (Hm : triple_here "rgb(" "," "" ("rgb(" ++ t1)
               = Some (JS.nat_str r, JS.nat_str g, JS.nat_str b)).
  { unfold triple_here. rewrite strip_prefix_app. unfold t1.
    rewrite (number_then_ok "," w1 (JS.nat_str r) t2 H1 (nat_str_digits r)
               (nat_str_nonempty r) eq_refl).
    unfold t2.
    rewrite (number_then_ok "," w2 (JS.nat_str g) t3 H2 (nat_str_digits g)
               (nat_str_nonempty g) eq_refl).
    unfold t3.
    change (w3 ++ JS.nat_str b ++ w4 ++ ")")
      with (w3 ++ JS.nat_str b ++ "" ++ (w4 ++ ")")).
    rewrite (number_then_ok "" w3 (JS.nat_str b) (w4 ++ ")") H3 (nat_str_digits b)
               (nat_str_nonempty b) (take_digits_ws_close w4 H4)).
    rewrite (skip_ws_app w4 ")" H4). reflexivity. }
  assert (Ht : JS.trim ("rgb(" ++ t1) = "rgb(" ++ t1).
  { unfold JS.trim. change (JS.skip_ws ("rgb(" ++ t1)) with ("rgb(" ++ t1).
    apply drop_ws_end_app. unfold t1, t2, t3.
    repeat apply drop_ws_end_app. split; [reflexivity | discriminate]. }
  unfold colorToHex. rewrite Ht. cbv zeta.
  change (String.eqb ("rgb(" ++ t1) "") with false.
  change (startsWith ("rgb(" ++ t1) "#") with false.
  change (startsWith ("rgb(" ++ t1) "rgb") with true. cbv iota.
  assert (Hs : search (triple_here "rgb(" "," "") ("rgb(" ++ t1)
               = Some (JS.nat_str r, JS.nat_str g, JS.nat_str b)).
  { change ("rgb(" ++ t1) with (String "r" ("gb(" ++ t1)) in *.
    unfold search; fold (@search (string * string * string)). now rewrite Hm. }
  rewrite Hs. unfold group_value. rewrite !parseInt_nat_str. simpl JS.or_zero.
  unfold rgbToHex. rewrite packed, toString16_packed by lia. reflexivity.
Qed.

Lemma X12_colorToHex_rgb_witness :
  all_ws "" = true /\ all_ws " " = true /\ all_ws " " = true /\ all_ws "" = true /\
  (241 <= 255)%N /\ (10 <= 255)%N /\ (255 <= 255)%N /\
  colorToHex (fun _ _ _ => "")
    ("rgb(" ++ "" ++ JS.nat_str 241 ++ "," ++ " " ++ JS.nat_str 10 ++ "," ++
     " " ++ JS.nat_str 255 ++ "" ++ ")")
  = "#" ++ hex2 (Z.of_N 241) ++ hex2 (Z.of_N 10) ++ hex2 (Z.of_N 255).
Proof.
  repeat (split; [first [reflexivity | lia]|]).
  apply (X12_colorToHex_rgb (fun _ _ _ => "") 241 10 255 "" " " " " "");
    first [reflexivity | lia].
Defined.

Lemma upper_ws c : JS.is_ws (upper c) = JS.is_ws c.
Proof. destruct c as [[|] [|] [|] [|] [|] [|] [|] [|]]; reflexivity. Qed.

Lemma upper_idem c : upper (upper c) = upper c.
Proof. destruct c as [[|] [|] [|] [|] [|] [|] [|] [|]]; reflexivity. Qed.

Lemma toUpperCase_idem s : toUpperCase (toUpperCase s) = toUpperCase s.
Proof. induction s as [|c r IH]; simpl; [reflexivity|]. now rewrite upper_idem, IH. Qed.

Lemma toUpperCase_length s : String.length (toUpperCase s) = String.length s.
Proof. induction s as [|c r IH]; simpl; congruence. Qed.

Lemma toUpperCase_skip_ws s : JS.skip_ws (toUpperCase s) = toUpperCase (JS.skip_ws s).
Proof.
  induction s as [|c r IH]; simpl; [reflexivity|].
  rewrite upper_ws. destruct (JS.is_ws c); [assumption | reflexivity].
Qed.

Lemma toUpperCase_drop_ws_end s :
  JS.drop_ws_end (toUpperCase s) = toUpperCase (JS.drop_ws_end s).
Proof.
  induction s as [|c r IH]; simpl; [reflexivity|].
  rewrite IH, upper_ws.
  destruct (JS.drop_ws_end r); simpl; [destruct (JS.is_ws c)|]; reflexivity.
Qed.

Lemma toUpperCase_trim s : JS.trim (toUpperCase s) = toUpperCase (JS.trim s).
Proof. unfold JS.trim. now rewrite toUpperCase_skip_ws, toUpperCase_drop_ws_end. Qed.

Lemma startsWith_hash s :
  startsWith s "#" = true -> exists r, s = String "#" r.
Proof.
  unfold startsWith. destruct s as [|c r]; [discriminate|].
  unfold strip_prefix.
  destruct (Ascii.eqb_spec "#"%char c) as [<-|]; [eauto | discriminate].
Qed.

(** X13. An ASCII colour text which, trimmed, starts with [#] and has
    four or seven characters is converted to the trimmed text in upper
    case, whether or not the characters after [#] are hexadecimal
    digits, and the result is a fixed point of the conversion. *)
Theorem X13_colorToHex_hash (hslToHex : Z -> Z -> Z -> string) (color : string) :
  ascii_text color = true ->
  startsWith (JS.trim color) "#" = true ->
  String.length (JS.trim color) = 4%nat \/ String.length (JS.trim color) = 7%nat ->
  colorToHex hslToHex color = toUpperCase (JS.trim color) /\
  colorToHex hslToHex (colorToHex hslToHex color) = colorToHex hslToHex color.
Proof.
  intros _ Hs Hl.
  assert (Hlen : forall t, String.length t = 4%nat \/ String.length t = 7%nat ->
            (Nat.eqb (String.length t) 4 || Nat.eqb (String.length t) 7)%bool = true).
  { intros t [-> | ->]; reflexivity. }
  assert (E : forall c, startsWith (JS.trim c) "#" = true ->
            String.length (JS.trim c) = 4%nat \/ String.length (JS.trim c) = 7%nat ->
            colorToHex hslToHex c = toUpperCase (JS.trim c)).
  { intros c Hc Hn. unfold colorToHex. cbv zeta. rewrite Hc, (Hlen _ Hn).
    destruct (startsWith_hash _ Hc) as [r ->]. reflexivity. }
  rewrite (E color Hs Hl). split; [reflexivity|].
  assert (Ht : JS.trim (toUpperCase (JS.trim color)) = toUpperCase (JS.trim color)).
  { now rewrite toUpperCase_trim, trim_idem. }
  rewrite E; rewrite Ht.
  - apply toUpperCase_idem.
  - destruct (startsWith_hash _ Hs) as [r ->]. reflexivity.
  - now rewrite toUpperCase_length.
Qed.

Lemma X13_colorToHex_hash_witness :
  ascii_text " #f1f1zz " = true /\
  startsWith (JS.trim " #f1f1zz ") "#" = true /\
  (String.length (JS.trim " #f1f1zz ") = 4%nat \/
   String.length (JS.trim " #f1f1zz ") = 7%nat) /\
  colorToHex (fun _ _ _ => "") " #f1f1zz " = toUpperCase (JS.trim " #f1f1zz ") /\
  colorToHex (fun _ _ _ => "") (colorToHex (fun _ _ _ => "") " #f1f1zz ")
    = colorToHex (fun _ _ _ => "") " #f1f1zz ".
Proof.
  split; [reflexivity|]. split; [reflexivity|]. split; [right; reflexivity|].
  apply (X13_colorToHex_hash (fun _ _ _ => "") " #f1f1zz " eq_refl eq_refl
           (or_intror eq_refl)).
Defined.

(** *** Imports of documents outside the serialised format *)

Lemma keys_map_set k e m :
  map_keys (map_set k e m) =
  if mem k (map_keys m) then map_keys m else (map_keys m ++ [k])%list.
Proof.
  induction m as [|[k' e'] r IH]; simpl; [reflexivity|].
  destruct (String.eqb_spec k k') as [->|Hne]; simpl; [reflexivity|].
  rewrite IH. unfold mem. destruct (existsb (String.eqb k) (map_keys r)); reflexivity.
Qed.

Lemma keys_map_set_twice k e1 e2 m :
  map_keys (map_set k e2 (map_set k e1 m)) = map_keys (map_set k e1 m).
Proof.
  rewrite (keys_map_set k e2). rewrite (keys_map_set k e1).
  destruct (mem k (map_keys m)) eqn:E.
  - now rewrite E.
  - replace (mem k (map_keys m ++ [k])) with true; [reflexivity|].
    symmetry. apply mem_In. apply in_or_app. right. now left.
Qed.

Lemma requested_some v w : requested v = Some w -> v = Some w.
Proof. destruct v as [[]|]; simpl; congruence. Qed.

Lemma id_text_convertible w : id_text w -> Json.convertible w = true.
Proof. intros [[t [-> _]]|[z [-> _]]]; reflexivity. Qed.

(** The first pass on an element for which it returns, in terms of
    the box [createNewBlock] makes. *)
Lemma restore_box_loadable e s s1 nb :
  loadable e -> created e s = (s1, nb) ->
  exists b, id b = id nb /\
    restore_box e s =
      Done (mkState (map_set (id nb) (mkEntry b (restored_lines e)) (boxes s1))
                    (totalBoxes s1) (set_last b (dom_boxes s1)) (dom_lines s1)).
Proof.
  intros [Hn [C1 [C2 [C3 [C4 [Hid Hl]]]]]] Ec.
  assert (C5 : Json.converts (requested (Json.prop e "id")) = true).
  { destruct (requested (Json.prop e "id")) as [w|] eqn:E; [|reflexivity].
    simpl. now apply id_text_convertible, Hid. }
  assert (C6 : forall a, Json.prop e "lines" = Some (JArr a) ->
                 forallb Json.convertible a = true).
  { intros a Ha. apply forallb_forall. intros x Hx.
    now apply id_text_convertible, (Hl a Ha). }
  set (b := if Json.truthy (Json.opt_prop (Json.prop e "style") "backgroundColor")
            then set_backgroundColor
                   (Json.String (Json.opt_prop (Json.prop e "style") "backgroundColor")) nb
            else nb).
  assert (Hb : id b = id nb).
  { unfold b. destruct (Json.truthy _); [|reflexivity].
    unfold set_backgroundColor. destruct (css_rgb _); reflexivity. }
  exists b. split; [exact Hb|].
  assert (E : restore_box e s = restore_fields e s)
    by (destruct e; [congruence | reflexivity..]).
  rewrite E. unfold restore_fields.
  rewrite C1, C2, C5. simpl negb. cbv iota. cbv zeta.
  unfold created in Ec. rewrite Ec.
  rewrite C4. simpl negb. cbv iota. rewrite C3. simpl negb.
  rewrite andb_false_r. cbv iota. fold b.
  unfold restored_lines.
  destruct (Json.prop e "lines") as [[]|] eqn:El; try reflexivity.
  now rewrite (C6 _ eq_refl).
Qed.

(** The first pass on an element with an id, whatever the id is. *)
Lemma restore_box_ids e s :
  loadable e -> requested (Json.prop e "id") <> None ->
  exists s1, restore_box e s = Done s1 /\
    keys s1 = (if mem (box_id e) (keys s) then keys s
               else (keys s ++ [box_id e])%list) /\
    map id (dom_boxes s1) = (map id (dom_boxes s) ++ [box_id e])%list.
Proof.
  intros L Hr.
  destruct (requested (Json.prop e "id")) as [w|] eqn:Hreq; [|congruence].
  assert (Hk : Json.str w = box_id e).
  { unfold box_id. now rewrite (requested_some _ _ Hreq). }
  destruct (created e s) as [s1 nb] eqn:Ec.
  destruct (restore_box_loadable e s s1 nb L Ec) as [b [Hb E]].
  unfold created in Ec.
  rewrite Hreq in Ec. unfold createNewBlock in Ec. simpl option_map in Ec.
  cbv beta iota zeta in Ec. rewrite Hk in Ec.
  injection Ec; intros <- <-.
  eexists. split; [exact E|]. unfold keys. simpl boxes. simpl dom_boxes.
  simpl id. split.
  - rewrite keys_map_set_twice. apply keys_map_set.
  - rewrite set_last_app, !map_app. simpl. now rewrite Hb.
Qed.

Lemma filter_twice_ext (f g : string -> bool) l :
  (forall x, f x = true -> g x = true) -> filter f (filter g l) = filter f l.
Proof.
  intros H. induction l as [|x r IH]; simpl; [reflexivity|].
  destruct (g x) eqn:Eg; simpl.
  - now rewrite IH.
  - destruct (f x) eqn:Ef; [rewrite (H x Ef) in Eg; discriminate | assumption].
Qed.

Lemma filter_filter_and (f g : string -> bool) l :
  filter f (filter g l) = filter (fun x => f x && g x) l.
Proof.
  induction l as [|x r IH]; simpl; [reflexivity|].
  destruct (g x); simpl; rewrite ?andb_true_r, ?andb_false_r; [|assumption].
  destruct (f x); now rewrite IH.
Qed.

Lemma mem_app_last x k l : mem x (l ++ [k]) = mem x l || String.eqb x k.
Proof. unfold mem. rewrite existsb_app. simpl. now rewrite orb_false_r. Qed.

Lemma restore_boxes_ids bs : forall s,
  (forall e, In e bs -> loadable e /\ requested (Json.prop e "id") <> None) ->
  exists s1, restore_boxes bs s = Done s1 /\
    keys s1 = (keys s ++ filter (fun x => negb (mem x (keys s)))
                                (dedupe (map box_id bs)))%list /\
    map id (dom_boxes s1) = (map id (dom_boxes s) ++ map box_id bs)%list.
Proof.
  induction bs as [|e r IH]; intros s H.
  - exists s. simpl. now rewrite !List.app_nil_r.
  - destruct (H e (or_introl eq_refl)) as [Hn Hr].
    destruct (restore_box_ids e s Hn Hr) as [sm [E [Hk Hd]]].
    destruct (IH sm) as [s1 [E1 [Hk1 Hd1]]]; [intros; apply H; now right|].
    exists s1. simpl restore_boxes. rewrite E. split; [exact E1|]. split.
    + rewrite Hk1, Hk. simpl map. simpl dedupe. simpl filter.
      destruct (mem (box_id e) (keys s)) eqn:M; simpl.
      * f_equal. symmetry. apply filter_twice_ext. intros x Hx.
        apply negb_true_iff. apply String.eqb_neq. intros ->.
        rewrite M in Hx. discriminate.
      * rewrite <- List.app_assoc. simpl. do 2 f_equal.
        rewrite filter_filter_and. apply filter_ext. intros x.
        rewrite mem_app_last, negb_orb. reflexivity.
    + rewrite Hd1, Hd, <- List.app_assoc. reflexivity.
Qed.

Lemma link_each_frame (k : option json) (ls : list json) : forall s,
  let s' := final (link_each k ls s) in
  shape (boxes s') = shape (boxes s) /\
  totalBoxes s' = totalBoxes s /\
  dom_boxes s' = dom_boxes s.
Proof.
  induction ls as [|x r IH]; intros s; simpl; [auto|].
  destruct (Json.converts k && Json.convertible x); [|simpl; auto].
  destruct (IH (newLine (Json.String k) (Json.str x) s)) as [H1 [H2 H3]].
  destruct (newLine_frame (Json.String k) (Json.str x) s) as [F1 [F2 F3]].
  cbv zeta in *. rewrite H1, H2, H3. auto.
Qed.

Lemma reconnect_box_frame e s :
  shape (boxes (final (reconnect_box e s))) = shape (boxes s) /\
  totalBoxes (final (reconnect_box e s)) = totalBoxes s /\
  dom_boxes (final (reconnect_box e s)) = dom_boxes s.
Proof.
  unfold reconnect_box.
  destruct (forEach_target (Json.prop e "lines")) as [ls|] eqn:F;
    destruct e; simpl; auto; apply link_each_frame.
Qed.

(** The second pass of an import changes no box, whether it runs to
    its end or throws. *)
Lemma reconnect_boxes_frame bs : forall s,
  shape (boxes (final (reconnect_boxes bs s))) = shape (boxes s) /\
  totalBoxes (final (reconnect_boxes bs s)) = totalBoxes s /\
  dom_boxes (final (reconnect_boxes bs s)) = dom_boxes s.
Proof.
  induction bs as [|e r IH]; intros s; simpl; [auto|].
  pose proof (reconnect_box_frame e s) as F.
  destruct (reconnect_box e s) as [s1|s1] eqn:E; simpl in F; [|simpl; auto].
  destruct F as [F1 [F2 F3]].
  destruct (IH s1) as [H1 [H2 H3]]. rewrite H1, H2, H3. auto.
Qed.

Lemma filter_length_id (f : string -> bool) l :
  List.length (filter f l) = List.length l -> filter f l = l.
Proof.
  induction l as [|x r IH]; simpl; [reflexivity|].
  pose proof (filter_length_le f r) as Hle.
  destruct (f x); simpl; intros H; [f_equal; apply IH; lia | lia].
Qed.

Lemma dedupe_length l : (List.length (dedupe l) <= List.length l)%nat.
Proof.
  induction l as [|x r IH]; simpl; [lia|].
  pose proof (filter_length_le (fun y => negb (String.eqb y x)) (dedupe r)). lia.
Qed.

Lemma dedupe_shorter l : ~ NoDup l -> (List.length (dedupe l) < List.length l)%nat.
Proof.
  intros H. pose proof (dedupe_length l) as Hle.
  destruct (Nat.eq_dec (List.length (dedupe l)) (List.length l)) as [E|E]; [|lia].
  exfalso. apply H. clear H Hle.
  induction l as [|x r IH]; [constructor|].
  simpl in E. injection E as E.
  pose proof (filter_length_le (fun y => negb (String.eqb y x)) (dedupe r)) as H1.
  pose proof (dedupe_length r) as H2.
  assert (Er : List.length (dedupe r) = List.length r) by lia.
  specialize (IH Er).
  assert (Ef : filter (fun y => negb (String.eqb y x)) (dedupe r) = dedupe r).
  { apply filter_length_id. lia. }
  constructor; [|assumption].
  intros Hx. rewrite <- (dedupe_id r IH), <- Ef in Hx.
  apply filter_In in Hx. destruct Hx as [_ Hx].
  now rewrite String.eqb_refl in Hx.
Qed.

Lemma upload_passes data bs s :
  Json.prop data "boxes" = Some (JArr bs) ->
  page_text_ok (Json.prop data "heading") = true ->
  page_text_ok (Json.prop data "cueText") = true ->
  page_text_ok (Json.prop data "summary") = true ->
  final (upload (Parsed data) s) =
    match restore_boxes bs cleared with
    | Thrown s1 => s1
    | Done s1 => final (reconnect_boxes bs s1)
    end.
Proof.
  intros Hp T1 T2 T3. unfold upload. destruct data; try discriminate.
  rewrite T1, T2, T3, Hp. change (forEach_target (Some (JArr bs))) with (Some bs).
  cbv iota beta. simpl negb. cbv iota.
  destruct (restore_boxes bs cleared); reflexivity.
Qed.

(** X14. The import of a document whose page texts and box values
    have conversions to strings and whose boxes all have an id, an
    ASCII string or an integer below 2^53 of any kind and possibly
    repeated: the page gets one box element for every box of the
    document, in its order, while the Map keeps one entry for every
    distinct id, at the place of its first box; so a document in
    which an id is repeated leaves more boxes on the page than the
    Map has entries.  This holds whether or not the second pass of
    the import throws. *)
Theorem X14_import_repeated_ids (data : json) (bs : list json) (s : State) :
  Json.prop data "boxes" = Some (JArr bs) ->
  page_text_ok (Json.prop data "heading") = true ->
  page_text_ok (Json.prop data "cueText") = true ->
  page_text_ok (Json.prop data "summary") = true ->
  (forall e, In e bs -> loadable e /\ requested (Json.prop e "id") <> None) ->
  let s' := final (upload (Parsed data) s) in
  map id (dom_boxes s') = map box_id bs /\
  keys s' = dedupe (map box_id bs) /\
  (~ NoDup (map box_id bs) -> (List.length (boxes s') < List.length (dom_boxes s'))%nat).
Proof.
  intros Hp T1 T2 T3 H. cbv zeta.
  pose proof (upload_passes data bs s Hp T1 T2 T3) as Hu.
  destruct (restore_boxes_ids bs cleared H) as [s1 [E [Hk Hd]]].
  rewrite Hu, E.
  destruct (reconnect_boxes_frame bs s1) as [F1 [_ F3]].
  assert (Hkeys : keys (final (reconnect_boxes bs s1)) = dedupe (map box_id bs)).
  { unfold keys. rewrite <- keys_shape, F1, keys_shape. fold (keys s1).
    rewrite Hk. simpl. apply forallb_filter_id. apply forallb_forall. reflexivity. }
  assert (Hdom : map id (dom_boxes (final (reconnect_boxes bs s1))) = map box_id bs).
  { now rewrite F3, Hd. }
  split; [exact Hdom|]. split; [exact Hkeys|].
  intros Hnd. apply dedupe_shorter in Hnd.
  rewrite <- Hkeys, <- Hdom in Hnd. unfold keys, map_keys in Hnd.
  now rewrite !length_map in Hnd.
Qed.

(** The side conditions of the sample documents. *)
Ltac loadable_box :=
  split; [discriminate|]; repeat (split; [reflexivity|]); split;
  [ intros w Hw; cbv in Hw; first [discriminate Hw | injection Hw; intros <-];
    first [ left; eexists; split; reflexivity
          | right; eexists; split; [reflexivity | reflexivity] ]
  | intros a Ha; cbv in Ha; first [discriminate Ha | injection Ha; intros <-];
    intros x Hx; simpl in Hx;
    repeat (destruct Hx as [<-|Hx];
            [first [ left; eexists; split; reflexivity
                   | right; eexists; split; [reflexivity | reflexivity] ]|]);
    destruct Hx ].

Lemma X14_import_repeated_ids_witness :
  Json.prop doc_twice "boxes" =
    Some (JArr [ JObj [ ("id", JStr "5"); ("content", JStr "first") ];
                 JObj [ ("id", JNum 5); ("content", JStr "second") ] ]) /\
  page_text_ok (Json.prop doc_twice "heading") = true /\
  page_text_ok (Json.prop doc_twice "cueText") = true /\
  page_text_ok (Json.prop doc_twice "summary") = true /\
  (forall e, In e [ JObj [ ("id", JStr "5"); ("content", JStr "first") ];
                    JObj [ ("id", JNum 5); ("content", JStr "second") ] ] ->
     loadable e /\ requested (Json.prop e "id") <> None) /\
  let s' := final (upload (Parsed doc_twice) page0) in
  map id (dom_boxes s') = ["5"; "5"] /\
  keys s' = ["5"] /\
  (~ NoDup ["5"; "5"] -> (List.length (boxes s') < List.length (dom_boxes s'))%nat).
Proof.
  assert (H : forall e, In e [ JObj [ ("id", JStr "5"); ("content", JStr "first") ];
                               JObj [ ("id", JNum 5); ("content", JStr "second") ] ] ->
              loadable e /\ requested (Json.prop e "id") <> None).
  { intros e [<-|[<-|[]]]; (split; [loadable_box | discriminate]). }
  split; [reflexivity|]. split; [reflexivity|]. split; [reflexivity|].
  split; [reflexivity|]. split; [exact H|].
  apply (X14_import_repeated_ids doc_twice _ page0 eq_refl eq_refl eq_refl eq_refl H).
Defined.

Lemma requested_none v :
  requested v = None -> Json.String v = "undefined" \/ Json.String v = "null".
Proof. destruct v as [[]|]; simpl; try discriminate; auto. Qed.

Lemma newLine_no_first a b s : hasElement s a = false -> newLine a b s = s.
Proof. intros H. unfold newLine. now rewrite H. Qed.

(** The second pass does nothing for boxes whose id names no element. *)
Lemma reconnect_boxes_unknown bs : forall s,
  (forall e, In e bs -> hasElement s (box_id e) = false) ->
  final (reconnect_boxes bs s) = s.
Proof.
  induction bs as [|e r IH]; intros s H; [reflexivity|].
  simpl reconnect_boxes.
  assert (He : hasElement s (box_id e) = false) by (apply H; now left).
  assert (Hf : forall ls, link_each (Json.prop e "id") ls s = Done s \/
                          link_each (Json.prop e "id") ls s = Thrown s).
  { induction ls as [|x ls IHl]; simpl; [now left|].
    destruct (Json.converts _ && Json.convertible x); [|now right].
    fold (box_id e). now rewrite (newLine_no_first _ _ _ He). }
  assert (E : reconnect_box e s = Done s \/ reconnect_box e s = Thrown s).
  { unfold reconnect_box.
    destruct (forEach_target (Json.prop e "lines")) as [ls|];
      [destruct (Hf ls) as [-> | ->]|]; destruct e; auto. }
  destruct E as [-> | ->]; [|reflexivity].
  apply IH. intros e' He'. apply H. now right.
Qed.

(** Ids handed out by the allocator from 1 on. *)
Lemma counted_fresh t :
  ~ In (JS.nat_str (N.of_nat (S t)))
       (map (fun i => JS.nat_str (N.of_nat i)) (seq 1 t)).
Proof.
  intros H. apply in_map_iff in H. destruct H as [i [E Hi]].
  apply nat_str_inj in E. apply in_seq in Hi. lia.
Qed.

Lemma counted_unknown t x :
  x = "undefined" \/ x = "null" ->
  mem x (map (fun i => JS.nat_str (N.of_nat i)) (seq 1 t)) = false.
Proof.
  intros Hx. apply mem_false. intros H. apply in_map_iff in H.
  destruct H as [i [E _]]. pose proof (nat_str_digits (N.of_nat i)) as Hd.
  rewrite E in Hd. destruct Hx as [-> | ->]; discriminate.
Qed.

(** The first pass on an element without an id. *)
Lemma restore_box_anon e s t :
  loadable e -> requested (Json.prop e "id") = None ->
  totalBoxes s = JS.Fin (Z.of_nat t) ->
  keys s = map (fun i => JS.nat_str (N.of_nat i)) (seq 1 t) ->
  exists s1 b, restore_box e s = Done s1 /\
    id b = JS.nat_str (N.of_nat (S t)) /\
    boxes s1 = (boxes s ++ [(JS.nat_str (N.of_nat (S t)), mkEntry b (restored_lines e))])%list /\
    totalBoxes s1 = JS.Fin (Z.of_nat (S t)) /\
    dom_boxes s1 = (dom_boxes s ++ [b])%list /\
    dom_lines s1 = dom_lines s.
Proof.
  intros L Hreq Ht Hk.
  assert (Hfresh : ~ In (JS.nat_str (N.of_nat (S t))) (map_keys (boxes s))).
  { fold (keys s). rewrite Hk. apply counted_fresh. }
  assert (Hid : JS.int_str (Z.of_nat t + 1) = JS.nat_str (N.of_nat (S t))).
  { replace (Z.of_nat t + 1) with (Z.of_N (N.of_nat (S t))) by lia.
    apply int_str_of_N. }
  assert (Hmax : Z.max (Z.of_nat t + 1) (Z.of_N (N.of_nat (S t))) = Z.of_nat (S t))
    by lia.
  pose proof (Number_nat_str (N.of_nat (S t))) as Hnum.
  destruct (created e s) as [s1 nb] eqn:Ec.
  destruct (restore_box_loadable e s s1 nb L Ec) as [b [Hb E]].
  revert Hfresh Hid Hmax Hnum. generalize (JS.nat_str (N.of_nat (S t))) as k.
  generalize (Z.of_N (N.of_nat (S t))) as m. generalize (Z.of_nat (S t)) as m'.
  intros m' m k Hfresh Hid Hmax Hnum.
  unfold created in Ec. rewrite Hreq in Ec. unfold createNewBlock in Ec.
  simpl option_map in Ec. cbv beta iota zeta in Ec. rewrite Ht in Ec.
  simpl JS.incr in Ec. simpl JS.num_str in Ec. rewrite Hid, Hnum in Ec.
  simpl JS.max in Ec. rewrite Hmax in Ec.
  injection Ec; intros <- <-.
  simpl id in *. simpl boxes in E. simpl dom_boxes in E. simpl totalBoxes in E.
  simpl dom_lines in E.
  rewrite (map_set_twice_fresh _ _ _ _ Hfresh), set_last_app in E.
  eexists. exists b. split; [exact E|]. repeat split. exact Hb.
Qed.

Lemma restore_boxes_anon bs : forall s t,
  (forall e, In e bs -> loadable e /\ requested (Json.prop e "id") = None) ->
  totalBoxes s = JS.Fin (Z.of_nat t) ->
  keys s = map (fun i => JS.nat_str (N.of_nat i)) (seq 1 t) ->
  map id (dom_boxes s) = keys s ->
  exists s1, restore_boxes bs s = Done s1 /\
    totalBoxes s1 = JS.Fin (Z.of_nat (t + List.length bs)) /\
    keys s1 = map (fun i => JS.nat_str (N.of_nat i)) (seq 1 (t + List.length bs)) /\
    map id (dom_boxes s1) = keys s1 /\
    dom_lines s1 = dom_lines s /\
    map (fun p => lines (snd p)) (boxes s1) =
      (map (fun p => lines (snd p)) (boxes s) ++ map restored_lines bs)%list.
Proof.
  induction bs as [|e r IH]; intros s t H Ht Hk Hd.
  - exists s. simpl. rewrite Nat.add_0_r, List.app_nil_r.
    repeat (split; [first [reflexivity | assumption]|]). reflexivity.
  - destruct (H e (or_introl eq_refl)) as [Hn Hreq].
    destruct (restore_box_anon e s t Hn Hreq Ht Hk) as [sm [b [E [Hb [Bm [Tm [Dm Lm]]]]]]].
    assert (Km : keys sm = map (fun i => JS.nat_str (N.of_nat i)) (seq 1 (S t))).
    { unfold keys, map_keys. rewrite Bm, map_app. fold (map_keys (boxes s)).
      fold (keys s). rewrite Hk, seq_S, map_app. reflexivity. }
    assert (Dm' : map id (dom_boxes sm) = keys sm).
    { rewrite Dm, map_app, Hd, Km, Hk, seq_S, map_app. simpl. now rewrite Hb. }
    destruct (IH sm (S t)) as [s1 [E1 [T1 [K1 [D1 [L1 R1]]]]]]; try assumption.
    { intros e' He'. apply H. now right. }
    exists s1. simpl restore_boxes. rewrite E. split; [exact E1|].
    simpl List.length. replace (t + S (List.length r))%nat with (S t + List.length r)%nat by lia.
    repeat (split; [assumption|]). split; [congruence|].
    rewrite R1, Bm, map_app, <- List.app_assoc. reflexivity.
Qed.

(** X15. The import of a document whose page texts and box values
    have conversions to strings, with fewer than 2^53 boxes none of
    which has an id (the property is missing or [null]): the boxes
    are numbered from 1 on in the order of the document and the
    counter is their number; no line is drawn, whatever the [lines]
    arrays of the document hold, although these arrays are kept as
    the neighbour lists. *)
Theorem X15_import_without_ids (data : json) (bs : list json) (s : State) :
  Json.prop data "boxes" = Some (JArr bs) ->
  page_text_ok (Json.prop data "heading") = true ->
  page_text_ok (Json.prop data "cueText") = true ->
  page_text_ok (Json.prop data "summary") = true ->
  Z.of_nat (List.length bs) < Z.of_N id_limit ->
  (forall e, In e bs -> loadable e /\ requested (Json.prop e "id") = None) ->
  let s' := final (upload (Parsed data) s) in
  keys s' = map (fun i => JS.nat_str (N.of_nat i)) (seq 1 (List.length bs)) /\
  map id (dom_boxes s') = keys s' /\
  totalBoxes s' = JS.Fin (Z.of_nat (List.length bs)) /\
  dom_lines s' = [] /\
  map (fun p => lines (snd p)) (boxes s') = map restored_lines bs.
Proof.
  intros Hp T1 T2 T3 _ H. cbv zeta.
  pose proof (upload_passes data bs s Hp T1 T2 T3) as Hu.
  destruct (restore_boxes_anon bs cleared 0 H eq_refl eq_refl eq_refl)
    as [s1 [E [Tc [K1 [D1 [L1 R1]]]]]].
  rewrite Hu, E. rewrite reconnect_boxes_unknown.
  - simpl in *. auto.
  - intros e He. destruct (H e He) as [_ Hreq]. unfold hasElement.
    rewrite D1, K1, L1.
    pose proof (requested_none _ Hreq) as Hx. fold (box_id e) in Hx.
    rewrite (counted_unknown _ _ Hx). destruct Hx as [-> | ->]; reflexivity.
Qed.

Lemma X15_import_without_ids_witness :
  Json.prop doc_anonymous "boxes" =
    Some (JArr [ JObj [ ("content", JStr "a"); ("lines", JArr [ JStr "2" ]) ];
                 JObj [ ("id", JNull); ("content", JStr "b") ] ]) /\
  page_text_ok (Json.prop doc_anonymous "heading") = true /\
  page_text_ok (Json.prop doc_anonymous "cueText") = true /\
  page_text_ok (Json.prop doc_anonymous "summary") = true /\
  Z.of_nat 2 < Z.of_N id_limit /\
  (forall e, In e [ JObj [ ("content", JStr "a"); ("lines", JArr [ JStr "2" ]) ];
                    JObj [ ("id", JNull); ("content", JStr "b") ] ] ->
     loadable e /\ requested (Json.prop e "id") = None) /\
  let s' := final (upload (Parsed doc_anonymous) page0) in
  keys s' = ["1"; "2"] /\
  map id (dom_boxes s') = keys s' /\
  totalBoxes s' = JS.Fin 2 /\
  dom_lines s' = [] /\
  map (fun p => lines (snd p)) (boxes s') = [["2"]; []].
Proof.
  assert (H : forall e, In e [ JObj [ ("content", JStr "a"); ("lines", JArr [ JStr "2" ]) ];
                               JObj [ ("id", JNull); ("content", JStr "b") ] ] ->
              loadable e /\ requested (Json.prop e "id") = None).
  { intros e [<-|[<-|[]]]; (split; [loadable_box | reflexivity]). }
  assert (B : Z.of_nat 2 < Z.of_N id_limit) by reflexivity.
  split; [reflexivity|]. split; [reflexivity|]. split; [reflexivity|].
  split; [reflexivity|]. split; [exact B|]. split; [exact H|].
  apply (X15_import_without_ids doc_anonymous _ page0 eq_refl eq_refl eq_refl
           eq_refl B H).
Defined.

Lemma max_NaN_r x : JS.max x JS.NaN = JS.NaN.
Proof. destruct x; reflexivity. Qed.

(** A text that starts with a lower-case letter does not read as a
    number. *)
Lemma Number_lower_first t : lower_first t = true -> JS.Number t = JS.NaN.
Proof.
  destruct t as [|c r]; [discriminate|]. intros H.
  assert (Hw : JS.is_ws c = false).
  { destruct c as [[|] [|] [|] [|] [|] [|] [|] [|]];
      try discriminate H; reflexivity. }
  unfold JS.Number, JS.trim. simpl JS.skip_ws. rewrite Hw.
  destruct (drop_ws_end_head c r Hw) as [r' ->].
  destruct c as [[|] [|] [|] [|] [|] [|] [|] [|]]; try discriminate H;
    unfold JS.signed, JS.nonempty_digits, JS.digits_value; simpl;
    destruct (NilEmpty.uint_of_string r'); reflexivity.
Qed.

(** The first pass on an element for which it returns: how the
    counter moves. *)
Lemma restore_box_counter e s :
  loadable e ->
  exists s1, restore_box e s = Done s1 /\
    (totalBoxes s = JS.NaN -> totalBoxes s1 = JS.NaN) /\
    (forall t, Json.prop e "id" = Some (JStr t) -> lower_first t = true ->
     totalBoxes s1 = JS.NaN).
Proof.
  intros L.
  destruct (created e s) as [s1 nb] eqn:Ec.
  destruct (restore_box_loadable e s s1 nb L Ec) as [b [Hb E]].
  eexists. split; [exact E|]. simpl totalBoxes.
  unfold created, createNewBlock in Ec.
  split.
  - intros Ht. rewrite Ht in Ec.
    destruct (option_map Json.str (requested (Json.prop e "id")));
      cbv beta iota zeta in Ec; injection Ec; intros _ <-; reflexivity.
  - intros t Hid Hl. rewrite Hid in Ec. simpl in Ec.
    rewrite (Number_lower_first t Hl) in Ec.
    injection Ec; intros _ <-. simpl. apply max_NaN_r.
Qed.

Lemma restore_boxes_counter bs : forall s,
  (forall e, In e bs -> loadable e) ->
  exists s1, restore_boxes bs s = Done s1 /\
    (totalBoxes s = JS.NaN \/
     (exists e t, In e bs /\ Json.prop e "id" = Some (JStr t) /\
                  lower_first t = true) ->
     totalBoxes s1 = JS.NaN).
Proof.
  induction bs as [|e r IH]; intros s H.
  - exists s. split; [reflexivity|]. intros [Ht|[e [t [[] _]]]]. exact Ht.
  - destruct (restore_box_counter e s (H e (or_introl eq_refl))) as [sm [E [H1 H2]]].
    destruct (IH sm) as [s1 [E1 H3]]; [intros; apply H; now right|].
    exists s1. simpl restore_boxes. rewrite E. split; [exact E1|].
    intros [Ht|[e' [t [[<-|He'] [Hr Hl]]]]]; apply H3.
    + left. now apply H1.
    + left. now apply (H2 t).
    + right. exists e', t. auto.
Qed.

(** X16. The import of a document whose page texts and box values
    have conversions to strings, with a box whose id is a text that
    starts with a lower-case letter and so does not read as a number,
    leaves the counter at [NaN], and from then on every box that is
    created gets the id [NaN] and the counter stays [NaN]: all boxes
    created after such an import share one id. *)
Theorem X16_import_NaN_counter (data : json) (bs : list json) (s : State) :
  Json.prop data "boxes" = Some (JArr bs) ->
  page_text_ok (Json.prop data "heading") = true ->
  page_text_ok (Json.prop data "cueText") = true ->
  page_text_ok (Json.prop data "summary") = true ->
  (forall e, In e bs -> loadable e) ->
  (exists e t, In e bs /\ Json.prop e "id" = Some (JStr t) /\
               lower_first t = true) ->
  let s' := final (upload (Parsed data) s) in
  totalBoxes s' = JS.NaN /\
  forall s1, totalBoxes s1 = JS.NaN ->
    forall x y c,
      id (snd (createNewBlock x y c None s1)) = "NaN" /\
      totalBoxes (fst (createNewBlock x y c None s1)) = JS.NaN.
Proof.
  intros Hp T1 T2 T3 Hn Hex. cbv zeta. split.
  - pose proof (upload_passes data bs s Hp T1 T2 T3) as Hu.
    destruct (restore_boxes_counter bs cleared Hn) as [s1 [E Ht]].
    rewrite Hu, E.
    destruct (reconnect_boxes_frame bs s1) as [_ [F2 _]].
    rewrite F2. apply Ht. now right.
  - intros s1 Ht x y c. unfold createNewBlock.
    cbv beta iota zeta. rewrite Ht. split; reflexivity.
Qed.

Lemma X16_import_NaN_counter_witness :
  Json.prop doc_named "boxes" =
    Some (JArr [ JObj [ ("id", JStr "1") ];
                 JObj [ ("id", JStr "root"); ("lines", JArr [ JStr "1" ]) ] ]) /\
  page_text_ok (Json.prop doc_named "heading") = true /\
  page_text_ok (Json.prop doc_named "cueText") = true /\
  page_text_ok (Json.prop doc_named "summary") = true /\
  (forall e, In e [ JObj [ ("id", JStr "1") ];
                    JObj [ ("id", JStr "root"); ("lines", JArr [ JStr "1" ]) ] ] ->
     loadable e) /\
  (exists e t, In e [ JObj [ ("id", JStr "1") ];
                      JObj [ ("id", JStr "root"); ("lines", JArr [ JStr "1" ]) ] ] /\
               Json.prop e "id" = Some (JStr t) /\ lower_first t = true) /\
  let s' := final (upload (Parsed doc_named) page0) in
  totalBoxes s' = JS.NaN /\
  forall s1, totalBoxes s1 = JS.NaN ->
    forall x y c,
      id (snd (createNewBlock x y c None s1)) = "NaN" /\
      totalBoxes (fst (createNewBlock x y c None s1)) = JS.NaN.
Proof.
  assert (H1 : forall e, In e [ JObj [ ("id", JStr "1") ];
                    JObj [ ("id", JStr "root"); ("lines", JArr [ JStr "1" ]) ] ] ->
               loadable e).
  { intros e [<-|[<-|[]]]; loadable_box. }
  assert (H2 : exists e t, In e [ JObj [ ("id", JStr "1") ];
                    JObj [ ("id", JStr "root"); ("lines", JArr [ JStr "1" ]) ] ] /\
             Json.prop e "id" = Some (JStr t) /\ lower_first t = true).
  { exists (JObj [ ("id", JStr "root"); ("lines", JArr [ JStr "1" ]) ]), "root".
    split; [right; left; reflexivity|]. split; reflexivity. }
  split; [reflexivity|]. split; [reflexivity|]. split; [reflexivity|].
  split; [reflexivity|]. split; [exact H1|]. split; [exact H2|].
  apply (X16_import_NaN_counter doc_named _ page0 eq_refl eq_refl eq_refl eq_refl
           H1 H2).
Defined.

(** X17. In every state reached with decimal ids below 2^53 (see
    [numbered]) the page and the Map show the same boxes: the children
    of [#boxes] are the box elements of the Map entries, in the order
    of the Map, each stored under its own id, and no id occurs twice;
    no line id occurs twice either, and every line joins two boxes of
    the Map under the id made of their ids in numeric order. *)
Theorem X17_page_matches_store (seed : BoxElem) (s : State) :
  id seed = "1" -> numbered seed s ->
  dom_boxes s = map (fun p => box (snd p)) (boxes s) /\
  (forall k e, In (k, e) (boxes s) -> id (box e) = k) /\
  NoDup (map id (dom_boxes s)) /\
  NoDup (dom_lines s) /\
  (forall l, In l (dom_lines s) ->
     exists a b, In a (keys s) /\ In b (keys s) /\ l = lineIdOf a b).
Proof.
  intros Hseed R. pose proof (numbered_Inv seed s Hseed R) as I.
  split; [|split; [|split; [|split]]].
  - rewrite (inv_dom s I). unfold shape. rewrite map_map. reflexivity.
  - intros k e H. apply (inv_entry_id s I k (box e)).
    unfold shape. apply in_map_iff. exists (k, e). auto.
  - rewrite (Inv_dom_ids s I). apply (inv_keys_nodup s I).
  - apply (inv_lines_nodup s I).
  - intros l Hl. destruct (inv_lines_sound s I l Hl) as [a [b [Ka [Kb [E _]]]]].
    exists a, b. auto.
Qed.

Lemma X17_page_matches_store_witness :
  id seed0 = "1" /\ numbered seed0 path123 /\
  dom_boxes path123 = map (fun p => box (snd p)) (boxes path123) /\
  (forall k e, In (k, e) (boxes path123) -> id (box e) = k) /\
  NoDup (map id (dom_boxes path123)) /\
  NoDup (dom_lines path123) /\
  (forall l, In l (dom_lines path123) ->
     exists a b, In a (keys path123) /\ In b (keys path123) /\ l = lineIdOf a b).
Proof.
  split; [reflexivity|]. split; [apply numbered_path123|].
  apply (X17_page_matches_store seed0 path123 eq_refl numbered_path123).
Defined.

(** *** Links from the text to a box *)

Lemma until_quote_plain v q rest :
  plain_text v = true -> is_quote q = true ->
  until_quote (v ++ String q rest) = Some v.
Proof.
  intros Hv Hq. induction v as [|c r IH]; simpl.
  - now rewrite Hq.
  - simpl in Hv. apply andb_true_iff in Hv. destruct Hv as [Hc Hr].
    apply andb_true_iff in Hc. destruct Hc as [H1 H2].
    apply negb_true_iff in H1. apply negb_true_iff in H2.
    rewrite H1, H2, (IH Hr). reflexivity.
Qed.

Lemma link_here_onclick v q rest :
  plain_text v = true -> is_quote q = true ->
  link_here ("window.location.href='#" ++ v ++ String q rest) = Some v.
Proof.
  intros Hv Hq. unfold link_here.
  change ("window.location.href='#" ++ v ++ String q rest)
    with ("window.location.href" ++ "='#" ++ v ++ String q rest).
  rewrite strip_prefix_app.
  change (JS.skip_ws ("='#" ++ v ++ String q rest)) with ("=" ++ "'#" ++ v ++ String q rest).
  rewrite strip_prefix_app.
  change (JS.skip_ws ("'#" ++ v ++ String q rest))
    with (String "'" ("#" ++ v ++ String q rest)).
  change (is_quote "'") with true. cbv iota.
  rewrite strip_prefix_app. now apply until_quote_plain.
Qed.

(** X18. [getLink] reads back the value the link dropdown wrote into
    an [onclick] attribute, for every ASCII value without quotation
    marks and line ends, and so for every box id; a value with a
    quotation mark after such a text is read up to that mark. *)
Theorem X18_getLink_reads_onclick (v : string) :
  ascii_text v = true -> plain_text v = true ->
  getLink (onclick_of v) = Some v /\
  (forall q rest, is_quote q = true ->
     getLink (onclick_of (v ++ String q rest)) = Some v) /\
  (forall n, getLink (onclick_of (JS.nat_str n)) = Some (JS.nat_str n)).
Proof.
  intros _ Hv.
  assert (G : forall u q rest, plain_text u = true -> is_quote q = true ->
            getLink ("window.location.href='#" ++ u ++ String q rest) = Some u).
  { intros u q rest Hu Hq. unfold getLink.
    pose proof (link_here_onclick u q rest Hu Hq) as H.
    change ("window.location.href='#" ++ u ++ String q rest)
      with (String "w" ("indow.location.href='#" ++ u ++ String q rest)) in *.
    unfold search; fold (@search string). now rewrite H. }
  split; [|split].
  - unfold onclick_of. now apply (G v "'"%char "").
  - intros q rest Hq. unfold onclick_of.
    rewrite append_assoc3. now apply G.
  - intros n. unfold onclick_of. apply (G _ "'"%char ""); [|reflexivity].
    pose proof (nat_str_digits n) as Hd.
    induction (JS.nat_str n) as [|c r IH]; simpl in *; [reflexivity|].
    apply andb_true_iff in Hd. destruct Hd as [Hc Hr]. rewrite (IH Hr).
    rewrite andb_true_r.
    destruct c as [[|] [|] [|] [|] [|] [|] [|] [|]]; try discriminate; reflexivity.
Qed.

Lemma X18_getLink_reads_onclick_witness :
  ascii_text "none" = true /\ plain_text "none" = true /\
  getLink (onclick_of "none") = Some "none" /\
  (forall q rest, is_quote q = true ->
     getLink (onclick_of ("none" ++ String q rest)) = Some "none") /\
  (forall n, getLink (onclick_of (JS.nat_str n)) = Some (JS.nat_str n)).
Proof.
  split; [reflexivity|]. split; [reflexivity|].
  apply (X18_getLink_reads_onclick "none" eq_refl eq_refl).
Defined.
